(** * PetHub calendar core: a shallow embedding of [calendarapp/views.py]

    The development follows the source file top-down: the pieces of
    Python's [datetime.date] the views rely on, the form records
    ([EventFormData], [ReminderFormData]), the two tables the views read and
    write ([Event], [ReminderSettings]), then [EventService],
    [ReminderService], the planning helpers, [delete_event] and
    [create_next_year_events].  Effects on the tables are threaded through a
    small state-and-exception monad, so that a Python exception keeps the
    writes made before it unless the code runs inside [transaction.atomic]. *)

From Stdlib Require Import ZArith List Bool String Lia DecimalString.
Import ListNotations.
Local Open Scope string_scope.
Local Open Scope Z_scope.

Set Implicit Arguments.

(** ** Exceptions *)

Inductive exn : Type :=
| ValueError        (* datetime.date out of range, bulk_update without pk *)
| AttributeError    (* attribute access on None *)
| IndexError        (* index into an empty list *)
| Http404.          (* get_object_or_404 *)

(** ** [datetime.date] *)

Module PyDate.

Definition MINYEAR : Z := 1.
Definition MAXYEAR : Z := 9999.

(** [_is_leap]: year % 4 == 0 and (year % 100 != 0 or year % 400 == 0). *)
Definition is_leap (y : Z) : bool :=
  (y mod 4 =? 0) && (negb (y mod 100 =? 0) || (y mod 400 =? 0)).

(** [_days_in_month] *)
Definition days_in_month (y m : Z) : Z :=
  if m =? 2 then (if is_leap y then 29 else 28)
  else if (m =? 4) || (m =? 6) || (m =? 9) || (m =? 11) then 30
  else 31.

Record date : Type := Date { year : Z; month : Z; day : Z }.

(** The checks of [_check_date_fields]. *)
Definition valid (y m d : Z) : bool :=
  (MINYEAR <=? y) && (y <=? MAXYEAR) &&
  (1 <=? m) && (m <=? 12) &&
  (1 <=? d) && (d <=? days_in_month y m).

(** [date(y, m, d)]: the object, or [ValueError]. *)
Definition new (y m d : Z) : exn + date :=
  if valid y m d then inr (Date y m d) else inl ValueError.

Definition wf (d : date) : Prop := valid (year d) (month d) (day d) = true.

Definition eqb (a b : date) : bool :=
  (year a =? year b) && (month a =? month b) && (day a =? day b).

Definition year_in_range (y : Z) : bool := (MINYEAR <=? y) && (y <=? MAXYEAR).

End PyDate.

Abbreviation date := PyDate.date.
Abbreviation Date := PyDate.Date.

(** [datetime.time], as far as the views use it: an opaque value that is
    copied around. *)
Record time : Type := Time { hour : Z; minute : Z }.

(** Python truthiness of [Optional] values, as used in [if x:] tests. *)
Definition truthy_int (x : option Z) : bool :=
  match x with Some n => negb (n =? 0) | None => false end.

Definition is_some {A : Type} (x : option A) : bool :=
  match x with Some _ => true | None => false end.

(** ** Form records *)

Record EventFormData : Type := {
  title      : string;
  event_type : string;
  date_      : option date;        (* [date] *)
  time_      : option time;        (* [time] *)
  duration   : option Z;
  note       : string;
  is_yearly  : bool
}.

Record ReminderFormData : Type := {
  remind_at    : option time;
  remind_date  : option date;
  repeat       : bool;
  repeat_days  : list string;
  repeat_every : Z
}.

(** *** [ReminderFormData.from_post]

    The POST data is a [QueryDict]; [strptime] and [int] are the library
    parsers, which answer with a value or raise. *)

Record QueryDict : Type := {
  qd_get     : string -> option string;
  qd_getlist : string -> list string
}.

Section FromPost.

Variable strptime_time : string -> exn + time.   (* format %H:%M *)
Variable strptime_date : string -> exn + date.   (* format %Y-%m-%d *)
Variable int_of_str : string -> exn + Z.         (* [int(value)] *)

(** The shape shared by [parse_time], [parse_date] and [parse_int]: nothing
    for a missing or short value, nothing when the parser raises
    [ValueError]. *)
Definition parse_with {A} (min_len : nat) (parser : string -> exn + A)
    (value : option string) : exn + option A :=
  match value with
  | None => inr None
  | Some v =>
      if (String.length v =? 0)%nat || (String.length v <? min_len)%nat
      then inr None
      else match parser v with
           | inr x => inr (Some x)
           | inl ValueError => inr None
           | inl e => inl e
           end
  end.

Definition parse_time : option string -> exn + option time :=
  parse_with 5 strptime_time.

Definition parse_date : option string -> exn + option date :=
  parse_with 10 strptime_date.

Definition parse_int : option string -> exn + option Z :=
  parse_with 0 int_of_str.

Definition option_str_eqb (x : option string) (s : string) : bool :=
  match x with
  | Some v => String.eqb v s
  | None => false
  end.

Definition from_post (post_data : QueryDict) : exn + ReminderFormData :=
  let repeat_ := option_str_eqb (qd_get post_data "repeat") "on" in
  match parse_int (qd_get post_data "repeat_every") with
  | inl e => inl e
  | inr parsed =>
      let repeat_every_ := match parsed with
                           | Some n => if n =? 0 then 1 else n   (* [or 1] *)
                           | None => 1
                           end in
      let repeat_every_ := if repeat_every_ <=? 0 then 1 else repeat_every_ in
      match parse_time (qd_get post_data "remind_at") with
      | inl e => inl e
      | inr at_ =>
          match (if negb repeat_ then parse_date (qd_get post_data "remind_date")
                 else inr None) with
          | inl e => inl e
          | inr date_ =>
              inr {| remind_at := at_;
                     remind_date := date_;
                     repeat := repeat_;
                     repeat_days := if repeat_ then qd_getlist post_data "repeat_days"
                                    else [];
                     repeat_every := repeat_every_ |}
          end
      end
  end.

End FromPost.

(** ** Tables

    Modelled from the spec: [calendarapp/models.py] is not among the
    sources, so the two model classes are records with the columns the views
    and tests name ([Event]: section 3 "Entry"; [ReminderSettings]: section 3
    "ReminderConfig").  [ev_original_event] is the foreign-key column
    [original_event_id]; an instance that was never saved has [ev_id = None].
    The owning pet is an opaque key.  Rows are stored as they are given: the
    views and tests show no [save] override, signal or constraint. *)

Definition Pet : Type := Z.

Record Event : Type := {
  ev_id               : option Z;
  ev_pet              : Pet;
  ev_title            : string;
  ev_event_type       : string;
  ev_date             : date;
  ev_time             : option time;
  ev_duration_minutes : option Z;
  ev_note             : string;
  ev_is_yearly        : bool;
  ev_is_done          : bool;
  ev_done_year        : option Z;
  ev_original_event   : option Z
}.

Record ReminderSettings : Type := {
  rs_event        : option Z;       (* one-to-one key [event_id] *)
  rs_pet          : Pet;
  rs_remind_at    : option time;
  rs_repeat       : bool;
  rs_repeat_days  : list string;
  rs_repeat_every : Z;
  rs_remind_date  : option date
}.

Record DB : Type := {
  events    : list Event;           (* rows in insertion order *)
  reminders : list ReminderSettings;
  next_id   : Z                     (* next primary key of [events] *)
}.

Definition set_events (db : DB) (rows : list Event) : DB :=
  {| events := rows; reminders := reminders db; next_id := next_id db |}.

Definition set_reminders (db : DB) (rs : list ReminderSettings) : DB :=
  {| events := events db; reminders := rs; next_id := next_id db |}.

Definition with_id (e : Event) (i : option Z) : Event :=
  {| ev_id := i; ev_pet := ev_pet e; ev_title := ev_title e;
     ev_event_type := ev_event_type e; ev_date := ev_date e;
     ev_time := ev_time e; ev_duration_minutes := ev_duration_minutes e;
     ev_note := ev_note e; ev_is_yearly := ev_is_yearly e;
     ev_is_done := ev_is_done e; ev_done_year := ev_done_year e;
     ev_original_event := ev_original_event e |}.

Definition with_original_event (e : Event) (o : option Z) : Event :=
  {| ev_id := ev_id e; ev_pet := ev_pet e; ev_title := ev_title e;
     ev_event_type := ev_event_type e; ev_date := ev_date e;
     ev_time := ev_time e; ev_duration_minutes := ev_duration_minutes e;
     ev_note := ev_note e; ev_is_yearly := ev_is_yearly e;
     ev_is_done := ev_is_done e; ev_done_year := ev_done_year e;
     ev_original_event := o |}.

Definition opt_Z_eqb (a b : option Z) : bool :=
  match a, b with
  | Some x, Some y => x =? y
  | None, None => true
  | _, _ => false
  end.

(** ** The state-and-exception monad of the views *)

Definition M (A : Type) : Type := DB -> (exn + A) * DB.

Definition ret {A} (a : A) : M A := fun db => (inr a, db).

Definition raise {A} (e : exn) : M A := fun db => (inl e, db).

Definition bind {A B} (m : M A) (k : A -> M B) : M B :=
  fun db =>
    match m db with
    | (inr a, db') => k a db'
    | (inl e, db') => (inl e, db')
    end.

Notation "x <- m ;; k" := (bind m (fun x => k))
  (at level 61, m at next level, right associativity).

(** A pure computation that may raise. *)
Definition lift {A} (r : exn + A) : M A := fun db => (r, db).

(** A query: reads the tables. *)
Definition query {A} (f : DB -> A) : M A := fun db => (inr (f db), db).

(** [with transaction.atomic(): m]: an exception that leaves the block rolls
    its writes back and propagates. *)
Definition atomic {A} (m : M A) : M A :=
  fun db =>
    match m db with
    | (inr a, db') => (inr a, db')
    | (inl e, _) => (inl e, db)
    end.

(** ** The ORM calls the views make *)

Module ORM.

(** [event.save()]: INSERT with a fresh primary key for an unsaved
    instance, UPDATE of the row with the same key otherwise. *)
Definition save (e : Event) : M Event :=
  fun db =>
    match ev_id e with
    | None =>
        let e' := with_id e (Some (next_id db)) in
        (inr e', {| events := events db ++ [e'];
                    reminders := reminders db;
                    next_id := next_id db + 1 |})
    | Some _ =>
        (inr e, set_events db
                  (map (fun r => if opt_Z_eqb (ev_id r) (ev_id e) then e else r)
                       (events db)))
    end.

(** [Event.objects.create(...)]: build and INSERT. *)
Definition create (e : Event) : M Event := save (with_id e None).

(** [Event.objects.bulk_create(objs)]: one INSERT per object, in order;
    the objects come back with their keys set. *)
Fixpoint bulk_create (objs : list Event) : M (list Event) :=
  match objs with
  | [] => ret []
  | e :: rest =>
      e' <- save (with_id e None) ;;
      rest' <- bulk_create rest ;;
      ret (e' :: rest')
  end.

(** The seven columns [update_events] passes to [bulk_update]. *)
Definition copy_edit_fields (row obj : Event) : Event :=
  {| ev_id := ev_id row; ev_pet := ev_pet row;
     ev_title := ev_title obj; ev_event_type := ev_event_type obj;
     ev_date := ev_date obj; ev_time := ev_time obj;
     ev_duration_minutes := ev_duration_minutes obj;
     ev_note := ev_note obj; ev_is_yearly := ev_is_yearly obj;
     ev_is_done := ev_is_done row; ev_done_year := ev_done_year row;
     ev_original_event := ev_original_event row |}.

Definition find_by_id (objs : list Event) (i : option Z) : option Event :=
  find (fun o => opt_Z_eqb (ev_id o) i) objs.

(** [Event.objects.bulk_update(objs, fields)]: [ValueError] when an object
    has no primary key; otherwise every row whose key is that of an
    object takes the listed columns from it. *)
Definition bulk_update (objs : list Event) : M unit :=
  fun db =>
    if forallb (fun o => is_some (ev_id o)) objs then
      (inr tt, set_events db
                 (map (fun r => match find_by_id objs (ev_id r) with
                                | Some o => copy_edit_fields r o
                                | None => r
                                end)
                      (events db)))
    else (inl ValueError, db).

(** [get_object_or_404(Event, pk=event_id)] *)
Definition get_object_or_404 (event_id : Z) : M Event :=
  fun db =>
    match find (fun r => opt_Z_eqb (ev_id r) (Some event_id)) (events db) with
    | Some r => (inr r, db)
    | None => (inl Http404, db)
    end.

(** [event.recurring_events]: the reverse side of [original_event]. *)
Definition recurring_events (rows : list Event) (e : Event) : list Event :=
  match ev_id e with
  | Some i => filter (fun r => opt_Z_eqb (ev_original_event r) (Some i)) rows
  | None => []
  end.

(** Modelled from the spec: the [on_delete] rule of the self-reference
    [original_event] is declared in the missing [calendarapp/models.py].
    Both rules that let a referenced row go are covered: the referencing
    rows are deleted with it, or their reference is cleared. *)
Inductive on_delete : Type := CASCADE | SET_NULL.

Definition mem_id (ids : list Z) (o : option Z) : bool :=
  match o with
  | Some i => existsb (Z.eqb i) ids
  | None => false
  end.

Definition ids_of (rows : list Event) : list Z :=
  flat_map (fun r => match ev_id r with Some i => [i] | None => [] end) rows.

(** Rows reached from [doomed] through [original_event], to any depth. *)
Fixpoint cascade (fuel : nat) (rows : list Event) (doomed : list Z) : list Z :=
  match fuel with
  | O => doomed
  | S n =>
      let more := ids_of (filter (fun r => mem_id doomed (ev_original_event r)
                                           && negb (mem_id doomed (ev_id r)))
                                 rows) in
      match more with
      | [] => doomed
      | _ => cascade n rows (doomed ++ more)
      end
  end.

(** [qs.delete()] for the rows selected by [sel].  Reminder rows go with
    their event (section 3: a reminder is never deleted independently of
    its entry). *)
Definition delete_where (policy : on_delete) (sel : Event -> bool) : M unit :=
  fun db =>
    let rows := events db in
    let picked := ids_of (filter sel rows) in
    let doomed := match policy with
                  | CASCADE => cascade (List.length rows) rows picked
                  | SET_NULL => picked
                  end in
    let kept := filter (fun r => negb (mem_id doomed (ev_id r))) rows in
    let kept' := match policy with
                 | CASCADE => kept
                 | SET_NULL =>
                     map (fun r => if mem_id doomed (ev_original_event r)
                                   then with_original_event r None else r)
                         kept
                 end in
    (inr tt, {| events := kept';
                reminders := filter (fun s => negb (mem_id doomed (rs_event s)))
                                    (reminders db);
                next_id := next_id db |}).

(** [event.delete()] *)
Definition delete (policy : on_delete) (e : Event) : M unit :=
  delete_where policy (fun r => is_some (ev_id e) && opt_Z_eqb (ev_id r) (ev_id e)).

End ORM.

(** ** [EventService] *)

(** [check_duplicate] on the rows of the table. *)
Definition duplicate_in (rows : list Event) (pet : Pet) (t : string)
    (event_date : date) (exclude_id : option Z) : bool :=
  existsb (fun r =>
             (ev_pet r =? pet) && String.eqb (ev_title r) t
             && PyDate.eqb (ev_date r) event_date
             && (if truthy_int exclude_id
                 then negb (opt_Z_eqb (ev_id r) exclude_id) else true))
          rows.

Definition check_duplicate (pet : Pet) (t : string) (event_date : date)
    (exclude_id : option Z) : M bool :=
  query (fun db => duplicate_in (events db) pet t event_date exclude_id).

(** [str(n)] for an [int]. *)
Definition str_int (n : Z) : string := NilZero.string_of_int (Z.to_int n).

(** [calculate_yearly_start_year]; [timezone.now().year] is the argument
    [current_year]. *)
Definition calculate_yearly_start_year (current_year : Z) (event_date : date)
    : Z * option string :=
  let input_year := PyDate.year event_date in
  if current_year - 1 <=? input_year then (input_year, None)
  else
    let start_year := current_year - 1 in
    (start_year,
     Some ("Событие создано как ежегодная серия, начинающаяся с "
           ++ str_int start_year ++ " года, "
           ++ "так как оригинальная дата слишком далеко в прошлом.")%string).

(** [get_safe_date] *)
Definition get_safe_date (y m d : Z) : exn + date :=
  match PyDate.new y m d with
  | inr dt => inr dt
  | inl ValueError =>
      if (m =? 2) && (d =? 29) then PyDate.new y 2 28 else inl ValueError
  | inl e => inl e
  end.

(** [form_data.date] where the code goes on to read [.month] and [.day]:
    [AttributeError] when the form carries no date. *)
Definition form_date (form_data : EventFormData) : exn + date :=
  match date_ form_data with
  | Some d => inr d
  | None => inl AttributeError
  end.

(** The [Event(...)] built in the loop of [create_yearly_series]. *)
Definition series_event (pet : Pet) (form_data : EventFormData)
    (series_date : date) (original_event : option Event) : Event :=
  {| ev_id := None; ev_pet := pet; ev_title := title form_data;
     ev_event_type := event_type form_data; ev_date := series_date;
     ev_time := time_ form_data; ev_duration_minutes := duration form_data;
     ev_note := note form_data; ev_is_yearly := true; ev_is_done := false;
     ev_done_year := None;
     ev_original_event := match original_event with
                          | Some h => ev_id h
                          | None => None
                          end |}.

(** The [for year in years] loop of [create_yearly_series], with its two
    accumulators.  [get_safe_date] returns a date or raises, so the
    [series_date is None] branch of the source is never taken. *)
Fixpoint create_yearly_series_loop (pet : Pet) (form_data : EventFormData)
    (years : list Z) (original_event : option Event)
    (created_events : list Event) : M (option Event * list Event) :=
  match years with
  | [] => ret (original_event, created_events)
  | year :: rest =>
      fd <- lift (form_date form_data) ;;
      series_date <- lift (get_safe_date year (PyDate.month fd) (PyDate.day fd)) ;;
      dup <- check_duplicate pet (title form_data) series_date None ;;
      if dup : bool then
        create_yearly_series_loop pet form_data rest original_event created_events
      else
        let event := series_event pet form_data series_date original_event in
        match original_event with
        | None =>
            saved <- ORM.save event ;;
            create_yearly_series_loop pet form_data rest (Some saved) created_events
        | Some _ =>
            create_yearly_series_loop pet form_data rest original_event
              (created_events ++ [event])
        end
  end.

Definition create_yearly_series (pet : Pet) (form_data : EventFormData)
    (years : list Z) : M (option Event * list Event) :=
  r <- create_yearly_series_loop pet form_data years None [] ;;
  created <- match snd r with
             | [] => ret []
             | _ :: _ => ORM.bulk_create (snd r)
             end ;;
  ret (fst r, created).

(** [create_single_event]; the caller has checked that the form has a date. *)
Definition create_single_event (pet : Pet) (form_data : EventFormData) : M Event :=
  d <- lift (form_date form_data) ;;
  ORM.save
    {| ev_id := None; ev_pet := pet; ev_title := title form_data;
       ev_event_type := event_type form_data; ev_date := d;
       ev_time := time_ form_data; ev_duration_minutes := duration form_data;
       ev_note := note form_data; ev_is_yearly := false; ev_is_done := false;
       ev_done_year := None; ev_original_event := None |}.

(** [get_series_events]: the head and the rows that reference it. *)
Definition get_series_events (event : Event) : M (list Event) :=
  main_event <- match ev_original_event event with
                | Some o => ORM.get_object_or_404 o
                | None => ret event
                end ;;
  rec <- query (fun db => ORM.recurring_events (events db) main_event) ;;
  ret (main_event :: rec).

(** The assignments [ev.title = ...] to [ev.is_yearly = ...]. *)
Definition apply_form (ev : Event) (form_data : EventFormData) (new_date : date)
    : Event :=
  {| ev_id := ev_id ev; ev_pet := ev_pet ev; ev_title := title form_data;
     ev_event_type := event_type form_data; ev_date := new_date;
     ev_time := time_ form_data; ev_duration_minutes := duration form_data;
     ev_note := note form_data; ev_is_yearly := is_yearly form_data;
     ev_is_done := ev_is_done ev; ev_done_year := ev_done_year ev;
     ev_original_event := ev_original_event ev |}.

Definition pair_in (p : string * date) (used_pairs : list (string * date)) : bool :=
  existsb (fun q => String.eqb (fst q) (fst p) && PyDate.eqb (snd q) (snd p))
          used_pairs.

(** The date an entry gets in [update_events]. *)
Definition edit_date (ev : Event) (form_data : EventFormData) (update_date : bool)
    : exn + date :=
  if update_date then
    match form_date form_data with
    | inr fd => PyDate.new (PyDate.year (ev_date ev)) (PyDate.month fd) (PyDate.day fd)
    | inl e => inl e
    end
  else inr (ev_date ev).

(** The [for ev in events] loop of [update_events].  The objects are changed
    in memory only; the table is read by [check_duplicate] as it was. *)
Fixpoint update_events_loop (events : list Event) (form_data : EventFormData)
    (update_date : bool) (used_pairs : list (string * date))
    (updated : list Event) : M (list Event) :=
  match events with
  | [] => ret updated
  | ev :: rest =>
      new_date <- lift (edit_date ev form_data update_date) ;;
      let pair := (title form_data, new_date) in
      if pair_in pair used_pairs then
        update_events_loop rest form_data update_date used_pairs updated
      else
        dup <- check_duplicate (ev_pet ev) (title form_data) new_date (ev_id ev) ;;
        if dup : bool then
          update_events_loop rest form_data update_date used_pairs updated
        else
          update_events_loop rest form_data update_date (pair :: used_pairs)
            (updated ++ [apply_form ev form_data new_date])
  end.

Definition update_events (events : list Event) (form_data : EventFormData)
    (update_date : bool) : M (list Event) :=
  updated <- update_events_loop events form_data update_date [] [] ;;
  _ <- match updated with
       | [] => ret tt
       | _ => ORM.bulk_update updated
       end ;;
  ret updated.

(** ** [ReminderService] *)

Module Reminders.

(** Modelled from the spec: the column defaults of [ReminderSettings]
    (declared in the missing [calendarapp/models.py]): no time, no absolute
    date, not repeating, interval 1 (section 3). *)
Definition fresh (event : Event) : ReminderSettings :=
  {| rs_event := ev_id event; rs_pet := ev_pet event; rs_remind_at := None;
     rs_repeat := false; rs_repeat_days := []; rs_repeat_every := 1;
     rs_remind_date := None |}.

Definition lookup (rs : list ReminderSettings) (event : Event)
    : option ReminderSettings :=
  find (fun s => opt_Z_eqb (rs_event s) (ev_id event)) rs.

(** [ReminderSettings.objects.get_or_create(event=event, defaults=...)]:
    the ORM refuses an unsaved instance in the lookup with [ValueError]. *)
Definition get_or_create (event : Event) : M ReminderSettings :=
  fun db =>
    match ev_id event with
    | None => (inl ValueError, db)
    | Some _ =>
        match lookup (reminders db) event with
        | Some s => (inr s, db)
        | None =>
            let s := fresh event in
            (inr s, set_reminders db (reminders db ++ [s]))
        end
    end.

(** [reminder.save()] for a row obtained from [get_or_create]. *)
Definition save (s : ReminderSettings) : M unit :=
  fun db =>
    (inr tt,
     set_reminders db
       (map (fun r => if opt_Z_eqb (rs_event r) (rs_event s) then s else r)
            (reminders db))).

End Reminders.

(** The [remind_date] that [save_reminder] assigns. *)
Definition reminder_date (event : Event) (reminder_data : ReminderFormData)
    (adjust_date_to_event_year : bool) : exn + option date :=
  match remind_date reminder_data with
  | Some d =>
      if negb (repeat reminder_data) then
        if adjust_date_to_event_year then
          match PyDate.new (PyDate.year (ev_date event)) (PyDate.month d) (PyDate.day d) with
          | inr x => inr (Some x)
          | inl e => inl e
          end
        else inr (Some d)
      else inr None
  | None => inr None
  end.

Definition save_reminder (event : Event) (reminder_data : ReminderFormData)
    (adjust_date_to_event_year : bool) : M (option ReminderSettings) :=
  if negb (is_some (remind_at reminder_data)) then ret None
  else
    reminder <- Reminders.get_or_create event ;;
    rd <- lift (reminder_date event reminder_data adjust_date_to_event_year) ;;
    let reminder' :=
      {| rs_event := rs_event reminder; rs_pet := rs_pet reminder;
         rs_remind_at := remind_at reminder_data;
         rs_repeat := repeat reminder_data;
         rs_repeat_days := repeat_days reminder_data;
         rs_repeat_every := repeat_every reminder_data;
         rs_remind_date := rd |} in
    _ <- Reminders.save reminder' ;;
    ret (Some reminder').

Fixpoint save_reminders_for_events (events : list Event)
    (reminder_data : ReminderFormData) : M (list ReminderSettings) :=
  match events with
  | [] => ret []
  | event :: rest =>
      reminder <- save_reminder event reminder_data true ;;
      rs <- save_reminders_for_events rest reminder_data ;;
      ret (match reminder with Some r => r :: rs | None => rs end)
  end.

(** ** Planning helpers and views *)

Fixpoint zeros (n : nat) : string :=
  match n with
  | O => ""
  | S k => ("0" ++ zeros k)%string
  end.

Definition zfill (width : nat) (s : string) : string :=
  (zeros (width - String.length s) ++ s)%string.

(** [str(d)] for a date: ISO format. *)
Definition str_date (d : date) : string :=
  (zfill 4 (str_int (PyDate.year d)) ++ "-" ++ zfill 2 (str_int (PyDate.month d))
   ++ "-" ++ zfill 2 (str_int (PyDate.day d)))%string.

(** [_create_yearly_event_v2]: the list of events, or an error message. *)
Definition _create_yearly_event_v2 (current_year : Z) (pet : Pet)
    (event_data : EventFormData) (reminder_data : ReminderFormData)
    : M (string + list Event) :=
  fd <- lift (form_date event_data) ;;
  let start_year := fst (calculate_yearly_start_year current_year fd) in
  start_date <- lift (get_safe_date start_year (PyDate.month fd) (PyDate.day fd)) ;;
  dup <- check_duplicate pet (title event_data) start_date None ;;
  if dup : bool then
    ret (inl ("Событие с таким названием и датой (" ++ str_date start_date
              ++ ") уже существует.")%string)
  else
    let years_to_create := [start_year; start_year + 1; start_year + 2] in
    r <- create_yearly_series pet event_data years_to_create ;;
    match fst r with
    | None => ret (inl "Не удалось создать ежегодную серию событий.")
    | Some original_event =>
        let all_events := original_event :: snd r in
        _ <- save_reminders_for_events all_events reminder_data ;;
        ret (inr all_events)
    end.

Definition _create_single_event_v2 (pet : Pet) (event_data : EventFormData)
    (reminder_data : ReminderFormData) : M (string + Event) :=
  d <- lift (form_date event_data) ;;
  dup <- check_duplicate pet (title event_data) d None ;;
  if dup : bool then ret (inl "Событие с таким названием и датой уже существует.")
  else
    event <- create_single_event pet event_data ;;
    _ <- save_reminder event reminder_data false ;;
    ret (inr event).

(** What a view hands back: a page with an error message, or a redirect. *)
Inductive response : Type :=
| Render (error : option string)
| RedirectToCalendar (pet_id : Pet) (event_date : date)
| RedirectPetsList.

(** What [add_event] reads from the request besides the forms.  Ownership
    is decided by the pets application ([check_pet_owner]) and enters as a
    flag. *)
Record add_request : Type := {
  add_by_owner : bool;
  add_is_post  : bool         (* [request.method] is [POST] *)
}.

(** [add_event], for the pet [get_object_or_404] has found.  A user who does
    not own the pet is sent to the list of pets (with a flash message, which
    is not part of the response); a request that is not a POST gets the
    empty form; the forms are read for a POST only.  From there on it never
    raises: [except Exception] turns any fault into a message, and the
    writes of the [atomic] block are rolled back. *)
Definition add_event (req : add_request) (current_year : Z) (pet : Pet)
    (event_data : EventFormData) (reminder_data : ReminderFormData) (db : DB)
    : response * DB :=
  if negb (add_by_owner req) then (RedirectPetsList, db)
  else if negb (add_is_post req) then (Render None, db)
  else if negb (is_some (date_ event_data)) then
    (Render (Some "Дата события обязательна."), db)
  else if String.eqb (title event_data) "" then
    (Render (Some "Название события обязательно."), db)
  else
    let block : M response :=
      if is_yearly event_data then
        result <- _create_yearly_event_v2 current_year pet event_data reminder_data ;;
        match result with
        | inl msg => ret (Render (Some msg))
        | inr [] => raise IndexError
        | inr (first :: _) => ret (RedirectToCalendar pet (ev_date first))
        end
      else
        result <- _create_single_event_v2 pet event_data reminder_data ;;
        match result with
        | inl msg => ret (Render (Some msg))
        | inr ev => ret (RedirectToCalendar pet (ev_date ev))
        end in
    match atomic block db with
    | (inr resp, db') => (resp, db')
    | (inl _, db') => (Render (Some "Произошла ошибка при добавлении события."), db')
    end.

(** What [delete_event] reads from the request.  Ownership is decided by
    the pets application ([check_pet_owner]) and enters as a flag. *)
Record delete_request : Type := {
  user_is_owner : bool;
  method_post   : bool;
  delete_all    : bool        (* POST field [delete_all] is [on] *)
}.

(** [is_series_original] of [delete_event]. *)
Definition is_series_original (rows : list Event) (event : Event) : bool :=
  ev_is_yearly event
  && negb (match ORM.recurring_events rows event with [] => true | _ => false end)
  && negb (is_some (ev_original_event event)).

(** [delete_event]: the redirect, and the message left in
    [request.session['calendar_error']] if any.  [Http404] when the event does
    not exist. *)
Definition delete_event (policy : ORM.on_delete) (req : delete_request)
    (event_id : Z) : M (response * option string) :=
  event <- ORM.get_object_or_404 event_id ;;
  if negb (user_is_owner req) then ret (RedirectPetsList, None)
  else
    let pet := ev_pet event in
    let event_date := ev_date event in
    if negb (method_post req) then ret (RedirectToCalendar pet event_date, None)
    else
      original <- query (fun db => is_series_original (events db) event) ;;
      if (original : bool) && negb (delete_all req) then
        ret (RedirectToCalendar pet event_date,
             Some ("Нельзя удалить только первое событие в ежегодной серии '"
                   ++ ev_title event
                   ++ "'. Удалите всю серию при необходимости.")%string)
      else
        let event_title := ev_title event in
        let block : M unit :=
          if delete_all req && ev_is_yearly event then
            ORM.delete_where policy
              (fun r => (ev_pet r =? pet) && String.eqb (ev_title r) event_title
                        && ev_is_yearly r)
          else ORM.delete policy event in
        fun db =>
          match atomic block db with
          | (inr _, db') => (inr (RedirectToCalendar pet event_date, None), db')
          | (inl _, db') =>
              (inr (RedirectToCalendar pet event_date,
                    Some "Произошла ошибка при удалении события."), db')
          end.

(** The [for event in last_year_events] loop of [create_next_year_events]. *)
Fixpoint create_next_year_loop (target_year : Z) (last_year_events : list Event)
    (created_count : Z) : M Z :=
  match last_year_events with
  | [] => ret created_count
  | event :: rest =>
      new_date <- lift (get_safe_date target_year (PyDate.month (ev_date event))
                                      (PyDate.day (ev_date event))) ;;
      dup <- check_duplicate (ev_pet event) (ev_title event) new_date None ;;
      if negb dup then
        _ <- ORM.create
               {| ev_id := None; ev_pet := ev_pet event; ev_title := ev_title event;
                  ev_event_type := ev_event_type event; ev_date := new_date;
                  ev_time := ev_time event;
                  ev_duration_minutes := ev_duration_minutes event;
                  ev_note := ev_note event; ev_is_yearly := true;
                  ev_is_done := false; ev_done_year := None;
                  ev_original_event := match ev_original_event event with
                                       | Some o => Some o
                                       | None => ev_id event
                                       end |} ;;
        create_next_year_loop target_year rest (created_count + 1)
      else create_next_year_loop target_year rest created_count
  end.

(** The rows [Event.objects.filter(is_yearly=True, date__year=y)] selects. *)
Definition yearly_events_of_year (rows : list Event) (y : Z) : list Event :=
  filter (fun r => ev_is_yearly r && (PyDate.year (ev_date r) =? y)) rows.

(** [create_next_year_events]; [timezone.now().year] is [current_year].  The
    queryset is evaluated once, when the loop starts.  The job runs outside
    any transaction. *)
Definition create_next_year_events (current_year : Z) : M Z :=
  let next_year := current_year + 1 in
  let target_year := next_year + 1 in
  last_year_events <- query (fun db => yearly_events_of_year (events db) (current_year - 1)) ;;
  create_next_year_loop target_year last_year_events 0.

(** ** The edit views *)

(** [_handle_regular_event_edit], from the parsed forms on.  It has no
    [except]: an exception leaves the [atomic] block (which rolls back) and
    the view.  The redirect uses [event.date] after the edit; [event] is the
    very object [update_events] assigns to when it heads the batch, that is,
    unless the batch is a series resolved from a continuation (then the batch
    holds freshly fetched objects and [event] keeps its date). *)
Definition _handle_regular_event_edit (event : Event) (event_data : EventFormData)
    (reminder_data : ReminderFormData) (apply_to_all : bool) : M response :=
  match date_ event_data with
  | None => ret (Render (Some "Неверный формат даты."))
  | Some fd =>
      if is_yearly event_data && (PyDate.month fd =? 2) && (PyDate.day fd =? 29) then
        ret (Render (Some "29 февраля не может быть установлено для ежегодного события."))
      else
        atomic
          (let whole_series := apply_to_all && ev_is_yearly event in
           events <- (if whole_series then get_series_events event else ret [event]) ;;
           updated <- update_events events event_data true ;;
           _ <- save_reminders_for_events updated reminder_data ;;
           let shared := negb whole_series || negb (is_some (ev_original_event event)) in
           let event_date :=
             match updated with
             | first :: _ =>
                 if shared && opt_Z_eqb (ev_id first) (ev_id event)
                 then ev_date first else ev_date event
             | [] => ev_date event
             end in
           ret (RedirectToCalendar (ev_pet event) event_date))
  end.

(** The assignments of [_handle_birthday_edit] to one event. *)
Definition with_details (ev : Event) (time_val : option time) (duration_ : option Z)
    (note_ : string) : Event :=
  {| ev_id := ev_id ev; ev_pet := ev_pet ev; ev_title := ev_title ev;
     ev_event_type := ev_event_type ev; ev_date := ev_date ev;
     ev_time := time_val; ev_duration_minutes := duration_;
     ev_note := note_; ev_is_yearly := ev_is_yearly ev;
     ev_is_done := ev_is_done ev; ev_done_year := ev_done_year ev;
     ev_original_event := ev_original_event ev |}.

Fixpoint save_details (events : list Event) (time_val : option time)
    (duration_ : option Z) (note_ : string) : M (list Event) :=
  match events with
  | [] => ret []
  | ev :: rest =>
      saved <- ORM.save (with_details ev time_val duration_ note_) ;;
      others <- save_details rest time_val duration_ note_ ;;
      ret (saved :: others)
  end.

(** [_handle_birthday_edit], from the parsed values on. *)
Definition _handle_birthday_edit (event : Event) (time_val : option time)
    (duration_ : option Z) (note_ : string) (reminder_data : ReminderFormData)
    (apply_to_all : bool) : M response :=
  atomic
    (events <- (if apply_to_all
                then query (fun db =>
                       filter (fun r => (ev_pet r =? ev_pet event)
                                        && String.eqb (ev_event_type r) "birthday"
                                        && ev_is_yearly r) (events db))
                else ret [event]) ;;
     edited <- save_details events time_val duration_ note_ ;;
     _ <- save_reminders_for_events edited reminder_data ;;
     ret (RedirectToCalendar (ev_pet event) (ev_date event))).

(** [_handle_edit_post]: birthdays take their own path. *)
Definition _handle_edit_post (event : Event) (event_data : EventFormData)
    (reminder_data : ReminderFormData) (apply_to_all : bool) : M response :=
  if String.eqb (ev_event_type event) "birthday" then
    _handle_birthday_edit event (time_ event_data) (duration event_data)
                          (note event_data) reminder_data apply_to_all
  else _handle_regular_event_edit event event_data reminder_data apply_to_all.

(** ** The pets application *)

(** [date < date]: by year, month, day. *)
Definition date_ltb (a b : date) : bool :=
  (PyDate.year a <? PyDate.year b)
  || ((PyDate.year a =? PyDate.year b)
      && ((PyDate.month a <? PyDate.month b)
          || ((PyDate.month a =? PyDate.month b) && (PyDate.day a <? PyDate.day b)))).

(** [_days_before_year], [_days_before_month] and [date.toordinal]. *)
Definition days_before_year (y : Z) : Z :=
  let y1 := y - 1 in y1 * 365 + y1 / 4 - y1 / 100 + y1 / 400.

Definition days_before_month (y m : Z) : Z :=
  nth (Z.to_nat m) [-1; 0; 31; 59; 90; 120; 151; 181; 212; 243; 273; 304; 334] 0
  + (if (2 <? m) && PyDate.is_leap y then 1 else 0).

Definition toordinal (d : date) : Z :=
  days_before_year (PyDate.year d)
  + days_before_month (PyDate.year d) (PyDate.month d) + PyDate.day d.

(** [d.replace(year=y)] *)
Definition replace_year (d : date) (y : Z) : exn + date :=
  PyDate.new y (PyDate.month d) (PyDate.day d).

(** The years and months of [Pet.age] (lines 68 to 76), for a pet with a
    birthday; [date.today()] is the argument [today]. *)
Definition age_years_months (today birthday : date) : Z * Z :=
  let years := PyDate.year today - PyDate.year birthday in
  let months := PyDate.month today - PyDate.month birthday in
  let days := PyDate.day today - PyDate.day birthday in
  let months := if days <? 0 then months - 1 else months in
  if months <? 0 then (years - 1, months + 12) else (years, months).

(** [Pet.age] *)
Definition age (today : date) (birthday : option date) : option string :=
  match birthday with
  | None => None
  | Some b =>
      let (years, months) := age_years_months today b in
      Some (if years =? 0 then (str_int months ++ " мес.")%string
            else if months =? 0 then (str_int years ++ " г.")%string
            else (str_int years ++ " г. " ++ str_int months ++ " мес.")%string)
  end.

(** The birthday notice of [pet_detail] (tab [info]): the pair
    [(birthday_today, birthday_soon)]. *)
Definition birthday_notice (today : date) (birthday : option date)
    : exn + (bool * option Z) :=
  match birthday with
  | None => inr (false, None)
  | Some b =>
      match replace_year b (PyDate.year today) with
      | inl e => inl e
      | inr next_birthday =>
          match (if date_ltb next_birthday today
                 then replace_year next_birthday (PyDate.year today + 3)
                 else inr next_birthday) with
          | inl e => inl e
          | inr next_birthday =>
              let delta := toordinal next_birthday - toordinal today in
              if delta =? 0 then inr (true, None)
              else if delta <=? 7 then inr (false, Some delta)
              else inr (false, None)
          end
      end
  end.

(** What [create_or_update_birthday_event] reads of a pet; the birthday is
    a string when it comes straight from the form. *)
Record PetRow : Type := {
  pet_key      : Pet;
  pet_name     : string;
  pet_birthday : option (string + date)
}.

(** [ReminderSettings.objects.update_or_create(event=event, defaults=...)]
    with the defaults of the birthday reminder; as in [get_or_create], an
    unsaved instance in the lookup is refused with [ValueError]. *)
Definition update_or_create_birthday_reminder (pet : Pet) (event : Event) : M unit :=
  fun db =>
    let s0 := match Reminders.lookup (reminders db) event with
              | Some s => s
              | None => Reminders.fresh event
              end in
    let s := {| rs_event := rs_event s0; rs_pet := pet;
                rs_remind_at := Some (Time 9 0); rs_repeat := true;
                rs_repeat_days := rs_repeat_days s0; rs_repeat_every := 365;
                rs_remind_date := rs_remind_date s0 |} in
    match ev_id event with
    | None => (inl ValueError, db)
    | Some _ =>
        match Reminders.lookup (reminders db) event with
        | Some _ =>
            (inr tt,
             set_reminders db
               (map (fun r => if opt_Z_eqb (rs_event r) (rs_event s) then s else r)
                    (reminders db)))
        | None => (inr tt, set_reminders db (reminders db ++ [s]))
        end
    end.

Section BirthdayEvents.

Variable strptime_date : string -> exn + date.   (* format %Y-%m-%d *)

(** The [for year in ...] loop with its inner [try]. *)
Fixpoint birthday_loop (pet : PetRow) (pet_birthday : date) (current_year : Z)
    (years : list Z) : M unit :=
  match years with
  | [] => ret tt
  | year :: rest =>
      new_date <- lift (match replace_year pet_birthday year with
                        | inr d => inr d
                        | inl ValueError =>
                            if (PyDate.month pet_birthday =? 2)
                               && (PyDate.day pet_birthday =? 29)
                            then PyDate.new year 2 28 else inl ValueError
                        | inl e => inl e
                        end) ;;
      event <- ORM.create
                 {| ev_id := None; ev_pet := pet_key pet; ev_title := "День рождения";
                    ev_event_type := "birthday"; ev_date := new_date;
                    ev_time := None; ev_duration_minutes := None;
                    ev_note := ("День рождения " ++ pet_name pet)%string;
                    ev_is_yearly := true; ev_is_done := false;
                    ev_done_year := None; ev_original_event := None |} ;;
      _ <- (if year =? current_year
            then update_or_create_birthday_reminder (pet_key pet) event
            else ret tt) ;;
      birthday_loop pet pet_birthday current_year rest
  end.

(** [create_or_update_birthday_event]; [date.today().year] is
    [current_year].  It returns nothing and lets no exception out of the
    loop: what was written before the exception stays. *)
Definition create_or_update_birthday_event (policy : ORM.on_delete)
    (current_year : Z) (pet : PetRow) : M unit :=
  let run (pet_birthday : date) : M unit :=
    _ <- ORM.delete_where policy
           (fun r => (ev_pet r =? pet_key pet)
                     && String.eqb (ev_event_type r) "birthday" && ev_is_yearly r) ;;
    fun db =>
      match birthday_loop pet pet_birthday current_year
              [current_year; current_year + 1; current_year + 2] db with
      | (inr _, db') => (inr tt, db')
      | (inl _, db') => (inr tt, db')
      end in
  match pet_birthday pet with
  | None => ret tt
  | Some (inl text) =>
      if (String.length text =? 0)%nat then ret tt
      else match strptime_date text with
           | inr d => run d
           | inl ValueError => ret tt
           | inl e => raise e
           end
  | Some (inr d) => run d
  end.

End BirthdayEvents.

(** ** Vocabulary of the properties *)

Unset Implicit Arguments.

(** The mutual exclusion of section 3: an absolute date only without repeat. *)
Definition reminder_exclusive (s : ReminderSettings) : Prop :=
  rs_remind_date s <> None -> rs_repeat s = false.

(** How an accepted object arises from an entry of the batch: the entry with
    the form applied, at a date that collides with no other row. *)
Definition accepted_from (db : DB) (form_data : EventFormData) (update_date : bool)
    (batch : list Event) (u : Event) : Prop :=
  exists ev nd,
    In ev batch /\ edit_date ev form_data update_date = inr nd
    /\ u = apply_form ev form_data nd
    /\ duplicate_in (events db) (ev_pet ev) (title form_data) nd (ev_id ev) = false.

(** The columns [update_events] does not assign. *)
Definition frame (r : Event) : option Z * Pet * option Z * bool * option Z :=
  (ev_id r, ev_pet r, ev_original_event r, ev_is_done r, ev_done_year r).

Definition keep_date_edit (form_data : EventFormData) (ev : Event) : Event :=
  apply_form ev form_data (ev_date ev).

(** The table after every row of the batch took the form, dates kept. *)
Definition edited_rows (form_data : EventFormData) (batch rows : list Event)
    : list Event :=
  map (fun r => match ORM.find_by_id batch (ev_id r) with
                | Some _ => keep_date_edit form_data r
                | None => r
                end) rows.

(** A batch that a date-keeping edit accepts whole: rows of the table with
    primary keys, on pairwise different dates (as the members of a series
    are), none of which meets another row with the new title on its date. *)
Record editable (db : DB) (form_data : EventFormData) (batch : list Event) : Prop := {
  ed_dates  : NoDup (map ev_date batch);
  ed_keys   : forall ev, In ev batch -> truthy_int (ev_id ev) = true;
  ed_rows   : forall ev, In ev batch -> In ev (events db);
  ed_unique : NoDup (map ev_id (events db));
  ed_free   : forall ev, In ev batch ->
                duplicate_in (events db) (ev_pet ev) (title form_data)
                             (ev_date ev) (ev_id ev) = false
}.

(** The date a series has in year [y] when its form carries date [fd]:
    the same month and day, or 28 February where they do not exist. *)
Definition series_date (fd : date) (y : Z) : date :=
  if PyDate.valid y (PyDate.month fd) (PyDate.day fd)
  then Date y (PyDate.month fd) (PyDate.day fd)
  else Date y 2 28.

(** No row of the pet has the form's title on the series date of [y]. *)
Definition year_free (db : DB) (pet : Pet) (form_data : EventFormData) (fd : date)
    (y : Z) : bool :=
  negb (duplicate_in (events db) pet (title form_data) (series_date fd y) None).

(** Objects with consecutive primary keys from [n] on. *)
Fixpoint numbered (n : Z) (objs : list Event) : list Event :=
  match objs with
  | [] => []
  | e :: rest => with_id e (Some n) :: numbered (n + 1) rest
  end.

(** The head and the continuations [create_yearly_series] builds for the
    years [y0 :: ys] on a table whose next key is [n]. *)
Definition planned_head (pet : Pet) (form_data : EventFormData) (fd : date)
    (n y0 : Z) : Event :=
  with_id (series_event pet form_data (series_date fd y0) None) (Some n).

Definition planned_continuations (pet : Pet) (form_data : EventFormData)
    (fd : date) (n : Z) (head : Event) (ys : list Z) : list Event :=
  numbered n (map (fun y => series_event pet form_data (series_date fd y) (Some head)) ys).

(** The pair that must be unique within a pet, with the pet. *)
Definition event_key (r : Event) : Pet * string * date :=
  (ev_pet r, ev_title r, ev_date r).

(** No two rows of one pet share title and date. *)
Definition pairs_unique (rows : list Event) : Prop := NoDup (map event_key rows).

(** Primary keys as the database hands them out: present, positive, below
    the next key, and unique. *)
Definition keys_ok (db : DB) : Prop :=
  NoDup (map ev_id (events db))
  /\ Forall (fun r => exists i, ev_id r = Some i /\ 0 < i < next_id db) (events db).

(** Every reference points to a row that is itself a head. *)
Definition one_level (rows : list Event) : Prop :=
  forall r o, In r rows -> ev_original_event r = Some o ->
    exists h, In h rows /\ ev_id h = Some o /\ ev_original_event h = None.

(** A stored configuration that carries the time and the repeat flag of
    the form and no absolute date. *)
Definition reminder_without_date (rd : ReminderFormData) (s : ReminderSettings)
    : Prop :=
  rs_remind_at s = remind_at rd /\ rs_repeat s = repeat rd /\ rs_remind_date s = None.

(** A table in good order: proper keys, no duplicate (title, date) within a
    pet, references one level deep. *)
Definition consistent (db : DB) : Prop :=
  keys_ok db /\ pairs_unique (events db) /\ one_level (events db).

(** The row [create_single_event] inserts on a table whose next key is [n]. *)
Definition single_row (pet : Pet) (form_data : EventFormData) (fd : date) (n : Z)
    : Event :=
  {| ev_id := Some n; ev_pet := pet; ev_title := title form_data;
     ev_event_type := event_type form_data; ev_date := fd;
     ev_time := time_ form_data; ev_duration_minutes := duration form_data;
     ev_note := note form_data; ev_is_yearly := false; ev_is_done := false;
     ev_done_year := None; ev_original_event := None |}.

(** The row the rollover derives from a source entry: the same pet, title,
    type, time, duration and note, flagged yearly and not done, on the safe
    date of the target year, and referring to the head of the source (the
    source itself when it is a head). *)
Definition rolled_over (target_year : Z) (src r : Event) : Prop :=
  ev_pet r = ev_pet src /\ ev_title r = ev_title src
  /\ ev_event_type r = ev_event_type src /\ ev_time r = ev_time src
  /\ ev_duration_minutes r = ev_duration_minutes src /\ ev_note r = ev_note src
  /\ ev_is_yearly r = true /\ ev_is_done r = false /\ ev_done_year r = None
  /\ get_safe_date target_year (PyDate.month (ev_date src)) (PyDate.day (ev_date src))
     = inr (ev_date r)
  /\ ev_original_event r = match ev_original_event src with
                           | Some o => Some o
                           | None => ev_id src
                           end.

(** The event [create_or_update_birthday_event] builds for year [y]. *)
Definition birthday_row (pet : PetRow) (b : date) (y : Z) : Event :=
  {| ev_id := None; ev_pet := pet_key pet; ev_title := "День рождения";
     ev_event_type := "birthday"; ev_date := series_date b y;
     ev_time := None; ev_duration_minutes := None;
     ev_note := ("День рождения " ++ pet_name pet)%string;
     ev_is_yearly := true; ev_is_done := false;
     ev_done_year := None; ev_original_event := None |}.

(** The yearly birthday events of a pet: what the function replaces. *)
Definition is_birthday_of (pet : PetRow) (r : Event) : bool :=
  (ev_pet r =? pet_key pet) && String.eqb (ev_event_type r) "birthday"
  && ev_is_yearly r.

(** The rows [_handle_birthday_edit] works on: the pet's yearly birthday
    events when the edit is for all of them, the entry itself otherwise. *)
Definition birthday_edit_selects (event : Event) (apply_to_all : bool) (r : Event)
    : bool :=
  if apply_to_all
  then (ev_pet r =? ev_pet event) && String.eqb (ev_event_type r) "birthday"
       && ev_is_yearly r
  else opt_Z_eqb (ev_id r) (ev_id event).

(** ** Concrete repository states used below *)

Module Scenario.

Definition pet : Pet := 1.

Definition nine : time := Time 9 0.

(** A row with the columns that matter here. *)
Definition row (i : Z) (t : string) (d : date) (yearly : bool)
    (head : option Z) : Event :=
  {| ev_id := Some i; ev_pet := pet; ev_title := t; ev_event_type := "vet";
     ev_date := d; ev_time := None; ev_duration_minutes := None;
     ev_note := ""; ev_is_yearly := yearly; ev_is_done := false;
     ev_done_year := None; ev_original_event := head |}.

(** A yearly series on 15 March: head 1 (2026), continuations 2 and 3. *)
Definition vet_head : Event := row 1 "Vet" (Date 2026 3 15) true None.

Definition vet_series : list Event :=
  [ vet_head;
    row 2 "Vet" (Date 2027 3 15) true (Some 1);
    row 3 "Vet" (Date 2028 3 15) true (Some 1) ].

Definition db_vet : DB :=
  {| events := vet_series; reminders := []; next_id := 4 |}.

(** A repeating reminder that also carries an absolute date. *)
Definition repeat_with_date : ReminderFormData :=
  {| remind_at := Some nine; remind_date := Some (Date 2026 3 14);
     repeat := true; repeat_days := ["0"; "3"]; repeat_every := 1 |}.


(** An edit form that renames to "Checkup"; its date is 20 April. *)
Definition checkup_form : EventFormData :=
  {| title := "Checkup"; event_type := "vet"; date_ := Some (Date 2026 4 20);
     time_ := Some nine; duration := Some 30; note := "bring the passport";
     is_yearly := true |}.

(** The series next to a single entry "Checkup" on 15 March 2027. *)
Definition db_vet_checkup : DB :=
  {| events := vet_series ++ [row 4 "Checkup" (Date 2027 3 15) false None];
     reminders := []; next_id := 5 |}.


(** A form for a yearly "Vet" entry on 15 March 2026, without reminder. *)
Definition vet_form : EventFormData :=
  {| title := "Vet"; event_type := "vet"; date_ := Some (Date 2026 3 15);
     time_ := None; duration := None; note := ""; is_yearly := true |}.

Definition no_reminder : ReminderFormData :=
  {| remind_at := None; remind_date := None; repeat := false;
     repeat_days := []; repeat_every := 1 |}.

(** A single "Vet" entry already stands on 15 March 2027 ... *)
Definition db_dup_2027 : DB :=
  {| events := [row 1 "Vet" (Date 2027 3 15) false None];
     reminders := []; next_id := 2 |}.

(** ... or on 15 March 2026, the first year of the range. *)
Definition db_dup_2026 : DB :=
  {| events := [row 1 "Vet" (Date 2026 3 15) false None];
     reminders := []; next_id := 2 |}.


Definition empty_db : DB := {| events := []; reminders := []; next_id := 1 |}.

(** The "Vet" series as the rollover finds it in 2026: entries for 2025,
    2026 and 2027. *)
Definition db_rollover : DB :=
  {| events := [ row 1 "Vet" (Date 2025 3 15) true None;
                 row 2 "Vet" (Date 2026 3 15) true (Some 1);
                 row 3 "Vet" (Date 2027 3 15) true (Some 1) ];
     reminders := []; next_id := 4 |}.

(** An edit form that keeps title and date and clears [is_yearly]. *)
Definition single_form : EventFormData :=
  {| title := "Vet"; event_type := "vet"; date_ := Some (Date 2026 3 15);
     time_ := None; duration := None; note := ""; is_yearly := false |}.

(** The "Vet" series after its head alone was edited with [single_form]. *)
Definition db_vet_unflagged : DB :=
  {| events := [ row 1 "Vet" (Date 2026 3 15) false None;
                 row 2 "Vet" (Date 2027 3 15) true (Some 1);
                 row 3 "Vet" (Date 2028 3 15) true (Some 1) ];
     reminders := []; next_id := 4 |}.

(** A POST to [add_event] by an owner of the pet. *)
Definition owner_add : add_request := {| add_by_owner := true; add_is_post := true |}.

Definition owner_post (all : bool) : delete_request :=
  {| user_is_owner := true; method_post := true; delete_all := all |}.

(** A second yearly "Vet" entry, on 1 September. *)
Definition vet_september_form : EventFormData :=
  {| title := "Vet"; event_type := "vet"; date_ := Some (Date 2026 9 1);
     time_ := None; duration := None; note := ""; is_yearly := true |}.

(** Two series of the same pet with the same title: 15 March (rows 1 to
    3) and 1 September (rows 4 to 6). *)
Definition db_two_series : DB :=
  {| events := vet_series
               ++ [ row 4 "Vet" (Date 2026 9 1) true None;
                    row 5 "Vet" (Date 2027 9 1) true (Some 4);
                    row 6 "Vet" (Date 2028 9 1) true (Some 4) ];
     reminders := []; next_id := 7 |}.

(** A yearly entry on 1 March 2028 with a one-time reminder the day
    before, 29 February 2028. *)
Definition march_form : EventFormData :=
  {| title := "Grooming"; event_type := "grooming"; date_ := Some (Date 2028 3 1);
     time_ := None; duration := None; note := ""; is_yearly := true |}.

Definition leap_reminder : ReminderFormData :=
  {| remind_at := Some nine; remind_date := Some (Date 2028 2 29);
     repeat := false; repeat_days := []; repeat_every := 1 |}.

(** An edit form dated 29 February 2028 that is not flagged yearly. *)
Definition leap_form : EventFormData :=
  {| title := "Vet"; event_type := "vet"; date_ := Some (Date 2028 2 29);
     time_ := None; duration := None; note := ""; is_yearly := false |}.


(** A one-time reminder on 14 March 2026. *)
Definition march_reminder : ReminderFormData :=
  {| remind_at := Some nine; remind_date := Some (Date 2026 3 14);
     repeat := false; repeat_days := []; repeat_every := 1 |}.

(** The continuation of 2027 in [vet_series]. *)
Definition vet_2027 : Event := row 2 "Vet" (Date 2027 3 15) true (Some 1).


(** A pet born on a 29 February, and a table that holds the "Vet" series
    and the pet's birthday event of an earlier year. *)
Definition leap_pet : PetRow :=
  {| pet_key := pet; pet_name := "Rex";
     pet_birthday := Some (inr (Date 2024 2 29)) |}.

Definition old_birthday : Event :=
  {| ev_id := Some 4; ev_pet := pet; ev_title := "День рождения";
     ev_event_type := "birthday"; ev_date := Date 2025 2 28; ev_time := None;
     ev_duration_minutes := None; ev_note := ""; ev_is_yearly := true;
     ev_is_done := false; ev_done_year := None; ev_original_event := None |}.

Definition db_birthday : DB :=
  {| events := vet_series ++ [old_birthday]; reminders := []; next_id := 5 |}.


End Scenario.

(** * Properties *)

Local Open Scope list_scope.

(** ** The monad *)

Lemma bind_lift_inr {A B} (a : A) (k : A -> M B) db :
  bind (lift (inr a)) k db = k a db.
Proof. reflexivity. Qed.

Lemma bind_lift_inl {A B} (e : exn) (k : A -> M B) db :
  bind (lift (inl e)) k db = (inl e, db).
Proof. reflexivity. Qed.

Lemma bind_query {A B} (f : DB -> A) (k : A -> M B) db :
  bind (query f) k db = k (f db) db.
Proof. reflexivity. Qed.

Lemma bind_ret {A B} (a : A) (k : A -> M B) db : bind (ret a) k db = k a db.
Proof. reflexivity. Qed.

(** ** Dates and keys *)

Module PyDateFacts.
Import PyDate.

Lemma eqb_eq a b : eqb a b = true <-> a = b.
Proof.
  destruct a as [y1 m1 d1], b as [y2 m2 d2]; unfold eqb; simpl.
  rewrite !andb_true_iff, !Z.eqb_eq. split.
  - intros [[-> ->] ->]. reflexivity.
  - intros E. injection E as -> -> ->. auto.
Qed.

Lemma eqb_refl a : eqb a a = true.
Proof. apply eqb_eq. reflexivity. Qed.

Lemma eqb_neq a b : eqb a b = false <-> a <> b.
Proof.
  split.
  - intros E ->. rewrite eqb_refl in E. discriminate.
  - intros N. destruct (eqb a b) eqn:E; [|reflexivity].
    apply eqb_eq in E. contradiction.
Qed.

Lemma new_valid y m d : valid y m d = true -> new y m d = inr (Date y m d).
Proof. unfold new. intros ->. reflexivity. Qed.

Lemma new_invalid y m d : valid y m d = false -> new y m d = inl ValueError.
Proof. unfold new. intros ->. reflexivity. Qed.

Lemma new_ok y m d dt :
  new y m d = inr dt -> dt = Date y m d /\ valid y m d = true.
Proof. unfold new. destruct (valid y m d); intros E; inversion E; auto. Qed.

Lemma new_error y m d e : new y m d = inl e -> e = ValueError /\ valid y m d = false.
Proof. unfold new. destruct (valid y m d); intros E; inversion E; auto. Qed.

Lemma valid_feb28 y : year_in_range y = true -> valid y 2 28 = true.
Proof.
  unfold year_in_range, valid, days_in_month. intros H.
  apply andb_true_iff in H as [H1 H2]. rewrite H1, H2. simpl.
  destruct (is_leap y); reflexivity.
Qed.

Lemma valid_year y m d : valid y m d = true -> year_in_range y = true.
Proof. unfold valid, year_in_range. rewrite !andb_true_iff. tauto. Qed.

Lemma valid_feb29 y : valid y 2 29 = year_in_range y && is_leap y.
Proof.
  unfold valid, year_in_range, days_in_month. simpl.
  destruct (MINYEAR <=? y), (y <=? MAXYEAR), (is_leap y); reflexivity.
Qed.

(** A valid month and day stay valid in every year of the range, except
    29 February. *)
Lemma valid_other_year y y' m d :
  valid y m d = true -> year_in_range y' = true ->
  ((m =? 2) && (d =? 29)) = false -> valid y' m d = true.
Proof.
  unfold valid, year_in_range, days_in_month.
  rewrite !andb_true_iff, andb_false_iff.
  intros [[[[[_ _] Hm1] Hm2] Hd1] Hd2] [Hy1 Hy2] Hfeb.
  repeat split; auto.
  destruct (m =? 2) eqn:Em.
  - destruct Hfeb as [Hfeb|Hfeb]; [discriminate|].
    apply Z.eqb_neq in Hfeb.
    destruct (is_leap y), (is_leap y'); apply Z.leb_le in Hd2; apply Z.leb_le; lia.
  - exact Hd2.
Qed.

End PyDateFacts.

Lemma opt_Z_eqb_eq a b : opt_Z_eqb a b = true <-> a = b.
Proof.
  destruct a, b; simpl; try (split; congruence).
  rewrite Z.eqb_eq. split; congruence.
Qed.

Lemma opt_Z_eqb_refl a : opt_Z_eqb a a = true.
Proof. apply opt_Z_eqb_eq. reflexivity. Qed.

(** ** [get_safe_date] *)

Lemma get_safe_date_valid y m d :
  PyDate.valid y m d = true -> get_safe_date y m d = inr (Date y m d).
Proof.
  intros H. unfold get_safe_date. rewrite (PyDateFacts.new_valid _ _ _ H). reflexivity.
Qed.

Lemma get_safe_date_year y m d dt :
  get_safe_date y m d = inr dt -> PyDate.year dt = y /\ PyDate.wf dt.
Proof.
  unfold get_safe_date. destruct (PyDate.new y m d) as [e|x] eqn:E.
  - destruct e; try discriminate.
    destruct ((m =? 2) && (d =? 29)); [|discriminate].
    intros H. apply PyDateFacts.new_ok in H as [-> V]. split; [reflexivity|exact V].
  - intros H. inversion H; subst. apply PyDateFacts.new_ok in E as [-> V].
    split; [reflexivity|exact V].
Qed.

(** A month and day taken from a valid date always give a date in a year
    of the range: the leap-day mismatch is the only way they could fail. *)
Lemma get_safe_date_total y y' m d :
  PyDate.valid y m d = true -> PyDate.year_in_range y' = true ->
  exists dt, get_safe_date y' m d = inr dt
             /\ dt = (if PyDate.valid y' m d then Date y' m d else Date y' 2 28).
Proof.
  intros V R. unfold get_safe_date, PyDate.new.
  destruct (PyDate.valid y' m d) eqn:V'.
  - eexists; split; reflexivity.
  - destruct ((m =? 2) && (d =? 29)) eqn:F.
    + rewrite (PyDateFacts.valid_feb28 _ R). eexists; split; reflexivity.
    + rewrite (PyDateFacts.valid_other_year _ _ _ _ V R F) in V'. discriminate.
Qed.

(** C1: [get_safe_date] returns the date itself when the components are
    valid; 28 February of the year when the only fault is 29 February in a
    non-leap year (of the supported range 1..9999); [ValueError] for every
    other invalid combination.  In particular 29 February of a non-leap year
    becomes 28 February and 29 February of a leap year is kept. *)
Theorem get_safe_date_spec (y m d : Z) :
  (PyDate.valid y m d = true -> get_safe_date y m d = inr (Date y m d))
  /\ (PyDate.year_in_range y = true -> PyDate.is_leap y = false ->
      m = 2 -> d = 29 -> get_safe_date y m d = inr (Date y 2 28))
  /\ (PyDate.valid y m d = false ->
      ~ (PyDate.year_in_range y = true /\ PyDate.is_leap y = false /\ m = 2 /\ d = 29) ->
      get_safe_date y m d = inl ValueError)
  /\ (PyDate.year_in_range y = true -> PyDate.is_leap y = false ->
      get_safe_date y 2 29 = inr (Date y 2 28))
  /\ (PyDate.year_in_range y = true -> PyDate.is_leap y = true ->
      get_safe_date y 2 29 = inr (Date y 2 29)).
Proof.
  assert (Hnon : forall y0, PyDate.year_in_range y0 = true -> PyDate.is_leap y0 = false ->
                            get_safe_date y0 2 29 = inr (Date y0 2 28)).
  { intros y0 R L. unfold get_safe_date.
    rewrite PyDateFacts.new_invalid
      by (rewrite PyDateFacts.valid_feb29, R, L; reflexivity).
    simpl. apply PyDateFacts.new_valid, PyDateFacts.valid_feb28, R. }
  repeat split.
  - apply get_safe_date_valid.
  - intros R L -> ->. apply Hnon; assumption.
  - intros V N. unfold get_safe_date. rewrite (PyDateFacts.new_invalid _ _ _ V).
    destruct ((m =? 2) && (d =? 29)) eqn:F; [|reflexivity].
    apply andb_true_iff in F as [Em Ed].
    apply Z.eqb_eq in Em, Ed. subst m d.
    apply PyDateFacts.new_invalid.
    destruct (PyDate.year_in_range y) eqn:R.
    + rewrite PyDateFacts.valid_feb29, R in V. simpl in V. exfalso. apply N. auto.
    + destruct (PyDate.valid y 2 28) eqn:V2; [|reflexivity].
      apply PyDateFacts.valid_year in V2. congruence.
  - apply Hnon.
  - intros R L. apply get_safe_date_valid.
    rewrite PyDateFacts.valid_feb29, R, L. reflexivity.
Qed.

(** The years the tests name: 2023, 2025 and 2100 fall back to 28 February;
    2024, 2028 and 2000 keep 29 February. *)
Lemma get_safe_date_spec_witness :
  get_safe_date 2023 2 29 = inr (Date 2023 2 28)
  /\ get_safe_date 2100 2 29 = inr (Date 2100 2 28)
  /\ get_safe_date 2024 2 29 = inr (Date 2024 2 29)
  /\ get_safe_date 2000 2 29 = inr (Date 2000 2 29)
  /\ get_safe_date 2025 4 31 = inl ValueError
  /\ get_safe_date 2025 3 15 = inr (Date 2025 3 15).
Proof.
  split; [|split; [|split; [|split; [|split]]]].
  - apply (proj1 (proj2 (get_safe_date_spec 2023 2 29))); reflexivity.
  - apply (proj1 (proj2 (proj2 (proj2 (get_safe_date_spec 2100 2 29))))); reflexivity.
  - apply (proj2 (proj2 (proj2 (proj2 (get_safe_date_spec 2024 2 29))))); reflexivity.
  - apply (proj2 (proj2 (proj2 (proj2 (get_safe_date_spec 2000 2 29))))); reflexivity.
  - apply (proj1 (proj2 (proj2 (get_safe_date_spec 2025 4 31)))); [reflexivity|].
    intros (_ & _ & E & _). discriminate.
  - apply (proj1 (get_safe_date_spec 2025 3 15)); reflexivity.
Defined.

(** ** [calculate_yearly_start_year] *)

(** C9: the start year is the requested year, with no warning, when that
    year is not before [current_year - 1]; otherwise it is
    [current_year - 1] and a warning comes with it.  So the start year is
    never more than one year behind the present. *)
Theorem calculate_yearly_start_year_spec (current_year : Z) (event_date : date) :
  (current_year - 1 <= PyDate.year event_date ->
   calculate_yearly_start_year current_year event_date
   = (PyDate.year event_date, None))
  /\ (PyDate.year event_date < current_year - 1 ->
      fst (calculate_yearly_start_year current_year event_date) = current_year - 1
      /\ snd (calculate_yearly_start_year current_year event_date) <> None)
  /\ current_year - 1 <= fst (calculate_yearly_start_year current_year event_date).
Proof.
  unfold calculate_yearly_start_year.
  destruct (current_year - 1 <=? PyDate.year event_date) eqn:E.
  - apply Z.leb_le in E. repeat split; simpl; try lia.
  - apply Z.leb_gt in E. repeat split; simpl; try lia. discriminate.
Qed.

Lemma calculate_yearly_start_year_spec_witness :
  calculate_yearly_start_year 2026 (Date 2026 5 10) = (2026, None)
  /\ calculate_yearly_start_year 2026 (Date 2030 5 10) = (2030, None)
  /\ fst (calculate_yearly_start_year 2026 (Date 2020 5 10)) = 2025
  /\ snd (calculate_yearly_start_year 2026 (Date 2020 5 10)) <> None.
Proof.
  split; [|split].
  - apply (proj1 (calculate_yearly_start_year_spec 2026 (Date 2026 5 10))). simpl. lia.
  - apply (proj1 (calculate_yearly_start_year_spec 2026 (Date 2030 5 10))). simpl. lia.
  - apply (proj1 (proj2 (calculate_yearly_start_year_spec 2026 (Date 2020 5 10)))).
    simpl. lia.
Defined.

(** ** [save_reminder] *)

Lemma reminder_date_exclusive event rd adjust o :
  reminder_date event rd adjust = inr o -> o <> None -> repeat rd = false.
Proof.
  unfold reminder_date. destruct (remind_date rd) as [d|].
  - destruct (repeat rd); simpl; [|reflexivity].
    intros E N. inversion E. congruence.
  - intros E N. inversion E. congruence.
Qed.

Lemma reminder_date_repeat event rd adjust :
  repeat rd = true -> reminder_date event rd adjust = inr None.
Proof.
  intros R. unfold reminder_date. rewrite R. destruct (remind_date rd); reflexivity.
Qed.

Lemma lookup_after_save rs k s s' :
  find (fun r => opt_Z_eqb (rs_event r) k) rs = Some s ->
  rs_event s' = k ->
  find (fun r => opt_Z_eqb (rs_event r) k)
       (map (fun r => if opt_Z_eqb (rs_event r) (rs_event s') then s' else r) rs)
  = Some s'.
Proof.
  intros F K. subst k. induction rs as [|r rs IH]; simpl in *; [discriminate|].
  destruct (opt_Z_eqb (rs_event r) (rs_event s')) eqn:E.
  - rewrite opt_Z_eqb_refl. reflexivity.
  - rewrite E. apply IH, F.
Qed.

Lemma get_or_create_unsaved event db :
  ev_id event = None -> Reminders.get_or_create event db = (inl ValueError, db).
Proof. intros K. unfold Reminders.get_or_create. rewrite K. reflexivity. Qed.

Lemma get_or_create_frame event db :
  events (snd (Reminders.get_or_create event db)) = events db
  /\ (forall x, In x (reminders (snd (Reminders.get_or_create event db))) ->
                In x (reminders db) \/ x = Reminders.fresh event).
Proof.
  unfold Reminders.get_or_create.
  destruct (ev_id event); [|simpl; auto].
  destruct (Reminders.lookup (reminders db) event) as [s|]; simpl; [auto|].
  split; [reflexivity|].
  intros x Hx. apply in_app_or in Hx as [Hx|[Hx|[]]]; auto.
Qed.

Lemma get_or_create_spec event db :
  is_some (ev_id event) = true ->
  exists s, Reminders.get_or_create event db
            = (inr s, snd (Reminders.get_or_create event db))
    /\ rs_event s = ev_id event
    /\ Reminders.lookup (reminders (snd (Reminders.get_or_create event db))) event = Some s
    /\ events (snd (Reminders.get_or_create event db)) = events db
    /\ (forall x, In x (reminders (snd (Reminders.get_or_create event db))) ->
                  In x (reminders db) \/ x = Reminders.fresh event).
Proof.
  intros Saved. unfold Reminders.get_or_create.
  destruct (ev_id event) as [i|] eqn:Ei; [clear Saved|discriminate].
  rewrite <- Ei.
  destruct (Reminders.lookup (reminders db) event) as [s|] eqn:L; simpl.
  - exists s. repeat split; auto.
    unfold Reminders.lookup in L. apply find_some in L as [_ L].
    apply opt_Z_eqb_eq in L. exact L.
  - exists (Reminders.fresh event). repeat split; auto.
    + unfold Reminders.lookup in *.
      induction (reminders db) as [|r rs IH]; simpl in *.
      * rewrite opt_Z_eqb_refl. reflexivity.
      * destruct (opt_Z_eqb (rs_event r) (ev_id event)); [discriminate|]. auto.
    + intros x Hx. apply in_app_or in Hx as [Hx|[Hx|[]]]; auto.
Qed.

(** What a call of [save_reminder] with a time of day does when the date can
    be formed. *)
Lemma save_reminder_stores event rd adjust db o :
  is_some (remind_at rd) = true ->
  reminder_date event rd adjust = inr o ->
  is_some (ev_id event) = true ->
  exists s db',
    save_reminder event rd adjust db = (inr (Some s), db')
    /\ rs_remind_date s = o /\ rs_repeat s = repeat rd
    /\ rs_remind_at s = remind_at rd
    /\ Reminders.lookup (reminders db') event = Some s
    /\ events db' = events db
    /\ (forall x, In x (reminders db') -> In x (reminders db) \/ x = s).
Proof.
  intros A Hd Saved. unfold save_reminder. rewrite A. simpl.
  destruct (get_or_create_spec event db Saved) as (s0 & E & K & L & Ev & Mem).
  unfold bind. rewrite E. unfold lift. rewrite Hd. simpl.
  eexists. eexists. split; [reflexivity|]. simpl.
  repeat split; auto.
  - unfold Reminders.lookup in *.
    match goal with
    | |- find _ (map (fun r => if _ then ?s' else r) _) = _ =>
        apply (lookup_after_save _ (ev_id event) s0 s' L K)
    end.
  - intros x Hx. apply in_map_iff in Hx as (r & Hr & Rin).
    destruct (opt_Z_eqb (rs_event r) (rs_event s0)) eqn:Ek.
    + right. symmetry. exact Hr.
    + subst x. apply Mem in Rin as [Rin|Rin]; [left; exact Rin|].
      subst r. simpl in Ek. rewrite K, opt_Z_eqb_refl in Ek. discriminate.
Qed.

Lemma save_reminder_noop event rd adjust db :
  is_some (remind_at rd) = false -> save_reminder event rd adjust db = (inr None, db).
Proof. intros A. unfold save_reminder. rewrite A. reflexivity. Qed.

Lemma save_reminder_unsaved event rd adjust db :
  is_some (remind_at rd) = true -> ev_id event = None ->
  save_reminder event rd adjust db = (inl ValueError, db).
Proof.
  intros A K. unfold save_reminder. rewrite A. simpl.
  unfold bind. rewrite (get_or_create_unsaved event db K). reflexivity.
Qed.

Lemma reminder_date_error event rd adjust e :
  reminder_date event rd adjust = inl e -> e = ValueError.
Proof.
  unfold reminder_date, PyDate.new. destruct (remind_date rd) as [d|]; [|discriminate].
  destruct (negb (repeat rd)); [|discriminate].
  destruct adjust; [|discriminate].
  destruct (PyDate.valid _ _ _); [discriminate|]. intros [= <-]. reflexivity.
Qed.

Lemma save_reminder_fails event rd adjust db e :
  is_some (remind_at rd) = true ->
  reminder_date event rd adjust = inl e ->
  save_reminder event rd adjust db
  = (inl e, snd (Reminders.get_or_create event db)).
Proof.
  intros A Hd. destruct (ev_id event) as [i|] eqn:Ei.
  - unfold save_reminder. rewrite A. simpl.
    destruct (get_or_create_spec event db) as (s0 & E & _); [rewrite Ei; reflexivity|].
    unfold bind. rewrite E. unfold lift. rewrite Hd. reflexivity.
  - rewrite (save_reminder_unsaved event rd adjust db A Ei).
    rewrite (get_or_create_unsaved event db Ei).
    rewrite (reminder_date_error event rd adjust e Hd). reflexivity.
Qed.

Lemma fresh_exclusive event : reminder_exclusive (Reminders.fresh event).
Proof. intros N. simpl in N. congruence. Qed.

(** C7: a configuration that [save_reminder] returns is the one stored for
    the entry and carries an absolute date only when it does not repeat; the
    exclusion is preserved on the whole table whatever the outcome of the
    call; with [repeat] set the call on a saved entry never fails, and the
    stored configuration has no absolute date, whatever date was supplied;
    for an entry that was never saved a call with a time of day raises
    [ValueError] and stores nothing. *)
Theorem save_reminder_exclusive (event : Event) (rd : ReminderFormData)
    (adjust : bool) (db : DB) :
  (forall s db', save_reminder event rd adjust db = (inr (Some s), db') ->
     reminder_exclusive s /\ rs_repeat s = repeat rd
     /\ Reminders.lookup (reminders db') event = Some s)
  /\ ((forall x, In x (reminders db) -> reminder_exclusive x) ->
      forall x, In x (reminders (snd (save_reminder event rd adjust db))) ->
                reminder_exclusive x)
  /\ (repeat rd = true ->
      (is_some (remind_at rd) = false ->
       save_reminder event rd adjust db = (inr None, db))
      /\ (is_some (remind_at rd) = true -> is_some (ev_id event) = true ->
          exists s db', save_reminder event rd adjust db = (inr (Some s), db')
                        /\ rs_repeat s = true /\ rs_remind_date s = None
                        /\ Reminders.lookup (reminders db') event = Some s))
  /\ (is_some (remind_at rd) = true -> ev_id event = None ->
      save_reminder event rd adjust db = (inl ValueError, db)).
Proof.
  split; [|split; [|split]].
  - intros s db' H.
    destruct (is_some (remind_at rd)) eqn:A.
    + destruct (ev_id event) as [i|] eqn:Ei;
        [|rewrite (save_reminder_unsaved event rd adjust db A Ei) in H; discriminate].
      destruct (reminder_date event rd adjust) as [e|o] eqn:Hd.
      * rewrite (save_reminder_fails _ _ _ _ _ A Hd) in H. discriminate.
      * destruct (save_reminder_stores event rd adjust db o A Hd)
          as (s1 & db1 & E & Hdate & Hrep & _ & L & _); [rewrite Ei; reflexivity|].
        rewrite E in H. inversion H; subst s1 db1.
        repeat split; auto.
        intros N. rewrite Hrep. rewrite Hdate in N.
        apply (reminder_date_exclusive _ _ _ _ Hd N).
    + rewrite (save_reminder_noop _ _ _ _ A) in H. discriminate.
  - intros Inv x Hx.
    destruct (is_some (remind_at rd)) eqn:A.
    + destruct (ev_id event) as [i|] eqn:Ei;
        [|rewrite (save_reminder_unsaved event rd adjust db A Ei) in Hx;
          apply Inv, Hx].
      destruct (reminder_date event rd adjust) as [e|o] eqn:Hd.
      * rewrite (save_reminder_fails _ _ _ _ _ A Hd) in Hx. simpl in Hx.
        destruct (get_or_create_frame event db) as (_ & Mem).
        apply Mem in Hx as [Hx| ->]; [apply Inv, Hx|apply fresh_exclusive].
      * destruct (save_reminder_stores event rd adjust db o A Hd)
          as (s1 & db1 & E & Hdate & Hrep & _ & _ & _ & Mem);
          [rewrite Ei; reflexivity|].
        rewrite E in Hx. simpl in Hx.
        apply Mem in Hx as [Hx| ->]; [apply Inv, Hx|].
        intros N. rewrite Hrep. rewrite Hdate in N.
        apply (reminder_date_exclusive _ _ _ _ Hd N).
    + rewrite (save_reminder_noop _ _ _ _ A) in Hx. apply Inv, Hx.
  - intros R. split.
    + apply save_reminder_noop.
    + intros A Saved.
      destruct (save_reminder_stores event rd adjust db None A
                  (reminder_date_repeat event rd adjust R) Saved)
        as (s1 & db1 & E & Hdate & Hrep & _ & L & _).
      exists s1, db1. rewrite Hrep. auto.
  - apply save_reminder_unsaved.
Qed.

Lemma save_reminder_exclusive_witness :
  exists s db',
    save_reminder Scenario.vet_head Scenario.repeat_with_date true Scenario.db_vet
    = (inr (Some s), db')
    /\ rs_repeat s = true /\ rs_remind_date s = None
    /\ Reminders.lookup (reminders db') Scenario.vet_head = Some s.
Proof.
  apply (proj2 (proj1 (proj2 (proj2 (save_reminder_exclusive Scenario.vet_head
                                       Scenario.repeat_with_date true Scenario.db_vet)))
                      eq_refl)).
  - reflexivity.
  - reflexivity.
Defined.

(** The form [from_post] builds is exclusive already: no absolute date and
    the posted weekdays with [repeat], no weekdays without it, and an
    interval of at least 1. *)
Lemma from_post_exclusive strptime_time strptime_date int_of_str post_data rd :
  from_post strptime_time strptime_date int_of_str post_data = inr rd ->
  (repeat rd = true -> remind_date rd = None)
  /\ (repeat rd = false -> repeat_days rd = [])
  /\ 1 <= repeat_every rd.
Proof.
  unfold from_post.
  destruct (parse_int int_of_str _) as [e|parsed]; [discriminate|].
  destruct (parse_time strptime_time _) as [e|at_]; [discriminate|].
  destruct (option_str_eqb (qd_get post_data "repeat") "on") eqn:R; cbn [negb].
  - intros E. inversion E; subst; simpl. repeat split; try discriminate.
    destruct parsed as [n|]; simpl; [|lia].
    destruct (n =? 0) eqn:N0; simpl; [lia|].
    destruct (n <=? 0) eqn:N1; [lia|]. apply Z.leb_gt in N1. lia.
  - destruct (parse_date strptime_date _) as [e|d]; [discriminate|].
    intros E. inversion E; subst; simpl. repeat split; try discriminate.
    destruct parsed as [n|]; simpl; [|lia].
    destruct (n =? 0) eqn:N0; simpl; [lia|].
    destruct (n <=? 0) eqn:N1; [lia|]. apply Z.leb_gt in N1. lia.
Qed.

(** ** [update_events] *)

Lemma accepted_from_cons db form_data update_date ev batch u :
  accepted_from db form_data update_date batch u ->
  accepted_from db form_data update_date (ev :: batch) u.
Proof.
  intros (e & nd & I & H). exists e, nd. split; [right; exact I|exact H].
Qed.

Lemma update_events_loop_sound form_data update_date batch :
  forall used updated db res db',
    update_events_loop batch form_data update_date used updated db = (res, db') ->
    db' = db
    /\ forall out, res = inr out ->
         exists acc, out = updated ++ acc
                     /\ Forall (accepted_from db form_data update_date batch) acc.
Proof.
  induction batch as [|ev rest IH]; intros used updated db res db' H.
  - inversion H; subst. split; [reflexivity|].
    intros out E. inversion E; subst. exists []. rewrite app_nil_r. auto.
  - simpl in H. unfold bind, lift in H.
    destruct (edit_date ev form_data update_date) as [e|nd] eqn:Ed.
    + inversion H; subst. split; [reflexivity|]. intros out E. discriminate.
    + assert (Hrest : forall us upd,
                 update_events_loop rest form_data update_date us upd db = (res, db') ->
                 (exists acc0, upd = updated ++ acc0
                               /\ Forall (accepted_from db form_data update_date (ev :: rest)) acc0) ->
                 db' = db
                 /\ forall out, res = inr out ->
                      exists acc, out = updated ++ acc
                        /\ Forall (accepted_from db form_data update_date (ev :: rest)) acc).
      { intros us upd Hl (acc0 & -> & F0).
        destruct (IH _ _ _ _ _ Hl) as [-> Hout]. split; [reflexivity|].
        intros out E. destruct (Hout out E) as (acc & -> & F).
        exists (acc0 ++ acc). rewrite app_assoc. split; [reflexivity|].
        apply Forall_app. split; [exact F0|].
        eapply Forall_impl; [|exact F]. intros a. apply accepted_from_cons. }
      destruct (pair_in (title form_data, nd) used).
      * apply (Hrest _ _ H). exists []. rewrite app_nil_r. auto.
      * unfold check_duplicate, query in H.
        destruct (duplicate_in (events db) (ev_pet ev) (title form_data) nd (ev_id ev))
          eqn:Dup.
        -- apply (Hrest _ _ H). exists []. rewrite app_nil_r. auto.
        -- apply (Hrest _ _ H). exists [apply_form ev form_data nd].
           split; [reflexivity|]. constructor; [|constructor].
           exists ev, nd. repeat split; auto. left. reflexivity.
Qed.

Lemma bulk_update_ok objs db db' :
  ORM.bulk_update objs db = (inr tt, db') ->
  db' = set_events db
          (map (fun r => match ORM.find_by_id objs (ev_id r) with
                         | Some o => ORM.copy_edit_fields r o
                         | None => r
                         end) (events db)).
Proof.
  unfold ORM.bulk_update.
  destruct (forallb (fun o => is_some (ev_id o)) objs); intros H; inversion H.
  reflexivity.
Qed.

Lemma Forall2_map_self {A} (R : A -> A -> Prop) (f : A -> A) (l : list A) :
  (forall x, In x l -> R x (f x)) -> Forall2 R l (map f l).
Proof.
  induction l as [|a l IH]; intros H; simpl; constructor.
  - apply H. left. reflexivity.
  - apply IH. intros x I. apply H. right. exact I.
Qed.

Lemma Forall2_refl_on {A} (R : A -> A -> Prop) (l : list A) :
  (forall x, In x l -> R x x) -> Forall2 R l l.
Proof.
  intros H. rewrite <- (map_id l) at 2. apply Forall2_map_self. exact H.
Qed.

(** C10: when [update_events] returns, every accepted object is an entry of
    the batch with the form applied, so its key, owner, head reference and
    completion columns are those of the entry; in the table every row keeps
    these columns (no continuation is detached, no completion status
    changes), and a row whose key is not that of an accepted object, such
    as a skipped entry, is unchanged.  Nothing else is written. *)
Theorem update_events_frame (batch : list Event) (form_data : EventFormData)
    (update_date : bool) (db db' : DB) (updated : list Event) :
  update_events batch form_data update_date db = (inr updated, db') ->
  Forall (fun u => exists ev, In ev batch /\ frame u = frame ev
                              /\ accepted_from db form_data update_date batch u)
         updated
  /\ Forall2 (fun r r' =>
                frame r' = frame r
                /\ ((forall u, In u updated -> ev_id u <> ev_id r) -> r' = r))
             (events db) (events db')
  /\ reminders db' = reminders db /\ next_id db' = next_id db.
Proof.
  unfold update_events, bind. intros H.
  destruct (update_events_loop batch form_data update_date [] [] db) as [res db1] eqn:L.
  destruct (update_events_loop_sound _ _ _ _ _ _ _ _ L) as [-> Hout].
  destruct res as [e|out]; [discriminate|].
  destruct (Hout out eq_refl) as (acc & Eacc & F). simpl in Eacc. subst acc.
  assert (Hupd : updated = out /\
                 (db' = db \/ ORM.bulk_update out db = (inr tt, db'))).
  { destruct out as [|o out'].
    - unfold ret in H. inversion H; subst. auto.
    - destruct (ORM.bulk_update (o :: out') db) as [[e|[]] db2] eqn:B.
      + discriminate.
      + unfold ret in H. inversion H; subst. auto. }
  destruct Hupd as [-> Hdb]. split.
  - eapply Forall_impl; [|exact F]. intros u Hu.
    destruct Hu as (ev & nd & I & Ed & -> & Dup).
    exists ev. split; [exact I|]. split; [reflexivity|].
    exists ev, nd. auto.
  - destruct Hdb as [->|B].
    + split; [|auto]. apply Forall2_refl_on. auto.
    + apply bulk_update_ok in B. subst db'. simpl. split; [|auto].
      apply Forall2_map_self. intros r _.
      destruct (ORM.find_by_id out (ev_id r)) as [o|] eqn:Fi.
      * split; [reflexivity|]. intros N. exfalso.
        unfold ORM.find_by_id in Fi. apply find_some in Fi as [Io Eo].
        apply opt_Z_eqb_eq in Eo. exact (N o Io Eo).
      * auto.
Qed.

Lemma update_events_frame_witness :
  exists updated db',
    update_events Scenario.vet_series Scenario.checkup_form true Scenario.db_vet
    = (inr updated, db')
    /\ Forall2 (fun r r' =>
                  frame r' = frame r
                  /\ ((forall u, In u updated -> ev_id u <> ev_id r) -> r' = r))
               (events Scenario.db_vet) (events db')
    /\ map ev_date updated = [Date 2026 4 20; Date 2027 4 20; Date 2028 4 20].
Proof.
  eexists. eexists. split; [reflexivity|]. split; [|reflexivity].
  exact (proj1 (proj2 (update_events_frame Scenario.vet_series Scenario.checkup_form
                         true Scenario.db_vet _ _ eq_refl))).
Defined.

(** *** Edits that keep the date *)

Lemma NoDup_map_eq {A B} (f : A -> B) (l : list A) (a b : A) :
  NoDup (map f l) -> In a l -> In b l -> f a = f b -> a = b.
Proof.
  induction l as [|x l IH]; simpl; intros N Ia Ib E; [contradiction|].
  inversion N as [|? ? Hx Nl]; subst.
  destruct Ia as [->|Ia], Ib as [->|Ib]; auto.
  - exfalso. apply Hx. rewrite E. apply in_map, Ib.
  - exfalso. apply Hx. rewrite <- E. apply in_map, Ia.
Qed.

Lemma keep_date_edit_idem form_data ev :
  keep_date_edit form_data (keep_date_edit form_data ev) = keep_date_edit form_data ev.
Proof. reflexivity. Qed.

Lemma copy_edit_fields_keep form_data r :
  ORM.copy_edit_fields r (keep_date_edit form_data r) = keep_date_edit form_data r.
Proof. reflexivity. Qed.

Lemma find_by_id_keep form_data batch i :
  ORM.find_by_id (map (keep_date_edit form_data) batch) i
  = option_map (keep_date_edit form_data) (ORM.find_by_id batch i).
Proof.
  unfold ORM.find_by_id. induction batch as [|e l IH]; simpl; [reflexivity|].
  destruct (opt_Z_eqb (ev_id e) i); [reflexivity|exact IH].
Qed.

Lemma find_by_id_some batch i e :
  ORM.find_by_id batch i = Some e -> In e batch /\ ev_id e = i.
Proof.
  unfold ORM.find_by_id. intros F. apply find_some in F as [I E].
  apply opt_Z_eqb_eq in E. auto.
Qed.

Lemma find_by_id_in batch e :
  In e batch -> exists e', ORM.find_by_id batch (ev_id e) = Some e'.
Proof.
  unfold ORM.find_by_id. intros I.
  destruct (find (fun o => opt_Z_eqb (ev_id o) (ev_id e)) batch) as [e'|] eqn:F.
  - exists e'. reflexivity.
  - apply (find_none _ _ F) in I. rewrite opt_Z_eqb_refl in I. discriminate.
Qed.

Lemma set_events_same db : set_events db (events db) = db.
Proof. destruct db; reflexivity. Qed.

Lemma update_events_loop_keep form_data :
  forall batch used updated db,
    NoDup (map ev_date batch) ->
    (forall ev, In ev batch -> pair_in (title form_data, ev_date ev) used = false) ->
    (forall ev, In ev batch ->
       duplicate_in (events db) (ev_pet ev) (title form_data) (ev_date ev) (ev_id ev)
       = false) ->
    update_events_loop batch form_data false used updated db
    = (inr (updated ++ map (keep_date_edit form_data) batch), db).
Proof.
  induction batch as [|ev rest IH]; intros used updated db N Hused Hfree; simpl.
  - rewrite app_nil_r. reflexivity.
  - unfold bind, lift. simpl.
    rewrite (Hused ev (or_introl eq_refl)).
    unfold check_duplicate, query. rewrite (Hfree ev (or_introl eq_refl)).
    inversion N as [|? ? Hev Nrest]; subst.
    rewrite IH.
    + rewrite <- app_assoc. reflexivity.
    + exact Nrest.
    + intros e I. simpl. rewrite (Hused e (or_intror I)), orb_false_r.
      apply andb_false_iff. right. apply PyDateFacts.eqb_neq.
      intros E. apply Hev. rewrite E. apply in_map, I.
    + intros e I. apply Hfree. right. exact I.
Qed.

Lemma truthy_is_some o : truthy_int o = true -> is_some o = true.
Proof. destruct o; simpl; [reflexivity|discriminate]. Qed.

(** The rows of the batch are the rows that take the form. *)
Lemma edited_rows_bulk form_data batch db :
  editable db form_data batch ->
  map (fun r => match ORM.find_by_id (map (keep_date_edit form_data) batch) (ev_id r) with
                | Some o => ORM.copy_edit_fields r o
                | None => r
                end) (events db)
  = edited_rows form_data batch (events db).
Proof.
  intros Ed. unfold edited_rows. apply map_ext_in. intros r Ir.
  rewrite find_by_id_keep.
  destruct (ORM.find_by_id batch (ev_id r)) as [e|] eqn:F; simpl; [|reflexivity].
  apply find_by_id_some in F as [Ie Eid].
  assert (e = r) as ->.
  { apply (NoDup_map_eq ev_id (events db)); auto.
    - exact (ed_unique _ _ _ Ed).
    - exact (ed_rows _ _ _ Ed e Ie). }
  apply copy_edit_fields_keep.
Qed.

Lemma bulk_update_if_any objs db :
  match objs with
  | [] => ret tt
  | _ :: _ => ORM.bulk_update objs
  end db
  = match objs with
    | [] => (inr tt, db)
    | _ :: _ => ORM.bulk_update objs db
    end.
Proof. destruct objs; reflexivity. Qed.

Lemma update_events_keep_date form_data batch db :
  editable db form_data batch ->
  update_events batch form_data false db
  = (inr (map (keep_date_edit form_data) batch),
     set_events db (edited_rows form_data batch (events db))).
Proof.
  intros Ed. unfold update_events, bind.
  rewrite (update_events_loop_keep form_data batch [] [] db (ed_dates _ _ _ Ed));
    [|reflexivity|exact (ed_free _ _ _ Ed)].
  simpl app. rewrite bulk_update_if_any.
  destruct batch as [|ev rest].
  - simpl. unfold ret, edited_rows. simpl.
    rewrite map_id, set_events_same. reflexivity.
  - remember (ev :: rest) as batch eqn:Eb.
    assert (Hne : ORM.bulk_update (map (keep_date_edit form_data) batch) db
                  = (inr tt, set_events db (edited_rows form_data batch (events db)))).
    { unfold ORM.bulk_update.
      assert (K : forallb (fun o => is_some (ev_id o))
                          (map (keep_date_edit form_data) batch) = true).
      { apply forallb_forall. intros u Iu. apply in_map_iff in Iu as (e & <- & Ie).
        simpl. apply truthy_is_some, (ed_keys _ _ _ Ed e Ie). }
      rewrite K, (edited_rows_bulk _ _ _ Ed). reflexivity. }
    subst batch. cbn [app map] in *. rewrite Hne. reflexivity.
Qed.

Lemma edited_rows_keys form_data batch rows :
  map ev_id (edited_rows form_data batch rows) = map ev_id rows.
Proof.
  unfold edited_rows. rewrite map_map. apply map_ext. intros r.
  destruct (ORM.find_by_id batch (ev_id r)); reflexivity.
Qed.

Lemma duplicate_in_false rows pet t d ex :
  duplicate_in rows pet t d ex = false <->
  forall r, In r rows ->
    (ev_pet r =? pet) && String.eqb (ev_title r) t && PyDate.eqb (ev_date r) d
    && (if truthy_int ex then negb (opt_Z_eqb (ev_id r) ex) else true) = false.
Proof.
  unfold duplicate_in. split.
  - intros H r I. apply not_true_is_false. intros E.
    assert (X : existsb (fun r =>
        (ev_pet r =? pet) && String.eqb (ev_title r) t && PyDate.eqb (ev_date r) d
        && (if truthy_int ex then negb (opt_Z_eqb (ev_id r) ex) else true)) rows = true)
      by (apply existsb_exists; exists r; auto).
    congruence.
  - intros H. destruct (existsb _ rows) eqn:E; [|reflexivity].
    apply existsb_exists in E as (r & I & P). rewrite (H r I) in P. discriminate.
Qed.

(** After a date-keeping edit the edited batch is again editable. *)
Lemma editable_after form_data batch db :
  editable db form_data batch ->
  editable (set_events db (edited_rows form_data batch (events db))) form_data
           (map (keep_date_edit form_data) batch).
Proof.
  intros Ed. constructor; simpl.
  - rewrite map_map. simpl. exact (ed_dates _ _ _ Ed).
  - intros u Iu. apply in_map_iff in Iu as (e & <- & Ie). exact (ed_keys _ _ _ Ed e Ie).
  - intros u Iu. apply in_map_iff in Iu as (e & <- & Ie).
    unfold edited_rows. apply in_map_iff. exists e. split; [|exact (ed_rows _ _ _ Ed e Ie)].
    destruct (find_by_id_in batch e Ie) as (e' & ->). reflexivity.
  - rewrite edited_rows_keys. exact (ed_unique _ _ _ Ed).
  - intros u Iu. apply in_map_iff in Iu as (e & <- & Ie). simpl.
    apply duplicate_in_false. intros r' Ir'.
    unfold edited_rows in Ir'. apply in_map_iff in Ir' as (r & <- & Ir).
    destruct (ORM.find_by_id batch (ev_id r)) as [e2|] eqn:F.
    + apply find_by_id_some in F as [I2 Eid].
      assert (e2 = r) as ->.
      { apply (NoDup_map_eq ev_id (events db)); auto.
        - exact (ed_unique _ _ _ Ed).
        - exact (ed_rows _ _ _ Ed e2 I2). }
      simpl. rewrite (ed_keys _ _ _ Ed e Ie).
      destruct (PyDate.eqb (ev_date r) (ev_date e)) eqn:Dd.
      * apply PyDateFacts.eqb_eq in Dd.
        assert (r = e) as -> by (apply (NoDup_map_eq ev_date batch); auto; exact (ed_dates _ _ _ Ed)).
        rewrite opt_Z_eqb_refl. simpl. rewrite !andb_false_r. reflexivity.
      * rewrite andb_false_r. reflexivity.
    + apply (proj1 (duplicate_in_false _ _ _ _ _) (ed_free _ _ _ Ed e Ie) r Ir).
Qed.

Lemma edited_rows_idem form_data batch rows :
  edited_rows form_data (map (keep_date_edit form_data) batch)
              (edited_rows form_data batch rows)
  = edited_rows form_data batch rows.
Proof.
  unfold edited_rows. rewrite map_map. apply map_ext. intros r.
  destruct (ORM.find_by_id batch (ev_id r)) as [e|] eqn:F.
  - simpl. rewrite find_by_id_keep, F. reflexivity.
  - rewrite find_by_id_keep, F. reflexivity.
Qed.

(** C8 (amended): a date-keeping edit of an editable batch (in particular a
    3-entry series whose new title is free on its three dates) accepts every
    entry, keeps every date, puts the new title on every entry and its row,
    and running the same edit again accepts the same entries and leaves the
    table as it is. *)
Theorem update_events_title_idempotent (form_data : EventFormData)
    (batch : list Event) (db : DB) :
  editable db form_data batch ->
  let accepted := map (keep_date_edit form_data) batch in
  let db1 := set_events db (edited_rows form_data batch (events db)) in
  update_events batch form_data false db = (inr accepted, db1)
  /\ List.length accepted = List.length batch
  /\ map ev_date accepted = map ev_date batch
  /\ Forall (fun u => ev_title u = title form_data) accepted
  /\ (forall ev, In ev batch -> In (keep_date_edit form_data ev) (events db1))
  /\ update_events accepted form_data false db1 = (inr accepted, db1).
Proof.
  intros Ed accepted db1. subst accepted db1.
  pose proof (editable_after _ _ _ Ed) as Ed1.
  split; [apply update_events_keep_date, Ed|].
  split; [apply length_map|].
  split; [rewrite map_map; reflexivity|].
  split; [apply Forall_forall; intros u Iu;
          apply in_map_iff in Iu as (e & <- & _); reflexivity|].
  split.
  - intros ev Iev. apply (ed_rows _ _ _ Ed1). apply in_map, Iev.
  - rewrite (update_events_keep_date _ _ _ Ed1). f_equal.
    + f_equal. rewrite map_map. apply map_ext. intros e. reflexivity.
    + cbn [events set_events]. rewrite edited_rows_idem. reflexivity.
Qed.

Ltac nodup_concrete :=
  repeat (apply NoDup_cons; [simpl; intuition congruence|]); apply NoDup_nil.

Lemma editable_vet_series :
  editable Scenario.db_vet Scenario.checkup_form Scenario.vet_series.
Proof.
  constructor.
  - simpl. nodup_concrete.
  - intros ev [<-|[<-|[<-|[]]]]; reflexivity.
  - intros ev I. exact I.
  - simpl. nodup_concrete.
  - intros ev [<-|[<-|[<-|[]]]]; reflexivity.
Defined.

Lemma update_events_title_idempotent_witness :
  let accepted := map (keep_date_edit Scenario.checkup_form) Scenario.vet_series in
  let db1 := set_events Scenario.db_vet
               (edited_rows Scenario.checkup_form Scenario.vet_series
                            (events Scenario.db_vet)) in
  update_events Scenario.vet_series Scenario.checkup_form false Scenario.db_vet
  = (inr accepted, db1)
  /\ List.length accepted = 3%nat
  /\ map ev_title (events db1) = ["Checkup"; "Checkup"; "Checkup"]%string
  /\ update_events accepted Scenario.checkup_form false db1 = (inr accepted, db1).
Proof.
  pose proof (update_events_title_idempotent Scenario.checkup_form Scenario.vet_series
                Scenario.db_vet editable_vet_series) as H.
  cbv zeta in *. destruct H as (H1 & _ & _ & _ & _ & H6).
  split; [exact H1|]. split; [reflexivity|]. split; [reflexivity|exact H6].
Defined.

(** C8 as stated fails when the new title is taken on one of the dates: of
    the 3-entry series only two entries are accepted, and the row of the
    third keeps its old title. *)
Lemma update_events_title_collision :
  exists updated db',
    update_events Scenario.vet_series Scenario.checkup_form false
                  Scenario.db_vet_checkup = (inr updated, db')
    /\ List.length Scenario.vet_series = 3%nat
    /\ map ev_id updated = [Some 1; Some 3]
    /\ map ev_title (events db') = ["Checkup"; "Vet"; "Checkup"; "Checkup"]%string.
Proof.
  eexists. eexists. split; [reflexivity|]. repeat split.
Qed.

(** A failed [update_events] has written nothing. *)
Lemma update_events_error_writes_nothing batch form_data update_date db e db' :
  update_events batch form_data update_date db = (inl e, db') -> db' = db.
Proof.
  unfold update_events, bind. intros H.
  destruct (update_events_loop batch form_data update_date [] [] db) as [res db1] eqn:L.
  destruct (update_events_loop_sound _ _ _ _ _ _ _ _ L) as [-> _].
  destruct res as [e1|out]; [inversion H; reflexivity|].
  rewrite bulk_update_if_any in H. destruct out as [|o out'].
  - inversion H.
  - unfold ORM.bulk_update in H.
    destruct (forallb _ (o :: out')); inversion H. reflexivity.
Qed.

(** ** [create_yearly_series] *)

Lemma get_safe_date_series fd y :
  PyDate.wf fd -> PyDate.year_in_range y = true ->
  get_safe_date y (PyDate.month fd) (PyDate.day fd) = inr (series_date fd y).
Proof.
  intros W R. destruct (get_safe_date_total _ y _ _ W R) as (dt & E & ->). exact E.
Qed.

Lemma series_date_year fd y : PyDate.year (series_date fd y) = y.
Proof. unfold series_date. destruct (PyDate.valid _ _ _); reflexivity. Qed.

Lemma series_date_inj fd y y' : series_date fd y = series_date fd y' -> y = y'.
Proof.
  intros E. rewrite <- (series_date_year fd y), E. apply series_date_year.
Qed.

Lemma numbered_length n objs : List.length (numbered n objs) = List.length objs.
Proof.
  revert n. induction objs as [|e l IH]; intros n; simpl; [reflexivity|].
  rewrite IH. reflexivity.
Qed.

Lemma bulk_create_spec objs :
  forall db,
    ORM.bulk_create objs db
    = (inr (numbered (next_id db) objs),
       {| events := events db ++ numbered (next_id db) objs;
          reminders := reminders db;
          next_id := next_id db + Z.of_nat (List.length objs) |}).
Proof.
  induction objs as [|e l IH]; intros db.
  - simpl. unfold ret. rewrite app_nil_r, Z.add_0_r. destruct db; reflexivity.
  - cbn [ORM.bulk_create]. unfold bind at 1. unfold ORM.save. cbn [ev_id with_id].
    unfold bind. rewrite IH. cbn [next_id events reminders]. unfold ret.
    cbn [numbered List.length]. rewrite <- app_assoc. cbn [app].
    rewrite Nat2Z.inj_succ. f_equal. f_equal. lia.
Qed.

Lemma filter_cons_eq {A} (f : A -> bool) (x : A) (l : list A) :
  filter f (x :: l) = if f x then x :: filter f l else filter f l.
Proof. reflexivity. Qed.

Lemma year_free_false db pet form_data fd y :
  duplicate_in (events db) pet (title form_data) (series_date fd y) None = true ->
  year_free db pet form_data fd y = false.
Proof. unfold year_free. intros ->. reflexivity. Qed.

Lemma year_free_true db pet form_data fd y :
  duplicate_in (events db) pet (title form_data) (series_date fd y) None = false ->
  year_free db pet form_data fd y = true.
Proof. unfold year_free. intros ->. reflexivity. Qed.

Lemma duplicate_in_app rows1 rows2 p t d ex :
  duplicate_in (rows1 ++ rows2) p t d ex
  = duplicate_in rows1 p t d ex || duplicate_in rows2 p t d ex.
Proof. unfold duplicate_in. apply existsb_app. Qed.

Section YearlySeries.

Variables (pet : Pet) (form_data : EventFormData) (fd : date).
Hypothesis form_has_date : date_ form_data = Some fd.
Hypothesis form_date_wf : PyDate.wf fd.

Let unsaved (head : Event) (y : Z) : Event :=
  series_event pet form_data (series_date fd y) (Some head).

(** Once the head exists the loop writes nothing: it collects the free
    years. *)
Lemma create_yearly_series_loop_tail (head : Event) (db0 : DB) :
  forall years created dbh,
    Forall (fun y => PyDate.year_in_range y = true) years ->
    (forall y, In y years ->
       duplicate_in (events dbh) pet (title form_data) (series_date fd y) None
       = duplicate_in (events db0) pet (title form_data) (series_date fd y) None) ->
    create_yearly_series_loop pet form_data years (Some head) created dbh
    = (inr (Some head,
            created ++ map (unsaved head) (filter (year_free db0 pet form_data fd) years)),
       dbh).
Proof.
  induction years as [|y rest IH]; intros created dbh R Same.
  - simpl. unfold ret. rewrite app_nil_r. reflexivity.
  - inversion R as [|? ? Ry Rrest]; subst.
    cbn [create_yearly_series_loop]. unfold bind, lift, form_date.
    rewrite form_has_date, (get_safe_date_series _ _ form_date_wf Ry).
    unfold check_duplicate, query. rewrite (Same y (or_introl eq_refl)).
    rewrite filter_cons_eq.
    destruct (duplicate_in (events db0) pet (title form_data) (series_date fd y) None)
      eqn:Dup.
    + rewrite (year_free_false _ _ _ _ _ Dup).
      apply IH; [exact Rrest|]. intros y' I. apply Same. right. exact I.
    + rewrite (year_free_true _ _ _ _ _ Dup). cbn [map].
      rewrite IH; [|exact Rrest|intros y' I; apply Same; right; exact I].
      rewrite <- app_assoc. reflexivity.
Qed.

(** Before the head exists: duplicate years are passed over, the first
    free year gives the head, which is saved at once. *)
Lemma create_yearly_series_loop_spec :
  forall years db,
    Forall (fun y => PyDate.year_in_range y = true) years -> NoDup years ->
    create_yearly_series_loop pet form_data years None [] db
    = match filter (year_free db pet form_data fd) years with
      | [] => (inr (None, []), db)
      | y0 :: ys =>
          let head := planned_head pet form_data fd (next_id db) y0 in
          (inr (Some head, map (unsaved head) ys),
           {| events := events db ++ [head]; reminders := reminders db;
              next_id := next_id db + 1 |})
      end.
Proof.
  induction years as [|y rest IH]; intros db R N.
  - reflexivity.
  - inversion R as [|? ? Ry Rrest]; subst. inversion N as [|? ? Hy Nrest]; subst.
    cbn [create_yearly_series_loop]. unfold bind at 1, lift at 1, form_date.
    rewrite form_has_date. unfold bind at 1, lift at 1.
    rewrite (get_safe_date_series _ _ form_date_wf Ry).
    unfold bind at 1, check_duplicate, query.
    rewrite filter_cons_eq.
    destruct (duplicate_in (events db) pet (title form_data) (series_date fd y) None)
      eqn:Dup.
    + rewrite (year_free_false _ _ _ _ _ Dup). apply IH; assumption.
    + rewrite (year_free_true _ _ _ _ _ Dup).
      unfold bind at 1, ORM.save. cbn [ev_id series_event].
      rewrite (create_yearly_series_loop_tail _ db); [reflexivity|exact Rrest|].
      intros y' I. cbn [events]. rewrite duplicate_in_app.
      assert (Hd : PyDate.eqb (series_date fd y) (series_date fd y') = false).
      { apply PyDateFacts.eqb_neq. intros E.
        apply series_date_inj in E. subst y'. contradiction. }
      match goal with
      | |- _ || ?h = _ => assert (Hh : h = false)
      end.
      { unfold duplicate_in. simpl. rewrite Hd.
        destruct (pet =? pet), (String.eqb (title form_data) (title form_data));
          reflexivity. }
      rewrite Hh. apply orb_false_r.
Qed.

(** The whole of [create_yearly_series] for distinct years of the range. *)
Lemma create_yearly_series_spec years db :
  Forall (fun y => PyDate.year_in_range y = true) years -> NoDup years ->
  create_yearly_series pet form_data years db
  = match filter (year_free db pet form_data fd) years with
    | [] => (inr (None, []), db)
    | y0 :: ys =>
        let head := planned_head pet form_data fd (next_id db) y0 in
        let conts := planned_continuations pet form_data fd (next_id db + 1) head ys in
        (inr (Some head, conts),
         {| events := events db ++ head :: conts; reminders := reminders db;
            next_id := next_id db + 1 + Z.of_nat (List.length ys) |})
    end.
Proof.
  intros R N. unfold create_yearly_series. unfold bind at 1.
  rewrite (create_yearly_series_loop_spec _ _ R N).
  destruct (filter (year_free db pet form_data fd) years) as [|y0 ys].
  - reflexivity.
  - cbv zeta. cbn [snd fst].
    assert (B : forall objs d,
               match objs with [] => ret [] | _ :: _ => ORM.bulk_create objs end d
               = ORM.bulk_create objs d) by (intros [|? ?] ?; reflexivity).
    unfold bind. rewrite B, bulk_create_spec. cbn [next_id events reminders].
    unfold ret, planned_continuations. rewrite <- app_assoc, length_map. reflexivity.
Qed.

End YearlySeries.

Lemma numbered_dates n objs : map ev_date (numbered n objs) = map ev_date objs.
Proof.
  revert n. induction objs as [|e l IH]; intros n; simpl; [reflexivity|].
  rewrite IH. reflexivity.
Qed.

Lemma numbered_Forall (P : Event -> Prop) n objs :
  (forall e i, P e -> P (with_id e i)) -> Forall P objs -> Forall P (numbered n objs).
Proof.
  intros HP. revert n. induction objs as [|e l IH]; intros n F; simpl; [constructor|].
  inversion F; subst. constructor; auto.
Qed.

(** ** [_create_yearly_event_v2] *)

Lemma start_years_ok s :
  PyDate.year_in_range s = true -> PyDate.year_in_range (s + 2) = true ->
  Forall (fun y => PyDate.year_in_range y = true) [s; s + 1; s + 2]
  /\ NoDup [s; s + 1; s + 2].
Proof.
  unfold PyDate.year_in_range, PyDate.MINYEAR, PyDate.MAXYEAR.
  rewrite !andb_true_iff, !Z.leb_le. intros [A B] [C D]. split.
  - repeat constructor; rewrite ?andb_true_iff, ?Z.leb_le; lia.
  - repeat constructor; simpl; lia.
Qed.

(** The planner answers with the duplicate message exactly when the date of
    the start year is taken; then it has written nothing. *)
Lemma create_yearly_event_v2_start current_year pet form_data reminder_data fd db :
  date_ form_data = Some fd -> PyDate.wf fd ->
  let s := fst (calculate_yearly_start_year current_year fd) in
  PyDate.year_in_range s = true -> PyDate.year_in_range (s + 2) = true ->
  (year_free db pet form_data fd s = false ->
   exists msg, _create_yearly_event_v2 current_year pet form_data reminder_data db
               = (inr (inl msg), db))
  /\ (year_free db pet form_data fd s = true ->
      forall msg db',
        _create_yearly_event_v2 current_year pet form_data reminder_data db
        <> (inr (inl msg), db')).
Proof.
  intros Hd W s R0 R2.
  unfold _create_yearly_event_v2, form_date. rewrite Hd, bind_lift_inr. fold s.
  rewrite (get_safe_date_series _ _ W R0), bind_lift_inr.
  unfold check_duplicate. rewrite bind_query. unfold year_free.
  destruct (duplicate_in (events db) pet (title form_data) (series_date fd s) None)
    eqn:Dup; cbn [negb]; split; try discriminate.
  - intros _. eexists. reflexivity.
  - intros _ msg db'.
    destruct (start_years_ok s R0 R2) as [R N].
    unfold bind at 1. rewrite (create_yearly_series_spec pet form_data fd Hd W _ db R N).
    rewrite filter_cons_eq, (year_free_true _ _ _ _ _ Dup).
    cbv zeta. cbn [fst snd]. unfold bind.
    destruct (save_reminders_for_events _ reminder_data _) as [[e|rs] db2];
      unfold ret; intros E; inversion E.
Qed.

(** C3 (amended): over distinct years of the supported range
    [create_yearly_series] passes over exactly the years whose (title, date)
    is already taken; the head is drawn from the first year that is left
    and the later ones become continuations that reference it; no head is
    returned only when no year is left, and then nothing is written.  The
    planner [_create_yearly_event_v2] answers with the duplicate message
    exactly when the date of the start year is taken, whatever the later
    years are, and then writes nothing. *)
Theorem yearly_series_duplicates (pet : Pet) (form_data : EventFormData)
    (fd : date) (years : list Z) (db : DB) :
  date_ form_data = Some fd -> PyDate.wf fd ->
  Forall (fun y => PyDate.year_in_range y = true) years -> NoDup years ->
  (exists head conts db',
     create_yearly_series pet form_data years db = (inr (head, conts), db')
     /\ (head = None <-> filter (year_free db pet form_data fd) years = [])
     /\ (head = None -> conts = [] /\ db' = db)
     /\ (forall y0 ys,
           filter (year_free db pet form_data fd) years = y0 :: ys ->
           exists h,
             head = Some h /\ ev_date h = series_date fd y0
             /\ ev_original_event h = None /\ ev_id h = Some (next_id db)
             /\ map ev_date conts = map (series_date fd) ys
             /\ Forall (fun c => ev_original_event c = ev_id h
                                 /\ ev_title c = title form_data /\ ev_pet c = pet)
                       conts
             /\ events db' = events db ++ h :: conts))
  /\ (forall current_year reminder_data,
        let s := fst (calculate_yearly_start_year current_year fd) in
        PyDate.year_in_range s = true -> PyDate.year_in_range (s + 2) = true ->
        (year_free db pet form_data fd s = false ->
         exists msg,
           _create_yearly_event_v2 current_year pet form_data reminder_data db
           = (inr (inl msg), db))
        /\ (year_free db pet form_data fd s = true ->
            forall msg db',
              _create_yearly_event_v2 current_year pet form_data reminder_data db
              <> (inr (inl msg), db'))).
Proof.
  intros Hd W R N. split.
  - rewrite (create_yearly_series_spec pet form_data fd Hd W years db R N).
    destruct (filter (year_free db pet form_data fd) years) as [|y0 ys].
    + exists None, [], db. split; [reflexivity|]. split; [tauto|].
      split; [auto|]. intros ? ? E. discriminate.
    + cbv zeta. eexists. eexists. eexists. split; [reflexivity|].
      split; [split; discriminate|]. split; [discriminate|].
      intros y1 ys1 E. inversion E; subst y1 ys1.
      eexists. split; [reflexivity|]. cbn [events].
      split; [reflexivity|]. split; [reflexivity|]. split; [reflexivity|].
      split; [|split; [|reflexivity]].
      * unfold planned_continuations. rewrite numbered_dates, map_map. reflexivity.
      * unfold planned_continuations. apply numbered_Forall.
        -- intros e i H. exact H.
        -- apply Forall_forall. intros c Ic.
           apply in_map_iff in Ic as (y & <- & _). repeat split.
  - intros current_year reminder_data.
    apply create_yearly_event_v2_start; assumption.
Qed.

Lemma yearly_series_duplicates_witness :
  exists head conts db',
    create_yearly_series Scenario.pet Scenario.vet_form [2026; 2027; 2028]
                         Scenario.db_dup_2027 = (inr (Some head, conts), db')
    /\ ev_date head = Date 2026 3 15
    /\ map ev_date conts = [Date 2028 3 15]
    /\ Forall (fun c => ev_original_event c = ev_id head) conts.
Proof.
  destruct (yearly_series_duplicates Scenario.pet Scenario.vet_form (Date 2026 3 15)
              [2026; 2027; 2028] Scenario.db_dup_2027 eq_refl eq_refl)
    as [(head & conts & db' & E & _ & _ & H) _].
  - repeat constructor.
  - nodup_concrete.
  - destruct (H 2026 [2028] eq_refl) as (h & -> & Dh & _ & _ & Dc & Fc & _).
    exists h, conts, db'. split; [exact E|]. split; [exact Dh|]. split; [exact Dc|].
    eapply Forall_impl; [|exact Fc]. intros c Hc. exact (proj1 Hc).
Defined.

(** C3 as stated fails in the planner: with the date of the start year 2026
    taken, no series is created and the duplicate message is returned,
    although 2027 and 2028 are free and [create_yearly_series] alone would
    draw the head from 2027. *)
Lemma yearly_start_duplicate_aborts :
  (exists msg,
     _create_yearly_event_v2 2026 Scenario.pet Scenario.vet_form Scenario.no_reminder
                             Scenario.db_dup_2026
     = (inr (inl msg), Scenario.db_dup_2026))
  /\ filter (year_free Scenario.db_dup_2026 Scenario.pet Scenario.vet_form
                       (Date 2026 3 15)) [2026; 2027; 2028] = [2027; 2028]
  /\ (exists head conts db',
        create_yearly_series Scenario.pet Scenario.vet_form [2026; 2027; 2028]
                             Scenario.db_dup_2026 = (inr (Some head, conts), db')
        /\ ev_date head = Date 2027 3 15).
Proof.
  split; [eexists; lazy; reflexivity|]. split; [reflexivity|].
  eexists. eexists. eexists. split; lazy; reflexivity.
Qed.

(** ** [create_next_year_events] *)

Section Rollover.

Variable target_year : Z.

Let candidate (event : Event) : exn + date :=
  get_safe_date target_year (PyDate.month (ev_date event))
                (PyDate.day (ev_date event)).

(** After the loop has visited an entry, its candidate date is taken. *)
Let covered (rows : list Event) (event : Event) : Prop :=
  exists nd, candidate event = inr nd
             /\ duplicate_in rows (ev_pet event) (ev_title event) nd None = true.

Lemma covered_app rows added event :
  covered rows event -> covered (rows ++ added) event.
Proof.
  intros (nd & C & D). exists nd. split; [exact C|].
  rewrite duplicate_in_app, D. reflexivity.
Qed.

(** A run of the loop only appends rows, all dated in the target year,
    and when it returns every visited entry is covered. *)
Lemma create_next_year_loop_run :
  forall src count db res db',
    create_next_year_loop target_year src count db = (res, db') ->
    exists added,
      events db' = events db ++ added
      /\ reminders db' = reminders db
      /\ Forall (fun r => PyDate.year (ev_date r) = target_year) added
      /\ (forall n, res = inr n ->
            Forall (covered (events db')) src
            /\ n = count + Z.of_nat (List.length added)).
Proof.
  induction src as [|event rest IH]; intros count db res db' H.
  - inversion H; subst. exists []. rewrite app_nil_r.
    split; [reflexivity|]. split; [reflexivity|]. split; [constructor|].
    intros n E. inversion E; subst. simpl. split; [constructor|lia].
  - cbn [create_next_year_loop] in H.
    destruct (get_safe_date target_year (PyDate.month (ev_date event))
                            (PyDate.day (ev_date event))) as [e|nd] eqn:C.
    + rewrite bind_lift_inl in H. inversion H; subst. exists [].
      rewrite app_nil_r.
      split; [reflexivity|]. split; [reflexivity|]. split; [constructor|].
      intros n E. discriminate.
    + rewrite bind_lift_inr in H. unfold check_duplicate in H.
      rewrite bind_query in H.
      destruct (duplicate_in (events db) (ev_pet event) (ev_title event) nd None)
        eqn:Dup; cbn [negb] in H.
      * destruct (IH _ _ _ _ H) as (added & Ev & Rm & Fy & Hok).
        exists added. split; [exact Ev|]. split; [exact Rm|]. split; [exact Fy|].
        intros n E. destruct (Hok n E) as [Fc Hn]. split; [|exact Hn].
        constructor; [|exact Fc].
        rewrite Ev. apply covered_app. exists nd. auto.
      * unfold bind at 1, ORM.create, ORM.save in H. cbn [ev_id with_id] in H.
        destruct (IH _ _ _ _ H) as (added & Ev & Rm & Fy & Hok).
        cbn [events reminders] in Ev, Rm. rewrite <- app_assoc in Ev.
        eexists. split; [exact Ev|]. split; [exact Rm|]. split.
        -- constructor; [|exact Fy]. cbn [ev_date].
           apply (get_safe_date_year _ _ _ _ C).
        -- intros n E. destruct (Hok n E) as [Fc Hn]. split.
           ++ constructor; [|exact Fc]. rewrite Ev.
              exists nd. split; [exact C|].
              rewrite duplicate_in_app. apply orb_true_iff. right.
              unfold duplicate_in. cbn [app existsb ev_pet ev_title ev_date truthy_int].
              rewrite Z.eqb_refl, String.eqb_refl, PyDateFacts.eqb_refl. reflexivity.
           ++ rewrite Hn. cbn [List.length app]. rewrite Nat2Z.inj_succ. lia.
Qed.

(** When every entry is covered the loop creates nothing. *)
Lemma create_next_year_loop_covered :
  forall src count db,
    Forall (covered (events db)) src ->
    create_next_year_loop target_year src count db = (inr count, db).
Proof.
  induction src as [|event rest IH]; intros count db F.
  - reflexivity.
  - inversion F as [|? ? (nd & C & D) Frest]; subst.
    cbn [create_next_year_loop]. fold (candidate event). rewrite C, bind_lift_inr.
    unfold check_duplicate. rewrite bind_query, D. cbn [negb].
    apply IH, Frest.
Qed.

(** With valid dates and a target year of the range the loop returns. *)
Lemma create_next_year_loop_total :
  PyDate.year_in_range target_year = true ->
  forall src count db,
    Forall (fun r => PyDate.wf (ev_date r)) src ->
    exists n db', create_next_year_loop target_year src count db = (inr n, db').
Proof.
  intros R. induction src as [|event rest IH]; intros count db F.
  - exists count, db. reflexivity.
  - inversion F as [|? ? W Frest]; subst.
    cbn [create_next_year_loop].
    destruct (get_safe_date_total _ target_year _ _ W R) as (nd & C & _).
    rewrite C, bind_lift_inr. unfold check_duplicate. rewrite bind_query.
    destruct (duplicate_in (events db) (ev_pet event) (ev_title event) nd None);
      cbn [negb].
    + apply IH, Frest.
    + unfold bind at 1, ORM.create, ORM.save. cbn [ev_id with_id].
      apply IH, Frest.
Qed.

End Rollover.

Lemma yearly_events_of_year_app rows added y :
  Forall (fun r => PyDate.year (ev_date r) <> y) added ->
  yearly_events_of_year (rows ++ added) y = yearly_events_of_year rows y.
Proof.
  intros F. unfold yearly_events_of_year. rewrite filter_app.
  replace (filter _ added) with (@nil Event); [apply app_nil_r|].
  symmetry. induction F as [|r l Hr _ IH]; [reflexivity|].
  rewrite filter_cons_eq. apply Z.eqb_neq in Hr. rewrite Hr, andb_false_r. exact IH.
Qed.

(** C6: a run of [create_next_year_events] that follows a completed run with
    the same current year creates nothing and leaves the tables as they are:
    every candidate of the second run is rejected by [check_duplicate].  And
    the first run does complete when the dates stored are valid dates and
    the target year is in the supported range. *)
Theorem create_next_year_events_idempotent (current_year : Z) (db : DB) :
  (forall n db1,
     create_next_year_events current_year db = (inr n, db1) ->
     create_next_year_events current_year db1 = (inr 0, db1))
  /\ (PyDate.year_in_range (current_year + 2) = true ->
      Forall (fun r => PyDate.wf (ev_date r)) (events db) ->
      exists n db1, create_next_year_events current_year db = (inr n, db1)).
Proof.
  unfold create_next_year_events. split.
  - intros n db1 H. rewrite bind_query in H |- *.
    destruct (create_next_year_loop_run _ _ _ _ _ _ H) as (added & Ev & _ & Fy & Hok).
    destruct (Hok n eq_refl) as [Fc _].
    rewrite Ev, yearly_events_of_year_app.
    + apply create_next_year_loop_covered. exact Fc.
    + eapply Forall_impl; [|exact Fy]. intros r Hr. cbv beta in *. lia.
  - intros R W. rewrite bind_query.
    replace (current_year + 1 + 1) with (current_year + 2) by lia.
    apply create_next_year_loop_total; [exact R|].
    apply Forall_forall. intros r Ir. unfold yearly_events_of_year in Ir.
    apply filter_In in Ir as [Ir _]. revert r Ir. apply Forall_forall. exact W.
Qed.

Lemma create_next_year_events_idempotent_witness :
  exists db1,
    create_next_year_events 2026 Scenario.db_rollover = (inr 1, db1)
    /\ map ev_date (events db1)
       = [Date 2025 3 15; Date 2026 3 15; Date 2027 3 15; Date 2028 3 15]
    /\ create_next_year_events 2026 db1 = (inr 0, db1).
Proof.
  eexists. split; [lazy; reflexivity|]. split; [reflexivity|].
  apply (proj1 (create_next_year_events_idempotent 2026 Scenario.db_rollover) 1).
  lazy. reflexivity.
Defined.

(** ** [delete_event] *)

(** C4 (amended): for a head that is flagged yearly and has at least one
    continuation, [delete_event] without [delete_all] answers with the
    protection message and removes nothing. *)
Theorem delete_event_protects_head (policy : ORM.on_delete) (req : delete_request)
    (event_id : Z) (event : Event) (db : DB) :
  ORM.get_object_or_404 event_id db = (inr event, db) ->
  user_is_owner req = true -> method_post req = true -> delete_all req = false ->
  ev_is_yearly event = true ->
  ev_original_event event = None ->
  (exists c, In c (events db) /\ ev_original_event c = Some event_id) ->
  exists msg,
    delete_event policy req event_id db
    = (inr (RedirectToCalendar (ev_pet event) (ev_date event), Some msg), db).
Proof.
  intros G O P A Y H (c & Ic & Hc).
  assert (Eid : ev_id event = Some event_id).
  { unfold ORM.get_object_or_404 in G.
    destruct (find _ (events db)) as [r|] eqn:F; [|discriminate].
    inversion G; subst r. apply find_some in F as [_ F].
    apply opt_Z_eqb_eq in F. exact F. }
  assert (S : is_series_original (events db) event = true).
  { unfold is_series_original, ORM.recurring_events. rewrite Y, H, Eid. simpl.
    destruct (filter _ (events db)) as [|x l] eqn:F; [|reflexivity].
    exfalso.
    assert (I : In c (filter (fun r => opt_Z_eqb (ev_original_event r) (Some event_id))
                             (events db))).
    { apply filter_In. split; [exact Ic|]. rewrite Hc. apply opt_Z_eqb_refl. }
    rewrite F in I. contradiction. }
  unfold delete_event, bind. rewrite G, O, P. cbn [negb].
  unfold query. rewrite S, A. cbn [negb andb]. unfold ret.
  eexists. reflexivity.
Qed.

Lemma delete_event_protects_head_witness :
  exists msg,
    delete_event ORM.CASCADE (Scenario.owner_post false) 1 Scenario.db_vet
    = (inr (RedirectToCalendar Scenario.pet (Date 2026 3 15), Some msg),
       Scenario.db_vet).
Proof.
  apply (delete_event_protects_head ORM.CASCADE (Scenario.owner_post false) 1
           Scenario.vet_head Scenario.db_vet); try reflexivity.
  exists (Scenario.row 2 "Vet" (Date 2027 3 15) true (Some 1)).
  split; [right; left; reflexivity|reflexivity].
Defined.

(** C4 as stated fails for a head that is not flagged yearly.  Editing the
    head alone with a form that clears the flag leaves it with its two
    continuations; deleting it without [delete_all] then goes through with
    no message, under either rule for the references: the head row is gone,
    and its continuations are deleted with it or left without head. *)
Lemma delete_event_unflagged_head :
  update_events [Scenario.vet_head] Scenario.single_form true Scenario.db_vet
  = (inr [Scenario.row 1 "Vet" (Date 2026 3 15) false None], Scenario.db_vet_unflagged)
  /\ ORM.recurring_events (events Scenario.db_vet_unflagged)
                          (Scenario.row 1 "Vet" (Date 2026 3 15) false None)
     = [ Scenario.row 2 "Vet" (Date 2027 3 15) true (Some 1);
         Scenario.row 3 "Vet" (Date 2028 3 15) true (Some 1) ]
  /\ delete_event ORM.CASCADE (Scenario.owner_post false) 1 Scenario.db_vet_unflagged
     = (inr (RedirectToCalendar Scenario.pet (Date 2026 3 15), None),
        {| events := []; reminders := []; next_id := 4 |})
  /\ delete_event ORM.SET_NULL (Scenario.owner_post false) 1 Scenario.db_vet_unflagged
     = (inr (RedirectToCalendar Scenario.pet (Date 2026 3 15), None),
        {| events := [ Scenario.row 2 "Vet" (Date 2027 3 15) true None;
                       Scenario.row 3 "Vet" (Date 2028 3 15) true None ];
           reminders := []; next_id := 4 |}).
Proof.
  repeat split.
Qed.

(** C5, evaluated where it fails: two yearly series of one pet share the
    title "Vet" (both created through [add_event]).  The series resolved
    from entry 1 is rows 1 to 3, yet deleting entry 1 with [delete_all]
    also removes rows 4 to 6 of the other series, under either rule for the
    references. *)
Theorem delete_all_removes_other_series :
  add_event Scenario.owner_add 2026 Scenario.pet Scenario.vet_form Scenario.no_reminder
            Scenario.empty_db
  = (RedirectToCalendar Scenario.pet (Date 2026 3 15), Scenario.db_vet)
  /\ add_event Scenario.owner_add 2026 Scenario.pet Scenario.vet_september_form
               Scenario.no_reminder Scenario.db_vet
     = (RedirectToCalendar Scenario.pet (Date 2026 9 1), Scenario.db_two_series)
  /\ get_series_events Scenario.vet_head Scenario.db_two_series
     = (inr Scenario.vet_series, Scenario.db_two_series)
  /\ delete_event ORM.CASCADE (Scenario.owner_post true) 1 Scenario.db_two_series
     = (inr (RedirectToCalendar Scenario.pet (Date 2026 3 15), None),
        {| events := []; reminders := []; next_id := 7 |})
  /\ delete_event ORM.SET_NULL (Scenario.owner_post true) 1 Scenario.db_two_series
     = (inr (RedirectToCalendar Scenario.pet (Date 2026 3 15), None),
        {| events := []; reminders := []; next_id := 7 |}).
Proof.
  repeat split.
Qed.

(** ** Leap days outside [get_safe_date] *)

(** C2, evaluated where it fails.  [save_reminder] rebases a reminder date
    of 29 February 2028 onto an entry of 2027 with a plain [date(...)] and
    raises [ValueError]; so does [update_events] for a form dated 29
    February on an entry of a non-leap year; and through [add_event] the
    caller gets the general error page and no series at all, for a yearly
    entry on 1 March 2028 with a reminder on the day before.  The same
    month and day go through [get_safe_date] without error. *)
Theorem leap_day_mismatch_raises :
  fst (save_reminder (Scenario.row 2 "Vet" (Date 2027 3 15) true (Some 1))
                     Scenario.leap_reminder true Scenario.db_vet)
  = inl ValueError
  /\ fst (update_events Scenario.vet_series Scenario.leap_form true Scenario.db_vet)
     = inl ValueError
  /\ add_event Scenario.owner_add 2027 Scenario.pet Scenario.march_form
               Scenario.leap_reminder Scenario.empty_db
     = (Render (Some "Произошла ошибка при добавлении события."), Scenario.empty_db)
  /\ get_safe_date 2027 2 29 = inr (Date 2027 2 28).
Proof.
  repeat split.
Qed.

(** Series creation, which goes through [get_safe_date], never fails on a
    leap-day mismatch for years of the range. *)
Lemma create_yearly_series_never_raises pet form_data fd years db :
  date_ form_data = Some fd -> PyDate.wf fd ->
  Forall (fun y => PyDate.year_in_range y = true) years -> NoDup years ->
  exists r db', create_yearly_series pet form_data years db = (inr r, db').
Proof.
  intros Hd W R N. rewrite (create_yearly_series_spec pet form_data fd Hd W years db R N).
  destruct (filter _ years); eexists; eexists; reflexivity.
Qed.

Lemma mem_id_In ids i : ORM.mem_id ids (Some i) = true <-> In i ids.
Proof.
  unfold ORM.mem_id. rewrite existsb_exists. split.
  - intros (x & I & E). apply Z.eqb_eq in E. subst x. exact I.
  - intros I. exists i. split; [exact I|apply Z.eqb_refl].
Qed.

Lemma ids_of_In rows r i : In r rows -> ev_id r = Some i -> In i (ORM.ids_of rows).
Proof.
  intros I E. unfold ORM.ids_of. apply in_flat_map. exists r.
  split; [exact I|]. rewrite E. left. reflexivity.
Qed.

Lemma cascade_incl fuel rows :
  forall doomed i, In i doomed -> In i (ORM.cascade fuel rows doomed).
Proof.
  induction fuel as [|n IH]; intros doomed i I; simpl; [exact I|].
  destruct (ORM.ids_of _) as [|x more]; [exact I|].
  apply IH. apply in_or_app. left. exact I.
Qed.

Lemma delete_where_removes policy sel db r i :
  In r (events db) -> ev_id r = Some i -> sel r = true ->
  forall r', In r' (events (snd (ORM.delete_where policy sel db))) -> ev_id r' <> Some i.
Proof.
  intros I E S r' I' E'.
  assert (P : In i (ORM.ids_of (filter sel (events db)))).
  { apply (ids_of_In _ r); [|exact E]. apply filter_In. auto. }
  unfold ORM.delete_where in I'. cbn [snd events] in I'.
  destruct policy.
  - apply filter_In in I' as [_ K]. rewrite E' in K.
    apply negb_true_iff in K.
    assert (T : ORM.mem_id (ORM.cascade (List.length (events db)) (events db)
                              (ORM.ids_of (filter sel (events db)))) (Some i) = true)
      by (apply mem_id_In, cascade_incl, P).
    congruence.
  - apply in_map_iff in I' as (r0 & Hr0 & K). apply filter_In in K as [_ K].
    assert (Eid : ev_id r' = ev_id r0).
    { subst r'. destruct (ORM.mem_id _ (ev_original_event r0)); reflexivity. }
    rewrite <- Eid, E' in K. apply negb_true_iff in K.
    assert (T : ORM.mem_id (ORM.ids_of (filter sel (events db))) (Some i) = true)
      by (apply mem_id_In, P).
    congruence.
Qed.

(** In general: with [delete_all], every yearly row of the pet that carries
    the title of the entry is removed, whatever head it references. *)
Lemma delete_all_by_title policy req event_id event db r i :
  ORM.get_object_or_404 event_id db = (inr event, db) ->
  user_is_owner req = true -> method_post req = true -> delete_all req = true ->
  ev_is_yearly event = true ->
  In r (events db) -> ev_id r = Some i ->
  ev_pet r = ev_pet event -> ev_title r = ev_title event -> ev_is_yearly r = true ->
  forall r', In r' (events (snd (delete_event policy req event_id db))) ->
             ev_id r' <> Some i.
Proof.
  intros G O P A Y I E Hp Ht Hy.
  unfold delete_event, bind. rewrite G, O, P. cbn [negb].
  unfold query. rewrite A, Y. cbn [negb andb]. rewrite andb_false_r.
  unfold atomic.
  assert (D : forall sel, ORM.delete_where policy sel db
                          = (inr tt, snd (ORM.delete_where policy sel db)))
    by (intros sel; reflexivity).
  rewrite D. cbn [snd].
  apply (delete_where_removes policy _ db r i I E).
  rewrite Hp, Ht, Hy, Z.eqb_refl, String.eqb_refl. reflexivity.
Qed.

(** In general: rebasing a reminder dated 29 February onto an entry of a
    year without that day raises, where [get_safe_date] would answer with
    28 February. *)
Lemma save_reminder_leap_raises event rd d db :
  is_some (remind_at rd) = true -> repeat rd = false ->
  remind_date rd = Some d -> PyDate.month d = 2 -> PyDate.day d = 29 ->
  PyDate.year_in_range (PyDate.year (ev_date event)) = true ->
  PyDate.is_leap (PyDate.year (ev_date event)) = false ->
  fst (save_reminder event rd true db) = inl ValueError
  /\ get_safe_date (PyDate.year (ev_date event)) (PyDate.month d) (PyDate.day d)
     = inr (Date (PyDate.year (ev_date event)) 2 28).
Proof.
  intros A R Hd Hm Hday Hr Hl. split.
  - rewrite (save_reminder_fails event rd true db ValueError A); [reflexivity|].
    unfold reminder_date. rewrite Hd, R, Hm, Hday. cbn [negb].
    rewrite PyDateFacts.new_invalid; [reflexivity|].
    rewrite PyDateFacts.valid_feb29, Hr, Hl. reflexivity.
  - rewrite Hm, Hday. unfold get_safe_date.
    rewrite PyDateFacts.new_invalid
      by (rewrite PyDateFacts.valid_feb29, Hr, Hl; reflexivity).
    simpl. apply PyDateFacts.new_valid, PyDateFacts.valid_feb28, Hr.
Qed.

(** * Further properties of the views *)

(** ** [update_events]: years and uniqueness *)

Lemma update_events_accepted batch form_data update_date db updated db' :
  update_events batch form_data update_date db = (inr updated, db') ->
  Forall (accepted_from db form_data update_date batch) updated
  /\ (db' = db
      \/ db' = set_events db
                 (map (fun r => match ORM.find_by_id updated (ev_id r) with
                                | Some o => ORM.copy_edit_fields r o
                                | None => r
                                end) (events db))).
Proof.
  unfold update_events, bind. intros H.
  destruct (update_events_loop batch form_data update_date [] [] db) as [res db1] eqn:L.
  destruct (update_events_loop_sound _ _ _ _ _ _ _ _ L) as [-> Hout].
  destruct res as [e|out]; [discriminate|].
  destruct (Hout out eq_refl) as (acc & Eacc & F). simpl in Eacc. subst acc.
  rewrite bulk_update_if_any in H. destruct out as [|o out'].
  - inversion H; subst. auto.
  - destruct (ORM.bulk_update (o :: out') db) as [[e|[]] db2] eqn:B; [discriminate|].
    unfold ret in H. inversion H; subst. split; [exact F|].
    right. apply bulk_update_ok, B.
Qed.

Lemma accepted_from_date db form_data fd batch u :
  date_ form_data = Some fd ->
  accepted_from db form_data true batch u ->
  exists ev,
    In ev batch /\ frame u = frame ev
    /\ ev_date u = Date (PyDate.year (ev_date ev)) (PyDate.month fd) (PyDate.day fd)
    /\ PyDate.wf (ev_date u)
    /\ duplicate_in (events db) (ev_pet ev) (title form_data) (ev_date u) (ev_id ev)
       = false.
Proof.
  intros Hd (ev & nd & I & Ed & -> & Dup). exists ev.
  unfold edit_date, form_date in Ed. rewrite Hd in Ed.
  apply PyDateFacts.new_ok in Ed as [-> V].
  repeat split; auto.
Qed.

(** With [update_date] the date of an accepted entry takes month and day
    from the form and keeps the year of the entry, whatever year the form
    carries; so when the batch is made of rows of the table, no row leaves
    its year through an edit. *)
Theorem update_events_keeps_year (batch : list Event) (form_data : EventFormData)
    (fd : date) (db db' : DB) (updated : list Event) :
  date_ form_data = Some fd ->
  (forall ev, In ev batch -> In ev (events db)) ->
  NoDup (map ev_id (events db)) ->
  update_events batch form_data true db = (inr updated, db') ->
  Forall (fun u => exists ev,
            In ev batch /\ ev_id u = ev_id ev
            /\ ev_date u = Date (PyDate.year (ev_date ev)) (PyDate.month fd)
                                (PyDate.day fd))
         updated
  /\ Forall2 (fun r r' => PyDate.year (ev_date r') = PyDate.year (ev_date r))
             (events db) (events db').
Proof.
  intros Hd Rows N H.
  destruct (update_events_accepted _ _ _ _ _ _ H) as [F Hdb]. split.
  - eapply Forall_impl; [|exact F]. intros u Hu.
    destruct (accepted_from_date _ _ _ _ _ Hd Hu) as (ev & I & Fr & Dt & _).
    exists ev. split; [exact I|]. split; [|exact Dt].
    unfold frame in Fr. congruence.
  - destruct Hdb as [->| ->]; [apply Forall2_refl_on; auto|].
    cbn [events set_events]. apply Forall2_map_self. intros r Ir.
    destruct (ORM.find_by_id updated (ev_id r)) as [o|] eqn:Fi; [|reflexivity].
    apply find_by_id_some in Fi as [Io Eo].
    rewrite Forall_forall in F.
    destruct (accepted_from_date _ _ _ _ _ Hd (F o Io)) as (ev & I & Fr & Dt & _).
    assert (ev = r) as ->.
    { apply (NoDup_map_eq ev_id (events db)); auto.
      unfold frame in Fr. congruence. }
    cbn [ORM.copy_edit_fields ev_date]. rewrite Dt. reflexivity.
Qed.

Lemma update_events_keeps_year_witness :
  exists updated db',
    update_events Scenario.vet_series Scenario.checkup_form true Scenario.db_vet
    = (inr updated, db')
    /\ Forall2 (fun r r' => PyDate.year (ev_date r') = PyDate.year (ev_date r))
               (events Scenario.db_vet) (events db').
Proof.
  eexists. eexists. split; [reflexivity|].
  refine (proj2 (update_events_keeps_year Scenario.vet_series Scenario.checkup_form
                   (Date 2026 4 20) Scenario.db_vet _ _ eq_refl _ _ eq_refl)).
  - intros ev I. exact I.
  - simpl. nodup_concrete.
Defined.

Lemma NoDup_snoc {A} (l : list A) (a : A) :
  NoDup l -> ~ In a l -> NoDup (l ++ [a]).
Proof.
  induction l as [|x l IH]; intros N Na; simpl.
  - constructor; [intros []|constructor].
  - inversion N as [|? ? Hx Nl]; subst. constructor.
    + intros I. apply in_app_or in I as [I|[I|[]]]; [contradiction|].
      apply Na. left. symmetry. exact I.
    + apply IH; [exact Nl|]. intros I. apply Na. right. exact I.
Qed.

Lemma NoDup_map_inj_in {A B} (f : A -> B) (l : list A) :
  (forall x y, In x l -> In y l -> f x = f y -> x = y) ->
  NoDup l -> NoDup (map f l).
Proof.
  induction l as [|a l IH]; intros Inj N; simpl; [constructor|].
  inversion N as [|? ? Ha Nl]; subst. constructor.
  - intros I. apply in_map_iff in I as (x & E & Ix).
    assert (x = a) by (apply Inj; [right; exact Ix|left; reflexivity|exact E]).
    subst x. contradiction.
  - apply IH; [|exact Nl]. intros x y Ix Iy. apply Inj; right; assumption.
Qed.

Lemma NoDup_of_map {A B} (f : A -> B) (l : list A) : NoDup (map f l) -> NoDup l.
Proof.
  induction l as [|a l IH]; intros N; [constructor|].
  simpl in N. inversion N as [|? ? Ha Nl]; subst. constructor; [|apply IH, Nl].
  intros I. apply Ha. apply in_map, I.
Qed.

(** The accepted objects of one call have pairwise different dates: this is
    what [used_pairs] is for. *)
Lemma update_events_loop_distinct form_data update_date batch :
  forall used updated db out db',
    update_events_loop batch form_data update_date used updated db = (inr out, db') ->
    (forall u, In u updated ->
       pair_in (title form_data, ev_date u) used = true) ->
    NoDup (map ev_date updated) ->
    NoDup (map ev_date out).
Proof.
  induction batch as [|ev rest IH]; intros used updated db out db' H Hu N.
  - inversion H; subst. exact N.
  - cbn [update_events_loop] in H.
    destruct (edit_date ev form_data update_date) as [e|nd] eqn:Ed.
    + rewrite bind_lift_inl in H. discriminate.
    + rewrite bind_lift_inr in H. cbv zeta in H.
      destruct (pair_in (title form_data, nd) used) eqn:P.
      * apply (IH _ _ _ _ _ H Hu N).
      * unfold check_duplicate in H. rewrite bind_query in H.
        destruct (duplicate_in (events db) (ev_pet ev) (title form_data) nd (ev_id ev)).
        -- apply (IH _ _ _ _ _ H Hu N).
        -- apply (IH _ _ _ _ _ H).
           ++ intros u I. apply in_app_or in I as [I|[<-|[]]].
              ** cbn [pair_in existsb]. fold (pair_in (title form_data, ev_date u) used).
                 rewrite (Hu u I). apply orb_true_r.
              ** cbn [pair_in existsb fst snd apply_form ev_date].
                 rewrite String.eqb_refl, PyDateFacts.eqb_refl. reflexivity.
           ++ rewrite map_app. cbn [map apply_form ev_date].
              apply NoDup_snoc; [exact N|].
              intros I. apply in_map_iff in I as (u & Eu & Iu).
              specialize (Hu u Iu). rewrite Eu in Hu. congruence.
Qed.

Lemma update_events_distinct batch form_data update_date db updated db' :
  update_events batch form_data update_date db = (inr updated, db') ->
  NoDup (map ev_date updated).
Proof.
  unfold update_events, bind. intros H.
  destruct (update_events_loop batch form_data update_date [] [] db) as [res db1] eqn:L.
  destruct res as [e|out]; [discriminate|].
  assert (updated = out) as ->.
  { rewrite bulk_update_if_any in H. destruct out as [|o out'].
    - inversion H. reflexivity.
    - destruct (ORM.bulk_update (o :: out') db1) as [[e|[]] db2]; [discriminate|].
      inversion H. reflexivity. }
  apply (update_events_loop_distinct _ _ _ _ _ _ _ _ L).
  - intros u [].
  - constructor.
Qed.

Lemma keys_ok_truthy db r : keys_ok db -> In r (events db) -> truthy_int (ev_id r) = true.
Proof.
  intros [_ F] I. rewrite Forall_forall in F. destruct (F r I) as (i & -> & Hi).
  simpl. apply negb_true_iff, Z.eqb_neq. lia.
Qed.

Lemma not_duplicate_in rows pet t d ex r :
  duplicate_in rows pet t d ex = false -> truthy_int ex = true ->
  In r rows -> ev_pet r = pet -> ev_title r = t -> ev_date r = d ->
  ev_id r = ex.
Proof.
  intros D T I Hp Ht Hd.
  pose proof (proj1 (duplicate_in_false _ _ _ _ _) D r I) as H.
  rewrite T, Hp, Ht, Hd, Z.eqb_refl, String.eqb_refl, PyDateFacts.eqb_refl in H.
  simpl in H. apply negb_false_iff, opt_Z_eqb_eq in H. exact H.
Qed.

(** [update_events] keeps the table free of duplicates: when the batch is
    made of rows of a table with proper keys in which no two rows of a pet
    share title and date, the table it leaves has the same property (and
    the same keys). *)
Theorem update_events_keeps_pairs_unique (batch : list Event)
    (form_data : EventFormData) (update_date : bool) (db db' : DB)
    (updated : list Event) :
  keys_ok db -> pairs_unique (events db) ->
  (forall ev, In ev batch -> In ev (events db)) ->
  update_events batch form_data update_date db = (inr updated, db') ->
  pairs_unique (events db') /\ keys_ok db'.
Proof.
  intros K U Rows H.
  destruct (update_events_accepted _ _ _ _ _ _ H) as [F Hdb].
  pose proof (update_events_distinct _ _ _ _ _ _ H) as Nd.
  destruct Hdb as [->| ->]; [auto|].
  rewrite Forall_forall in F.
  assert (Acc : forall r o, In r (events db) ->
            ORM.find_by_id updated (ev_id r) = Some o ->
            In o updated /\ ev_id o = ev_id r
            /\ exists nd, o = apply_form r form_data nd
                 /\ duplicate_in (events db) (ev_pet r) (title form_data) nd (ev_id r)
                    = false).
  { intros r o Ir Fi. apply find_by_id_some in Fi as [Io Eo].
    destruct (F o Io) as (ev & nd & I & _ & -> & Dup).
    assert (ev = r) as ->
      by (apply (NoDup_map_eq ev_id (events db)); auto; apply K).
    repeat split; auto. exists nd. auto. }
  split.
  - unfold pairs_unique. cbn [events set_events]. rewrite map_map.
    apply NoDup_map_inj_in; [|apply (NoDup_of_map ev_id), K].
    intros r1 r2 I1 I2 E.
    destruct (ORM.find_by_id updated (ev_id r1)) as [o1|] eqn:F1;
      destruct (ORM.find_by_id updated (ev_id r2)) as [o2|] eqn:F2.
    + destruct (Acc _ _ I1 F1) as (Io1 & E1 & nd1 & -> & _).
      destruct (Acc _ _ I2 F2) as (Io2 & E2 & nd2 & -> & _).
      apply (NoDup_map_eq ev_id (events db)); auto; [apply K|].
      rewrite <- E1, <- E2. f_equal.
      unfold event_key in E. cbn in E.
      assert (Hd : nd1 = nd2) by congruence.
      apply (NoDup_map_eq ev_date updated); auto.
    + destruct (Acc _ _ I1 F1) as (_ & _ & nd1 & -> & Dup).
      unfold event_key in E. cbn in E. inversion E as [[Hp Ht Hd]].
      apply (NoDup_map_eq ev_id (events db)); auto; [apply K|].
      symmetry. apply (not_duplicate_in _ _ _ _ _ r2 Dup); auto.
      apply (keys_ok_truthy db); auto.
    + destruct (Acc _ _ I2 F2) as (_ & _ & nd2 & -> & Dup).
      unfold event_key in E. cbn in E. inversion E as [[Hp Ht Hd]].
      apply (NoDup_map_eq ev_id (events db)); auto; [apply K|].
      apply (not_duplicate_in _ _ _ _ _ r1 Dup); auto.
      apply (keys_ok_truthy db); auto.
    + apply (NoDup_map_eq event_key (events db)); auto.
  - destruct K as [Kn Kf]. split; cbn [events set_events next_id].
    + rewrite map_map.
      replace (map _ (events db)) with (map ev_id (events db)); [exact Kn|].
      apply map_ext. intros r. destruct (ORM.find_by_id updated (ev_id r)); reflexivity.
    + apply Forall_forall. intros r' I'. apply in_map_iff in I' as (r & <- & Ir).
      rewrite Forall_forall in Kf. destruct (Kf r Ir) as (i & Ei & Hi).
      exists i. split; [|exact Hi].
      destruct (ORM.find_by_id updated (ev_id r)); exact Ei.
Qed.

Ltac keys_concrete :=
  split; [simpl; nodup_concrete
         |repeat (apply Forall_cons; [eexists; split; [reflexivity|simpl; lia]|]);
          apply Forall_nil].

Lemma update_events_keeps_pairs_unique_witness :
  exists updated db',
    update_events Scenario.vet_series Scenario.checkup_form false
                  Scenario.db_vet_checkup = (inr updated, db')
    /\ pairs_unique (events db').
Proof.
  eexists. eexists. split; [reflexivity|].
  refine (proj1 (update_events_keeps_pairs_unique Scenario.vet_series
                   Scenario.checkup_form false Scenario.db_vet_checkup _ _ _ _ _ eq_refl)).
  - keys_concrete.
  - unfold pairs_unique. cbv. nodup_concrete.
  - intros ev I. apply in_or_app. left. exact I.
Defined.

(** ** [save_reminder]: the stored date *)

(** Without repeat the stored date is the date of the form, moved into the
    year of the entry when [adjust_date_to_event_year] is set (and then a
    valid date of that year). *)
Theorem save_reminder_rebases (event : Event) (rd : ReminderFormData)
    (adjust : bool) (d : date) (db db' : DB) (s : ReminderSettings) :
  remind_date rd = Some d -> repeat rd = false ->
  save_reminder event rd adjust db = (inr (Some s), db') ->
  rs_remind_date s
  = Some (if adjust
          then Date (PyDate.year (ev_date event)) (PyDate.month d) (PyDate.day d)
          else d)
  /\ (adjust = true ->
      PyDate.valid (PyDate.year (ev_date event)) (PyDate.month d) (PyDate.day d) = true)
  /\ rs_event s = ev_id event /\ events db' = events db.
Proof.
  intros Hd R H.
  destruct (is_some (remind_at rd)) eqn:A;
    [|rewrite (save_reminder_noop _ _ _ _ A) in H; discriminate].
  destruct (reminder_date event rd adjust) as [e|o] eqn:Rd;
    [rewrite (save_reminder_fails _ _ _ _ _ A Rd) in H; discriminate|].
  destruct (ev_id event) as [i|] eqn:Ei;
    [|rewrite (save_reminder_unsaved event rd adjust db A Ei) in H; discriminate].
  rewrite <- Ei.
  destruct (save_reminder_stores event rd adjust db o A Rd)
    as (s1 & db1 & E & Hdate & _ & _ & L & Ev & _); [rewrite Ei; reflexivity|].
  rewrite E in H. inversion H; subst s1 db1.
  assert (Key : rs_event s = ev_id event).
  { unfold Reminders.lookup in L. apply find_some in L as [_ L].
    apply opt_Z_eqb_eq in L. exact L. }
  unfold reminder_date in Rd. rewrite Hd, R in Rd. cbn [negb] in Rd.
  destruct adjust.
  - destruct (PyDate.new _ _ _) as [e|x] eqn:Nw; [discriminate|].
    apply PyDateFacts.new_ok in Nw as [-> V]. inversion Rd; subst o.
    repeat split; auto.
  - inversion Rd; subst o. repeat split; auto. discriminate.
Qed.

Lemma save_reminder_rebases_witness :
  exists s db',
    save_reminder Scenario.vet_2027 Scenario.march_reminder true Scenario.db_vet
    = (inr (Some s), db')
    /\ rs_remind_date s = Some (Date 2027 3 14).
Proof.
  eexists. eexists. split; [lazy; reflexivity|].
  exact (proj1 (save_reminder_rebases Scenario.vet_2027 Scenario.march_reminder true
                  (Date 2026 3 14) Scenario.db_vet _ _ eq_refl eq_refl eq_refl)).
Defined.

(** ** [save_reminders_for_events] *)

Lemma save_reminder_keeps_events event rd adjust db :
  events (snd (save_reminder event rd adjust db)) = events db.
Proof.
  destruct (is_some (remind_at rd)) eqn:A;
    [|rewrite (save_reminder_noop _ _ _ _ A); reflexivity].
  destruct (reminder_date event rd adjust) as [e|o] eqn:Rd.
  - rewrite (save_reminder_fails _ _ _ _ _ A Rd). cbn [snd].
    exact (proj1 (get_or_create_frame event db)).
  - destruct (ev_id event) as [i|] eqn:Ei;
      [|rewrite (save_reminder_unsaved event rd adjust db A Ei); reflexivity].
    destruct (save_reminder_stores event rd adjust db o A Rd)
      as (s1 & db1 & E & _ & _ & _ & _ & Ev & _); [rewrite Ei; reflexivity|].
    rewrite E. exact Ev.
Qed.

Lemma save_reminder_preserves_exclusive event rd adjust db :
  (forall x, In x (reminders db) -> reminder_exclusive x) ->
  forall x, In x (reminders (snd (save_reminder event rd adjust db))) ->
            reminder_exclusive x.
Proof.
  intros Inv x Hx.
  destruct (is_some (remind_at rd)) eqn:A.
  - destruct (reminder_date event rd adjust) as [e|o] eqn:Hd.
    + rewrite (save_reminder_fails _ _ _ _ _ A Hd) in Hx. simpl in Hx.
      destruct (get_or_create_frame event db) as (_ & Mem).
      apply Mem in Hx as [Hx| ->]; [apply Inv, Hx|apply fresh_exclusive].
    + destruct (ev_id event) as [i|] eqn:Ei;
        [|rewrite (save_reminder_unsaved event rd adjust db A Ei) in Hx;
          apply Inv, Hx].
      destruct (save_reminder_stores event rd adjust db o A Hd)
        as (s1 & db1 & E & Hdate & Hrep & _ & _ & _ & Mem);
        [rewrite Ei; reflexivity|].
      rewrite E in Hx. simpl in Hx.
      apply Mem in Hx as [Hx| ->]; [apply Inv, Hx|].
      intros N. rewrite Hrep. rewrite Hdate in N.
      apply (reminder_date_exclusive _ _ _ _ Hd N).
  - rewrite (save_reminder_noop _ _ _ _ A) in Hx. apply Inv, Hx.
Qed.

Lemma find_map_same {A} (f : A -> bool) (g : A -> A) (l : list A) :
  (forall x, f (g x) = f x) -> find f (map g l) = option_map g (find f l).
Proof.
  intros H. induction l as [|a l IH]; simpl; [reflexivity|].
  rewrite H. destruct (f a); [reflexivity|exact IH].
Qed.

Lemma find_app_some {A} (f : A -> bool) (l l' : list A) (a : A) :
  find f l = Some a -> find f (l ++ l') = Some a.
Proof.
  induction l as [|x l IH]; simpl; [discriminate|].
  destruct (f x); auto.
Qed.

(** A later [save_reminder] does not lose the configuration of an entry
    saved before: the entry still has one, the old one or the new one. *)
Lemma save_reminder_lookup_kept event rd adjust db s db' ev s0 :
  save_reminder event rd adjust db = (inr (Some s), db') ->
  Reminders.lookup (reminders db) ev = Some s0 ->
  Reminders.lookup (reminders db') ev = Some s0
  \/ Reminders.lookup (reminders db') ev = Some s.
Proof.
  unfold save_reminder. destruct (negb (is_some (remind_at rd))); [discriminate|].
  unfold bind, Reminders.get_or_create, Reminders.save, lift, ret.
  intros H L0.
  assert (Step : forall rs k s1,
            rs_event s1 = k ->
            Reminders.lookup rs ev = Some s0 ->
            Reminders.lookup
              (map (fun r => if opt_Z_eqb (rs_event r) k then s1 else r) rs)
              ev = Some s0
            \/ Reminders.lookup
                 (map (fun r => if opt_Z_eqb (rs_event r) k then s1 else r) rs)
                 ev = Some s1).
  { intros rs k s1 <- L. unfold Reminders.lookup in *. rewrite find_map_same.
    - rewrite L. simpl. destruct (opt_Z_eqb (rs_event s0) (rs_event s1)); auto.
    - intros x. destruct (opt_Z_eqb (rs_event x) (rs_event s1)) eqn:E; [|reflexivity].
      apply opt_Z_eqb_eq in E. rewrite E. reflexivity. }
  destruct (ev_id event) as [i|]; [|discriminate].
  destruct (Reminders.lookup (reminders db) event) as [r0|] eqn:L.
  - destruct (reminder_date event rd adjust) as [e|o]; [discriminate|].
    injection H as <- <-. cbn [reminders set_reminders].
    apply Step; [reflexivity|exact L0].
  - cbn [reminders set_reminders] in H.
    destruct (reminder_date event rd adjust) as [e|o]; [discriminate|].
    injection H as <- <-. cbn [reminders set_reminders].
    apply Step; [reflexivity|].
    unfold Reminders.lookup. apply find_app_some. exact L0.
Qed.

Lemma save_reminders_preserve (Q : DB -> Prop) rd :
  (forall ev db, Q db -> Q (snd (save_reminder ev rd true db))) ->
  forall batch db, Q db -> Q (snd (save_reminders_for_events batch rd db)).
Proof.
  intros H. induction batch as [|ev rest IH]; intros db HQ; [exact HQ|].
  cbn [save_reminders_for_events]. unfold bind.
  pose proof (H ev db HQ) as H1.
  destruct (save_reminder ev rd true db) as [[e|r] db1]; cbn [snd] in *; [exact H1|].
  pose proof (IH db1 H1) as H2.
  destruct (save_reminders_for_events rest rd db1) as [[e|rs] db2]; exact H2.
Qed.

Lemma reminder_date_none event rd adjust :
  repeat rd = true \/ remind_date rd = None ->
  reminder_date event rd adjust = inr None.
Proof.
  intros [R|R]; [apply reminder_date_repeat, R|].
  unfold reminder_date. rewrite R. reflexivity.
Qed.

Lemma save_reminders_lookup_kept rd ev :
  is_some (remind_at rd) = true -> repeat rd = true \/ remind_date rd = None ->
  forall batch db rs db',
    save_reminders_for_events batch rd db = (inr rs, db') ->
    (exists s, Reminders.lookup (reminders db) ev = Some s
               /\ reminder_without_date rd s) ->
    exists s, Reminders.lookup (reminders db') ev = Some s
              /\ reminder_without_date rd s.
Proof.
  intros A R. induction batch as [|e rest IH]; intros db rs db' H (s0 & L0 & P0).
  - inversion H; subst. eauto.
  - cbn [save_reminders_for_events] in H. unfold bind in H.
    destruct (ev_id e) as [i|] eqn:Ei;
      [|rewrite (save_reminder_unsaved e rd true db A Ei) in H; discriminate].
    destruct (save_reminder_stores e rd true db None A (reminder_date_none e rd true R))
      as (s1 & db1 & E & Hd & Hr & Ha & _); [rewrite Ei; reflexivity|].
    rewrite E in H.
    destruct (save_reminders_for_events rest rd db1) as [[x|rs1] db2] eqn:E2;
      [discriminate|].
    unfold ret in H. inversion H; subst db2.
    apply (IH _ _ _ E2).
    destruct (save_reminder_lookup_kept _ _ _ _ _ _ ev s0 E L0) as [L|L];
      [exists s0; auto|].
    exists s1. split; [exact L|]. repeat split; assumption.
Qed.

(** [save_reminders_for_events] never touches the events and keeps the
    exclusion of repeat and absolute date on the whole table, whatever its
    outcome; without a time of day it does nothing; with one, with a form
    that repeats or has no date, and on saved entries it cannot fail: it
    returns one configuration per entry and afterwards every entry has a
    stored configuration with the time and repeat flag of the form and no
    date; with a time of day and an entry that was never saved at the head
    of the batch it raises [ValueError] and writes nothing. *)
Theorem save_reminders_for_events_spec (batch : list Event)
    (rd : ReminderFormData) (db : DB) :
  events (snd (save_reminders_for_events batch rd db)) = events db
  /\ ((forall x, In x (reminders db) -> reminder_exclusive x) ->
      forall x, In x (reminders (snd (save_reminders_for_events batch rd db))) ->
                reminder_exclusive x)
  /\ (is_some (remind_at rd) = false ->
      save_reminders_for_events batch rd db = (inr [], db))
  /\ (is_some (remind_at rd) = true -> repeat rd = true \/ remind_date rd = None ->
      Forall (fun ev => is_some (ev_id ev) = true) batch ->
      exists rs db',
        save_reminders_for_events batch rd db = (inr rs, db')
        /\ List.length rs = List.length batch
        /\ forall ev, In ev batch ->
             exists s, Reminders.lookup (reminders db') ev = Some s
                       /\ reminder_without_date rd s)
  /\ (is_some (remind_at rd) = true ->
      forall ev rest, batch = ev :: rest -> ev_id ev = None ->
        save_reminders_for_events batch rd db = (inl ValueError, db)).
Proof.
  split; [|split; [|split; [|split]]].
  - apply (save_reminders_preserve (fun d => events d = events db)); [|reflexivity].
    intros ev d H. rewrite save_reminder_keeps_events. exact H.
  - intros Inv.
    apply (save_reminders_preserve
             (fun d => forall x, In x (reminders d) -> reminder_exclusive x));
      [|exact Inv].
    intros ev d H. apply save_reminder_preserves_exclusive, H.
  - intros A. induction batch as [|ev rest IH]; [reflexivity|].
    cbn [save_reminders_for_events]. unfold bind.
    rewrite (save_reminder_noop _ _ _ _ A), IH. reflexivity.
  - intros A R Saved. revert db.
    induction batch as [|ev rest IH]; intros db.
    + exists [], db. repeat split. intros ev [].
    + inversion Saved as [|? ? Sev Srest]; subst.
      cbn [save_reminders_for_events]. unfold bind.
      destruct (save_reminder_stores ev rd true db None A
                  (reminder_date_none ev rd true R) Sev)
        as (s1 & db1 & E & Hd & Hr & Ha & L & _).
      rewrite E. destruct (IH Srest db1) as (rs & db' & E2 & Len & All).
      rewrite E2. unfold ret. exists (s1 :: rs), db'.
      split; [reflexivity|]. split; [simpl; rewrite Len; reflexivity|].
      intros e [<-|I]; [|apply All, I].
      apply (save_reminders_lookup_kept rd ev A R rest db1 rs db' E2).
      exists s1. split; [exact L|]. repeat split; assumption.
  - intros A ev rest -> K. cbn [save_reminders_for_events]. unfold bind.
    rewrite (save_reminder_unsaved ev rd true db A K). reflexivity.
Qed.

Lemma save_reminders_for_events_spec_witness :
  exists rs db',
    save_reminders_for_events Scenario.vet_series Scenario.repeat_with_date
                              Scenario.db_vet = (inr rs, db')
    /\ List.length rs = 3%nat
    /\ forall ev, In ev Scenario.vet_series ->
         exists s, Reminders.lookup (reminders db') ev = Some s
                   /\ reminder_without_date Scenario.repeat_with_date s.
Proof.
  apply (proj1 (proj2 (proj2 (proj2 (save_reminders_for_events_spec
                                       Scenario.vet_series Scenario.repeat_with_date
                                       Scenario.db_vet))))
               eq_refl (or_introl eq_refl)).
  repeat constructor.
Defined.

(** ** [get_series_events] *)

Lemma get_object_unique db r i :
  NoDup (map ev_id (events db)) -> In r (events db) -> ev_id r = Some i ->
  ORM.get_object_or_404 i db = (inr r, db).
Proof.
  intros N I E. unfold ORM.get_object_or_404.
  destruct (find _ (events db)) as [x|] eqn:F.
  - apply find_some in F as [Ix Ex]. apply opt_Z_eqb_eq in Ex.
    assert (x = r) as -> by (apply (NoDup_map_eq ev_id (events db)); auto; congruence).
    reflexivity.
  - apply (find_none _ _ F) in I. rewrite E, opt_Z_eqb_refl in I. discriminate.
Qed.

(** In a table with unique keys the series does not depend on the member
    it is resolved from: a continuation gives the list its head gives, the
    head first and then the rows that reference it, the continuation among
    them. *)
Theorem get_series_events_from_member (db : DB) (h c : Event) (o : Z) :
  NoDup (map ev_id (events db)) ->
  In h (events db) -> ev_id h = Some o -> ev_original_event h = None ->
  In c (events db) -> ev_original_event c = Some o ->
  get_series_events c db = get_series_events h db
  /\ get_series_events h db
     = (inr (h :: filter (fun r => opt_Z_eqb (ev_original_event r) (Some o)) (events db)),
        db)
  /\ In c (filter (fun r => opt_Z_eqb (ev_original_event r) (Some o)) (events db)).
Proof.
  intros N Ih Eh Hh Ic Ec.
  assert (Hs : get_series_events h db
               = (inr (h :: filter (fun r => opt_Z_eqb (ev_original_event r) (Some o))
                                   (events db)), db)).
  { unfold get_series_events. rewrite Hh, bind_ret, bind_query.
    unfold ORM.recurring_events. rewrite Eh. reflexivity. }
  split; [|split; [exact Hs|]].
  - rewrite Hs. unfold get_series_events. rewrite Ec.
    unfold bind at 1. rewrite (get_object_unique db h o N Ih Eh).
    rewrite bind_query. unfold ORM.recurring_events. rewrite Eh. reflexivity.
  - apply filter_In. split; [exact Ic|]. rewrite Ec. apply opt_Z_eqb_refl.
Qed.

Lemma get_series_events_from_member_witness :
  get_series_events Scenario.vet_2027 Scenario.db_vet
  = get_series_events Scenario.vet_head Scenario.db_vet.
Proof.
  refine (proj1 (get_series_events_from_member Scenario.db_vet Scenario.vet_head
                   Scenario.vet_2027 1 _ _ eq_refl eq_refl _ eq_refl)).
  - simpl. nodup_concrete.
  - left. reflexivity.
  - right. left. reflexivity.
Defined.

(** ** [delete_event]: a single entry *)

Lemma filter_none {A} (f : A -> bool) (l : list A) :
  (forall x, In x l -> f x = false) -> filter f l = [].
Proof.
  induction l as [|a l IH]; intros H; [reflexivity|].
  rewrite filter_cons_eq, (H a (or_introl eq_refl)). apply IH.
  intros x I. apply H. right. exact I.
Qed.

Lemma cascade_closed fuel rows doomed :
  ORM.ids_of (filter (fun r => ORM.mem_id doomed (ev_original_event r)
                               && negb (ORM.mem_id doomed (ev_id r))) rows) = [] ->
  ORM.cascade fuel rows doomed = doomed.
Proof. intros H. destruct fuel; simpl; [reflexivity|]. rewrite H. reflexivity. Qed.

Lemma mem_id_picked rows (event : Event) event_id x :
  In event rows -> ev_id event = Some event_id ->
  ORM.mem_id (ORM.ids_of (filter (fun r => is_some (ev_id event)
                                           && opt_Z_eqb (ev_id r) (ev_id event)) rows)) x
  = opt_Z_eqb x (Some event_id).
Proof.
  intros I E. destruct x as [x|]; [|reflexivity].
  simpl opt_Z_eqb. destruct (x =? event_id) eqn:X.
  - apply Z.eqb_eq in X. subst x. apply mem_id_In. apply (ids_of_In _ event); auto.
    apply filter_In. split; [exact I|]. rewrite E. simpl. apply Z.eqb_refl.
  - apply not_true_is_false. intros T. apply mem_id_In in T.
    unfold ORM.ids_of in T. apply in_flat_map in T as (r & Ir & Hr).
    apply filter_In in Ir as [_ S]. rewrite E in S. simpl in S.
    destruct (ev_id r) as [i|]; [|contradiction].
    destruct Hr as [<-|[]]. simpl in S. congruence.
Qed.

(** Deleting an entry that no row references (a continuation or a single
    entry, or a head without continuations), not as a whole series, removes
    exactly its row and its reminder: every other row and reminder is left as
    it was, under either rule for the references. *)
Theorem delete_event_single (policy : ORM.on_delete) (req : delete_request)
    (event_id : Z) (event : Event) (db : DB) :
  ORM.get_object_or_404 event_id db = (inr event, db) ->
  user_is_owner req = true -> method_post req = true ->
  delete_all req = false \/ ev_is_yearly event = false ->
  ORM.recurring_events (events db) event = [] ->
  delete_event policy req event_id db
  = (inr (RedirectToCalendar (ev_pet event) (ev_date event), None),
     {| events := filter (fun r => negb (opt_Z_eqb (ev_id r) (Some event_id)))
                         (events db);
        reminders := filter (fun s => negb (opt_Z_eqb (rs_event s) (Some event_id)))
                            (reminders db);
        next_id := next_id db |}).
Proof.
  intros G O P A Rec.
  assert (Eid : ev_id event = Some event_id /\ In event (events db)).
  { unfold ORM.get_object_or_404 in G.
    destruct (find _ (events db)) as [r|] eqn:F; [|discriminate].
    inversion G; subst r. apply find_some in F as [I F].
    apply opt_Z_eqb_eq in F. auto. }
  destruct Eid as [Eid Iev].
  assert (NoRef : forall r, In r (events db) ->
                    opt_Z_eqb (ev_original_event r) (Some event_id) = false).
  { intros r Ir. apply not_true_is_false. intros T.
    unfold ORM.recurring_events in Rec. rewrite Eid in Rec.
    assert (I : In r (filter (fun r => opt_Z_eqb (ev_original_event r) (Some event_id))
                             (events db))) by (apply filter_In; auto).
    rewrite Rec in I. contradiction. }
  unfold delete_event, bind. rewrite G, O, P. cbn [negb].
  unfold query, is_series_original. rewrite Rec.
  rewrite andb_false_r. cbn [andb].
  assert (B : (delete_all req && ev_is_yearly event) = false)
    by (destruct A as [-> | ->]; [reflexivity|apply andb_false_r]).
  rewrite B. unfold atomic, ORM.delete, ORM.delete_where.
  set (picked := ORM.ids_of (filter (fun r => is_some (ev_id event)
                                              && opt_Z_eqb (ev_id r) (ev_id event))
                                    (events db))).
  assert (Mp : forall x, ORM.mem_id picked x = opt_Z_eqb x (Some event_id))
    by (intros x; apply mem_id_picked; assumption).
  assert (Closed : ORM.cascade (List.length (events db)) (events db) picked = picked).
  { apply cascade_closed.
    replace (filter _ (events db)) with (@nil Event); [reflexivity|].
    symmetry. apply filter_none.
    intros r Ir. rewrite Mp, (NoRef r Ir). reflexivity. }
  assert (Kept : forall doomed,
            doomed = picked ->
            filter (fun r => negb (ORM.mem_id doomed (ev_id r))) (events db)
            = filter (fun r => negb (opt_Z_eqb (ev_id r) (Some event_id))) (events db)).
  { intros doomed ->. apply filter_ext. intros r. rewrite Mp. reflexivity. }
  assert (Rem : forall doomed,
            doomed = picked ->
            filter (fun s => negb (ORM.mem_id doomed (rs_event s))) (reminders db)
            = filter (fun s => negb (opt_Z_eqb (rs_event s) (Some event_id)))
                     (reminders db)).
  { intros doomed ->. apply filter_ext. intros s. rewrite Mp. reflexivity. }
  destruct policy.
  - rewrite Closed, (Kept picked eq_refl), (Rem picked eq_refl). reflexivity.
  - rewrite (Kept picked eq_refl), (Rem picked eq_refl).
    replace (map _ (filter _ (events db)))
      with (filter (fun r => negb (opt_Z_eqb (ev_id r) (Some event_id))) (events db));
      [reflexivity|].
    rewrite <- (map_id (filter _ (events db))) at 1. apply map_ext_in.
    intros r Ir. apply filter_In in Ir as [Ir _].
    rewrite Mp, (NoRef r Ir). reflexivity.
Qed.

Lemma delete_event_single_witness :
  delete_event ORM.CASCADE (Scenario.owner_post false) 2 Scenario.db_vet
  = (inr (RedirectToCalendar Scenario.pet (Date 2027 3 15), None),
     {| events := [ Scenario.vet_head;
                    Scenario.row 3 "Vet" (Date 2028 3 15) true (Some 1) ];
        reminders := []; next_id := 4 |}).
Proof.
  exact (delete_event_single ORM.CASCADE (Scenario.owner_post false) 2
           Scenario.vet_2027 Scenario.db_vet eq_refl eq_refl eq_refl
           (or_introl eq_refl) eq_refl).
Defined.

(** ** Insertions keep the table in good order *)

Lemma not_duplicate_key rows r :
  duplicate_in rows (ev_pet r) (ev_title r) (ev_date r) None = false ->
  ~ In (event_key r) (map event_key rows).
Proof.
  intros D I. apply in_map_iff in I as (x & E & Ix).
  pose proof (proj1 (duplicate_in_false _ _ _ _ _) D x Ix) as H.
  unfold event_key in E. inversion E as [[Hp Ht Hd]].
  rewrite Hp, Ht, Hd, Z.eqb_refl, String.eqb_refl, PyDateFacts.eqb_refl in H.
  discriminate.
Qed.

Lemma duplicate_key rows r :
  ~ In (event_key r) (map event_key rows) ->
  duplicate_in rows (ev_pet r) (ev_title r) (ev_date r) None = false.
Proof.
  intros N. apply duplicate_in_false. intros x Ix. cbn [truthy_int].
  rewrite andb_true_r. apply not_true_is_false. intros T.
  apply andb_true_iff in T as [T Td]. apply andb_true_iff in T as [Tp Tt].
  apply Z.eqb_eq in Tp. apply String.eqb_eq in Tt. apply PyDateFacts.eqb_eq in Td.
  apply N. apply in_map_iff. exists x. split; [|exact Ix].
  unfold event_key. congruence.
Qed.

(** One INSERT: a row that is no duplicate and whose reference, if any, is
    a head of the table. *)
Lemma consistent_insert db e :
  consistent db -> 0 < next_id db ->
  duplicate_in (events db) (ev_pet e) (ev_title e) (ev_date e) None = false ->
  (ev_original_event e = None
   \/ exists h, In h (events db) /\ ev_id h = ev_original_event e
                /\ ev_original_event h = None) ->
  consistent {| events := events db ++ [with_id e (Some (next_id db))];
                reminders := reminders db; next_id := next_id db + 1 |}.
Proof.
  intros ((Kn & Kf) & U & L) Pos D Ref. split; [split|split]; cbn [events next_id].
  - rewrite map_app. cbn [map with_id ev_id]. apply NoDup_snoc; [exact Kn|].
    intros I. apply in_map_iff in I as (r & Er & Ir).
    rewrite Forall_forall in Kf. destruct (Kf r Ir) as (i & Ei & Hi).
    rewrite Ei in Er. inversion Er. lia.
  - apply Forall_app. split.
    + eapply Forall_impl; [|exact Kf]. intros r (i & Ei & Hi). exists i. split; [exact Ei|lia].
    + constructor; [|constructor]. exists (next_id db). split; [reflexivity|lia].
  - unfold pairs_unique. rewrite map_app. cbn [map].
    apply NoDup_snoc; [exact U|]. apply (not_duplicate_key _ _ D).
  - intros r o I Hr. apply in_app_or in I as [I|[<-|[]]].
    + destruct (L r o I Hr) as (h & Ih & Eh & Hh). exists h.
      split; [apply in_or_app; left; exact Ih|auto].
    + cbn [with_id ev_original_event] in Hr.
      destruct Ref as [R|(h & Ih & Eh & Hh)]; [congruence|].
      exists h. split; [apply in_or_app; left; exact Ih|]. split; [congruence|exact Hh].
Qed.

Lemma consistent_reminders db rs :
  consistent db -> consistent (set_reminders db rs).
Proof. intros H. exact H. Qed.

Lemma save_reminder_no_adjust event rd db :
  is_some (ev_id event) = true ->
  exists o, save_reminder event rd false db
            = (inr o, snd (save_reminder event rd false db)).
Proof.
  intros Saved. destruct (is_some (remind_at rd)) eqn:A;
    [|rewrite (save_reminder_noop _ _ _ _ A); eexists; reflexivity].
  assert (Rd : exists o, reminder_date event rd false = inr o).
  { unfold reminder_date. destruct (remind_date rd); [|eexists; reflexivity].
    destruct (negb (repeat rd)); eexists; reflexivity. }
  destruct Rd as (o & Rd).
  destruct (save_reminder_stores event rd false db o A Rd Saved) as (s & db1 & E & _).
  rewrite E. eexists. reflexivity.
Qed.

Lemma save_reminder_keeps_next_id event rd adjust db :
  next_id (snd (save_reminder event rd adjust db)) = next_id db.
Proof.
  unfold save_reminder. destruct (negb (is_some (remind_at rd))); [reflexivity|].
  unfold bind, Reminders.get_or_create, Reminders.save, lift, ret.
  destruct (ev_id event); [|reflexivity].
  destruct (Reminders.lookup (reminders db) event);
    destruct (reminder_date event rd adjust); reflexivity.
Qed.

(** ** [_create_single_event_v2] *)

(** For a form with a date the single-entry path never raises.  When the
    (title, date) is taken it answers with a message and writes nothing;
    otherwise it appends exactly one row, not yearly, not done and without
    head, under the next key, and a table in good order stays in good
    order. *)
Theorem create_single_event_v2_spec (pet : Pet) (form_data : EventFormData)
    (rd : ReminderFormData) (fd : date) (db : DB) :
  date_ form_data = Some fd ->
  (duplicate_in (events db) pet (title form_data) fd None = true ->
   exists msg, _create_single_event_v2 pet form_data rd db = (inr (inl msg), db))
  /\ (duplicate_in (events db) pet (title form_data) fd None = false ->
      exists db',
        _create_single_event_v2 pet form_data rd db
        = (inr (inr (single_row pet form_data fd (next_id db))), db')
        /\ events db' = events db ++ [single_row pet form_data fd (next_id db)]
        /\ next_id db' = next_id db + 1
        /\ (consistent db -> 0 < next_id db -> consistent db')).
Proof.
  intros Hd. unfold _create_single_event_v2, form_date. rewrite Hd, bind_lift_inr.
  unfold check_duplicate. rewrite bind_query. split; intros D; rewrite D.
  - eexists. reflexivity.
  - unfold bind at 1, create_single_event, form_date. rewrite Hd, bind_lift_inr.
    unfold ORM.save. cbn [ev_id].
    change (with_id _ (Some (next_id db))) with (single_row pet form_data fd (next_id db)).
    set (db1 := {| events := events db ++ [single_row pet form_data fd (next_id db)];
                   reminders := reminders db; next_id := next_id db + 1 |}).
    unfold bind.
    destruct (save_reminder_no_adjust (single_row pet form_data fd (next_id db)) rd db1
                eq_refl)
      as (o & E).
    rewrite E. unfold ret. eexists. split; [reflexivity|].
    rewrite save_reminder_keeps_events, save_reminder_keeps_next_id.
    split; [reflexivity|]. split; [reflexivity|].
    intros C Pos.
    assert (C1 : consistent db1).
    { apply (consistent_insert db (single_row pet form_data fd (next_id db)) C Pos).
      - exact D.
      - left. reflexivity. }
    destruct C1 as ((Kn & Kf) & U & L).
    split; [split|split];
      rewrite ?save_reminder_keeps_events, ?save_reminder_keeps_next_id; assumption.
Qed.

Lemma create_single_event_v2_spec_witness :
  exists db',
    _create_single_event_v2 Scenario.pet Scenario.checkup_form Scenario.no_reminder
                            Scenario.db_vet
    = (inr (inr (single_row Scenario.pet Scenario.checkup_form (Date 2026 4 20) 4)), db')
    /\ events db' = events Scenario.db_vet
                    ++ [single_row Scenario.pet Scenario.checkup_form (Date 2026 4 20) 4]
    /\ next_id db' = 5.
Proof.
  destruct (proj2 (create_single_event_v2_spec Scenario.pet Scenario.checkup_form
                     Scenario.no_reminder (Date 2026 4 20) Scenario.db_vet eq_refl)
                  eq_refl) as (db' & E & Ev & Nx & _).
  exists db'. auto.
Defined.

(** ** [create_next_year_events]: what a run writes *)

Lemma create_next_year_loop_shape target_year :
  forall src count db res db',
    create_next_year_loop target_year src count db = (res, db') ->
    exists added,
      events db' = events db ++ added
      /\ reminders db' = reminders db
      /\ Forall (fun r => exists s, In s src /\ rolled_over target_year s r) added
      /\ (forall n, res = inr n -> n = count + Z.of_nat (List.length added))
      /\ ((forall s, In s src -> In s (events db)) ->
          consistent db -> 0 < next_id db ->
          consistent db' /\ 0 < next_id db').
Proof.
  induction src as [|event rest IH]; intros count db res db' H.
  - inversion H; subst. exists []. rewrite app_nil_r.
    split; [reflexivity|]. split; [reflexivity|]. split; [constructor|].
    split; [intros n E; inversion E; simpl; lia|auto].
  - cbn [create_next_year_loop] in H.
    destruct (get_safe_date target_year (PyDate.month (ev_date event))
                            (PyDate.day (ev_date event))) as [e|nd] eqn:C.
    + rewrite bind_lift_inl in H. inversion H; subst. exists [].
      rewrite app_nil_r.
      split; [reflexivity|]. split; [reflexivity|]. split; [constructor|].
      split; [intros n E; discriminate|auto].
    + rewrite bind_lift_inr in H. unfold check_duplicate in H.
      rewrite bind_query in H.
      destruct (duplicate_in (events db) (ev_pet event) (ev_title event) nd None)
        eqn:Dup; cbn [negb] in H.
      * destruct (IH _ _ _ _ H) as (added & Ev & Rm & Fs & Hn & Hc).
        exists added. split; [exact Ev|]. split; [exact Rm|]. split.
        { eapply Forall_impl; [|exact Fs]. intros r (s & Is & Hs).
          exists s. split; [right; exact Is|exact Hs]. }
        split; [exact Hn|]. intros Rows. apply Hc. intros s Is. apply Rows. right. exact Is.
      * unfold bind at 1, ORM.create, ORM.save in H. cbn [ev_id with_id] in H.
        destruct (IH _ _ _ _ H) as (added & Ev & Rm & Fs & Hn & Hc).
        cbn [events reminders next_id] in Ev, Rm, Hc. rewrite <- app_assoc in Ev.
        eexists. split; [exact Ev|]. split; [exact Rm|]. split.
        { constructor.
          - exists event. split; [left; reflexivity|].
            unfold rolled_over. cbn. repeat split; auto.
          - eapply Forall_impl; [|exact Fs]. intros r (s & Is & Hs).
            exists s. split; [right; exact Is|exact Hs]. }
        split.
        { intros n E. rewrite (Hn n E). cbn [List.length app].
          rewrite Nat2Z.inj_succ. lia. }
        intros Rows C0 Pos.
        apply Hc.
        -- intros s Is. apply in_or_app. left. apply Rows. right. exact Is.
        -- apply (consistent_insert db
                    {| ev_id := None; ev_pet := ev_pet event; ev_title := ev_title event;
                       ev_event_type := ev_event_type event; ev_date := nd;
                       ev_time := ev_time event;
                       ev_duration_minutes := ev_duration_minutes event;
                       ev_note := ev_note event; ev_is_yearly := true;
                       ev_is_done := false; ev_done_year := None;
                       ev_original_event := match ev_original_event event with
                                            | Some o => Some o
                                            | None => ev_id event
                                            end |} C0 Pos Dup).
           cbn [ev_original_event].
           assert (Iev : In event (events db)) by (apply Rows; left; reflexivity).
           destruct (ev_original_event event) as [o|] eqn:Eo.
           ++ right. destruct C0 as (_ & _ & L). destruct (L event o Iev Eo) as (h & Hh).
              exists h. exact Hh.
           ++ right. exists event. auto.
        -- lia.
Qed.

(** A run of the rollover, complete or cut short by an exception, only
    appends rows.  Each appended row is derived from a yearly entry of last
    year as [rolled_over] says; a complete run returns the number of rows it
    appended; and a table in good order stays in good order. *)
Theorem create_next_year_events_shape (current_year : Z) (db db' : DB)
    (res : exn + Z) :
  create_next_year_events current_year db = (res, db') ->
  exists added,
    events db' = events db ++ added
    /\ reminders db' = reminders db
    /\ Forall (fun r => exists s,
                 In s (events db) /\ ev_is_yearly s = true
                 /\ PyDate.year (ev_date s) = current_year - 1
                 /\ rolled_over (current_year + 2) s r
                 /\ PyDate.year (ev_date r) = current_year + 2)
              added
    /\ (forall n, res = inr n -> n = Z.of_nat (List.length added))
    /\ (consistent db -> 0 < next_id db -> consistent db').
Proof.
  unfold create_next_year_events. rewrite bind_query.
  replace (current_year + 1 + 1) with (current_year + 2) by lia.
  intros H.
  destruct (create_next_year_loop_shape _ _ _ _ _ _ H) as (added & Ev & Rm & Fs & Hn & Hc).
  assert (Src : forall s, In s (yearly_events_of_year (events db) (current_year - 1)) ->
                  In s (events db) /\ ev_is_yearly s = true
                  /\ PyDate.year (ev_date s) = current_year - 1).
  { intros s Is. unfold yearly_events_of_year in Is. apply filter_In in Is as [I T].
    apply andb_true_iff in T as [Ty Te]. apply Z.eqb_eq in Te. auto. }
  exists added. split; [exact Ev|]. split; [exact Rm|]. split.
  - eapply Forall_impl; [|exact Fs]. intros r (s & Is & Hs).
    destruct (Src s Is) as (I & Y & Yr). exists s.
    split; [exact I|]. split; [exact Y|]. split; [exact Yr|]. split; [exact Hs|].
    destruct Hs as (_ & _ & _ & _ & _ & _ & _ & _ & _ & G & _).
    apply (get_safe_date_year _ _ _ _ G).
  - split; [intros n E; rewrite (Hn n E); lia|].
    intros C Pos. apply Hc; auto. intros s Is. apply (Src s Is).
Qed.

Lemma create_next_year_events_shape_witness :
  exists added,
    events (snd (create_next_year_events 2026 Scenario.db_rollover))
    = events Scenario.db_rollover ++ added
    /\ Forall (fun r => PyDate.year (ev_date r) = 2028 /\ ev_original_event r = Some 1)
              added.
Proof.
  destruct (create_next_year_events_shape 2026 Scenario.db_rollover
              (snd (create_next_year_events 2026 Scenario.db_rollover))
              (fst (create_next_year_events 2026 Scenario.db_rollover)) eq_refl)
    as (added & Ev & _ & Fs & _).
  exists added. split; [exact Ev|].
  assert (A : added = [Scenario.row 4 "Vet" (Date 2028 3 15) true (Some 1)]).
  { apply (app_inv_head (events Scenario.db_rollover)). rewrite <- Ev. reflexivity. }
  rewrite A. repeat constructor.
Defined.

(** ** [create_yearly_series] keeps the table in good order *)

Lemma event_key_with_id e i : event_key (with_id e i) = event_key e.
Proof. reflexivity. Qed.

Lemma consistent_inserts :
  forall objs db,
    consistent db -> 0 < next_id db ->
    NoDup (map event_key objs) ->
    Forall (fun e =>
              ~ In (event_key e) (map event_key (events db))
              /\ (ev_original_event e = None
                  \/ exists h, In h (events db) /\ ev_id h = ev_original_event e
                               /\ ev_original_event h = None)) objs ->
    consistent {| events := events db ++ numbered (next_id db) objs;
                  reminders := reminders db;
                  next_id := next_id db + Z.of_nat (List.length objs) |}.
Proof.
  induction objs as [|e rest IH]; intros db C Pos N F.
  - cbn [numbered List.length]. rewrite app_nil_r, Z.add_0_r.
    destruct db; exact C.
  - inversion N as [|? ? Ne Nrest]; subst. inversion F as [|? ? [Fk Fr] Frest]; subst.
    pose proof (consistent_insert db e C Pos (duplicate_key _ _ Fk) Fr) as C1.
    specialize (IH _ C1).
    cbn [events next_id reminders] in IH.
    cbn [numbered List.length]. rewrite Nat2Z.inj_succ.
    replace (next_id db + Z.succ (Z.of_nat (List.length rest)))
      with (next_id db + 1 + Z.of_nat (List.length rest)) by lia.
    replace (events db ++ with_id e (Some (next_id db)) :: numbered (next_id db + 1) rest)
      with ((events db ++ [with_id e (Some (next_id db))])
              ++ numbered (next_id db + 1) rest)
      by (rewrite <- app_assoc; reflexivity).
    apply IH; [lia|exact Nrest|].
    rewrite Forall_forall in Frest |- *. intros x Ix.
    destruct (Frest x Ix) as [Xk Xr]. split.
    + rewrite map_app. intros I. apply in_app_or in I as [I|[I|[]]]; [contradiction|].
      rewrite event_key_with_id in I. apply Ne. rewrite I. apply in_map, Ix.
    + destruct Xr as [Xr|(h & Ih & Hh)]; [left; exact Xr|].
      right. exists h. split; [apply in_or_app; left; exact Ih|exact Hh].
Qed.

(** For distinct years of the supported range [create_yearly_series] leaves
    a table in good order in good order: the keys it uses are fresh, no
    (title, date) is doubled, and every continuation refers to the head it
    has inserted. *)
Theorem create_yearly_series_consistent (pet : Pet) (form_data : EventFormData)
    (fd : date) (years : list Z) (db : DB) :
  date_ form_data = Some fd -> PyDate.wf fd ->
  Forall (fun y => PyDate.year_in_range y = true) years -> NoDup years ->
  consistent db -> 0 < next_id db ->
  exists r db',
    create_yearly_series pet form_data years db = (inr r, db')
    /\ consistent db'
    /\ next_id db <= next_id db'
    /\ reminders db' = reminders db.
Proof.
  intros Hd W R N C Pos.
  rewrite (create_yearly_series_spec pet form_data fd Hd W years db R N).
  pose proof (NoDup_filter (year_free db pet form_data fd) N) as Nf.
  assert (Free : forall y, In y (filter (year_free db pet form_data fd) years) ->
                   duplicate_in (events db) pet (title form_data) (series_date fd y) None
                   = false).
  { intros y I. apply filter_In in I as [_ T]. unfold year_free in T.
    apply negb_true_iff in T. exact T. }
  destruct (filter (year_free db pet form_data fd) years) as [|y0 ys].
  - exists (None, []), db. repeat split; try apply C; lia.
  - cbv zeta. eexists. eexists. split; [reflexivity|].
    cbn [next_id reminders]. split; [|split; [lia|reflexivity]].
    inversion Nf as [|? ? Ny0 Nys]; subst.
    set (head := planned_head pet form_data fd (next_id db) y0).
    pose proof (consistent_insert db (series_event pet form_data (series_date fd y0) None)
                  C Pos (Free y0 (or_introl eq_refl)) (or_introl eq_refl)) as Ch.
    fold (planned_head pet form_data fd (next_id db) y0) in Ch. fold head in Ch.
    pose proof (consistent_inserts
                  (map (fun y => series_event pet form_data (series_date fd y) (Some head)) ys)
                  _ Ch) as Cc.
    cbn [events next_id reminders] in Cc.
    rewrite length_map, <- app_assoc in Cc. cbn [app] in Cc.
    apply Cc; [lia| |].
    + rewrite map_map. apply NoDup_map_inj_in; [|exact Nys].
      intros x y _ _ E. unfold event_key in E. cbn in E.
      inversion E as [Ed]. apply (series_date_inj fd), Ed.
    + apply Forall_forall. intros c Ic. apply in_map_iff in Ic as (y & <- & Iy). split.
      * apply not_duplicate_key. cbn [series_event ev_pet ev_title ev_date].
        rewrite duplicate_in_app, (Free y (or_intror Iy)). cbn [orb].
        unfold duplicate_in. cbn. rewrite orb_false_r.
        replace (PyDate.eqb (series_date fd y0) (series_date fd y)) with false;
          [rewrite andb_false_r; reflexivity|].
        symmetry. apply PyDateFacts.eqb_neq. intros E.
        apply series_date_inj in E. subst y. contradiction.
      * right. exists head. split; [apply in_or_app; right; left; reflexivity|].
        split; reflexivity.
Qed.

Lemma create_yearly_series_consistent_witness :
  exists r db',
    create_yearly_series Scenario.pet Scenario.vet_september_form [2026; 2027; 2028]
                         Scenario.db_vet = (inr r, db')
    /\ consistent db'.
Proof.
  destruct (create_yearly_series_consistent Scenario.pet Scenario.vet_september_form
              (Date 2026 9 1) [2026; 2027; 2028] Scenario.db_vet eq_refl eq_refl)
    as (r & db' & E & C & _).
  - repeat constructor.
  - nodup_concrete.
  - split; [keys_concrete|split].
    + unfold pairs_unique. cbv. nodup_concrete.
    + intros r o [<-|[<-|[<-|[]]]] Hr; inversion Hr; subst o;
        exists Scenario.vet_head; (split; [left; reflexivity|split; reflexivity]).
  - reflexivity.
  - exists r, db'. auto.
Defined.

(** ** [add_event]: all or nothing *)








Lemma calculate_yearly_start_year_bounds current_year event_date :
  current_year - 1 <= fst (calculate_yearly_start_year current_year event_date)
  /\ PyDate.year event_date <= fst (calculate_yearly_start_year current_year event_date).
Proof.
  unfold calculate_yearly_start_year.
  destruct (current_year - 1 <=? PyDate.year event_date) eqn:E; simpl.
  - apply Z.leb_le in E. lia.
  - apply Z.leb_gt in E. lia.
Qed.

(** ** [_create_yearly_event_v2]: the series it plans *)

(** When the planner returns events, the first is the head, dated in the
    start year (so never before last year), the others are at most two
    continuations in the following two years that refer to the head, all on
    the month and day of the form or on 28 February; these rows, in this
    order, are what the call appended to the table. *)
Theorem create_yearly_event_v2_success (current_year : Z) (pet : Pet)
    (event_data : EventFormData) (rd : ReminderFormData) (fd : date)
    (db db' : DB) (all : list Event) :
  date_ event_data = Some fd -> PyDate.wf fd ->
  PyDate.year_in_range (fst (calculate_yearly_start_year current_year fd)) = true ->
  PyDate.year_in_range (fst (calculate_yearly_start_year current_year fd) + 2) = true ->
  _create_yearly_event_v2 current_year pet event_data rd db = (inr (inr all), db') ->
  exists head conts ys,
    all = head :: conts
    /\ events db' = events db ++ all
    /\ ev_date head = series_date fd (fst (calculate_yearly_start_year current_year fd))
    /\ current_year - 1 <= PyDate.year (ev_date head)
    /\ PyDate.year fd <= PyDate.year (ev_date head)
    /\ ev_original_event head = None
    /\ (List.length conts <= 2)%nat
    /\ map ev_date conts = map (series_date fd) ys
    /\ (forall y, In y ys ->
          y = fst (calculate_yearly_start_year current_year fd) + 1
          \/ y = fst (calculate_yearly_start_year current_year fd) + 2)
    /\ Forall (fun c => ev_original_event c = ev_id head) conts.
Proof.
  intros Hd W R0 R2. set (s := fst (calculate_yearly_start_year current_year fd)) in *.
  unfold _create_yearly_event_v2, form_date. rewrite Hd, bind_lift_inr. fold s.
  rewrite (get_safe_date_series _ _ W R0), bind_lift_inr.
  unfold check_duplicate. rewrite bind_query.
  destruct (duplicate_in (events db) pet (title event_data) (series_date fd s) None)
    eqn:Dup; [unfold ret; discriminate|].
  destruct (start_years_ok s R0 R2) as [R N].
  unfold bind at 1. rewrite (create_yearly_series_spec pet event_data fd Hd W _ db R N).
  rewrite filter_cons_eq, (year_free_true _ _ _ _ _ Dup).
  cbv zeta. cbn [fst snd].
  set (ys := filter (year_free db pet event_data fd) [s + 1; s + 2]).
  set (head := planned_head pet event_data fd (next_id db) s).
  set (conts := planned_continuations pet event_data fd (next_id db + 1) head ys).
  set (db1 := {| events := events db ++ head :: conts; reminders := reminders db;
                 next_id := next_id db + 1 + Z.of_nat (List.length ys) |}).
  unfold bind.
  pose proof (save_reminders_preserve (fun d => events d = events db1) rd
                (fun ev d H => eq_trans (save_reminder_keeps_events ev rd true d) H)
                (head :: conts) db1 eq_refl) as Ev.
  destruct (save_reminders_for_events (head :: conts) rd db1) as [[e|rs] db2];
    [discriminate|].
  unfold ret. intros H. inversion H; subst all db'. cbn [snd] in Ev.
  exists head, conts, ys.
  split; [reflexivity|]. split; [exact Ev|].
  split; [reflexivity|].
  assert (Yh : PyDate.year (ev_date head) = s) by apply series_date_year.
  pose proof (calculate_yearly_start_year_bounds current_year fd) as [B1 B2].
  fold s in B1, B2.
  split; [lia|]. split; [lia|]. split; [reflexivity|].
  assert (Lc : List.length conts = List.length ys)
    by (unfold conts, planned_continuations; rewrite numbered_length, length_map;
        reflexivity).
  split; [rewrite Lc; apply (filter_length_le _ [s + 1; s + 2])|].
  split; [unfold conts, planned_continuations;
          rewrite numbered_dates, map_map; reflexivity|].
  split.
  - intros y I. unfold ys in I. apply filter_In in I as [[<-|[<-|[]]] _]; auto.
  - unfold conts, planned_continuations. apply numbered_Forall; [auto|].
    apply Forall_forall. intros c Ic. apply in_map_iff in Ic as (y & <- & _). reflexivity.
Qed.

Lemma create_yearly_event_v2_success_witness :
  exists all db' head conts,
    _create_yearly_event_v2 2026 Scenario.pet Scenario.vet_form Scenario.no_reminder
                            Scenario.db_dup_2027 = (inr (inr all), db')
    /\ all = head :: conts
    /\ events db' = events Scenario.db_dup_2027 ++ all
    /\ ev_date head = Date 2026 3 15.
Proof.
  destruct (create_yearly_event_v2_success 2026 Scenario.pet Scenario.vet_form
              Scenario.no_reminder (Date 2026 3 15) Scenario.db_dup_2027
              (snd (_create_yearly_event_v2 2026 Scenario.pet Scenario.vet_form
                      Scenario.no_reminder Scenario.db_dup_2027))
              [Scenario.row 2 "Vet" (Date 2026 3 15) true None;
               Scenario.row 3 "Vet" (Date 2028 3 15) true (Some 2)]
              eq_refl eq_refl eq_refl eq_refl eq_refl)
    as (head & conts & ys & E & Ev & Dh & _).
  exists [Scenario.row 2 "Vet" (Date 2026 3 15) true None;
          Scenario.row 3 "Vet" (Date 2028 3 15) true (Some 2)],
         (snd (_create_yearly_event_v2 2026 Scenario.pet Scenario.vet_form
                 Scenario.no_reminder Scenario.db_dup_2027)),
         head, conts.
  split; [reflexivity|]. split; [exact E|]. split; [exact Ev|exact Dh].
Defined.

(** ** [Pet.age] *)

Lemma wf_bounds d :
  PyDate.wf d ->
  1 <= PyDate.year d <= 9999 /\ 1 <= PyDate.month d <= 12
  /\ 1 <= PyDate.day d <= PyDate.days_in_month (PyDate.year d) (PyDate.month d)
  /\ PyDate.day d <= 31.
Proof.
  unfold PyDate.wf, PyDate.valid, PyDate.MINYEAR, PyDate.MAXYEAR.
  rewrite !andb_true_iff, !Z.leb_le. intros [[[[[A B] C] D] E] F].
  repeat split; try assumption.
  unfold PyDate.days_in_month in F.
  destruct (PyDate.month d =? 2); [destruct (PyDate.is_leap _); lia|].
  destruct (_ || _); lia.
Qed.

Ltac bool_cases :=
  repeat match goal with
         | |- context [?a <? ?b] => destruct (Z.ltb_spec a b)
         | |- context [?a =? ?b] => destruct (Z.eqb_spec a b)
         | |- context [?a <=? ?b] => destruct (Z.leb_spec a b)
         end.

(** The age is counted in whole months: for valid dates the months are
    between 0 and 11, twelve times the years plus the months is the number
    of month boundaries passed since the birthday (one less while the day of
    the month has not been reached), and the years are negative exactly
    when the birthday is still ahead. *)
Theorem age_years_months_spec (today birthday : date) :
  PyDate.wf today -> PyDate.wf birthday ->
  0 <= snd (age_years_months today birthday) <= 11
  /\ 12 * fst (age_years_months today birthday) + snd (age_years_months today birthday)
     = 12 * (PyDate.year today - PyDate.year birthday)
       + (PyDate.month today - PyDate.month birthday)
       - (if PyDate.day today <? PyDate.day birthday then 1 else 0)
  /\ (fst (age_years_months today birthday) < 0 <-> date_ltb today birthday = true).
Proof.
  intros Wt Wb.
  destruct (wf_bounds _ Wt) as (_ & Mt & Dt & _).
  destruct (wf_bounds _ Wb) as (_ & Mb & Db & _).
  unfold age_years_months, date_ltb. cbv zeta.
  bool_cases; cbn [fst snd orb andb]; repeat split; intros; try lia; try discriminate.
Qed.

Lemma age_years_months_spec_witness :
  age_years_months (Date 2026 3 14) (Date 2020 3 15) = (5, 11)
  /\ 0 <= snd (age_years_months (Date 2026 3 14) (Date 2020 3 15)) <= 11.
Proof.
  split; [reflexivity|].
  exact (proj1 (age_years_months_spec (Date 2026 3 14) (Date 2020 3 15)
                  eq_refl eq_refl)).
Defined.

(** ** The birthday notice of [pet_detail] *)

Lemma valid_arith y m d :
  PyDate.valid y m d = true ->
  1 <= y <= 9999 /\ 1 <= m <= 12 /\ 1 <= d <= PyDate.days_in_month y m.
Proof.
  unfold PyDate.valid, PyDate.MINYEAR, PyDate.MAXYEAR.
  rewrite !andb_true_iff, !Z.leb_le. tauto.
Qed.

Ltac month_cases m :=
  let H := fresh "Hm" in
  assert (H : m = 1 \/ m = 2 \/ m = 3 \/ m = 4 \/ m = 5 \/ m = 6 \/ m = 7
              \/ m = 8 \/ m = 9 \/ m = 10 \/ m = 11 \/ m = 12) by lia;
  destruct H as [H|[H|[H|[H|[H|[H|[H|[H|[H|[H|[H|H]]]]]]]]]]]; subst m.

(** Within one year the day count grows with month and day. *)
Lemma day_of_year_lt y m d m' d' :
  PyDate.valid y m d = true -> PyDate.valid y m' d' = true ->
  m < m' \/ (m = m' /\ d < d') ->
  days_before_month y m + d < days_before_month y m' + d'.
Proof.
  intros V V' L.
  destruct (valid_arith _ _ _ V) as (_ & Hm & Hd).
  destruct (valid_arith _ _ _ V') as (_ & Hm' & Hd').
  clear V V'. unfold days_before_month, PyDate.days_in_month in *.
  month_cases m; month_cases m'; try lia;
    cbv -[PyDate.is_leap Z.add Z.lt Z.le] in *; destruct (PyDate.is_leap y); lia.
Qed.

Lemma day_of_year_bounds y m d :
  PyDate.valid y m d = true -> 1 <= days_before_month y m + d <= 366.
Proof.
  intros V. destruct (valid_arith _ _ _ V) as (_ & Hm & Hd). clear V.
  unfold days_before_month, PyDate.days_in_month in *.
  month_cases m; cbv -[PyDate.is_leap Z.add Z.lt Z.le] in *;
    destruct (PyDate.is_leap y); lia.
Qed.

Lemma days_before_year_three y :
  1095 <= days_before_year (y + 3) - days_before_year y.
Proof.
  unfold days_before_year. cbv zeta. Z.to_euclidean_division_equations. lia.
Qed.

Lemma leap_plus_three y : PyDate.is_leap y = true -> PyDate.is_leap (y + 3) = false.
Proof.
  unfold PyDate.is_leap. rewrite andb_true_iff, Z.eqb_eq. intros [H _].
  apply andb_false_iff. left. apply Z.eqb_neq.
  Z.to_euclidean_division_equations. lia.
Qed.

Lemma date_ltb_same_year y m d m' d' :
  date_ltb (Date y m d) (Date y m' d') = true <-> m < m' \/ (m = m' /\ d < d').
Proof.
  unfold date_ltb. cbn [PyDate.year PyDate.month PyDate.day].
  rewrite Z.ltb_irrefl, Z.eqb_refl. cbn [orb andb].
  rewrite orb_true_iff, andb_true_iff, !Z.ltb_lt, Z.eqb_eq. tauto.
Qed.

Lemma valid_this_year today b :
  PyDate.wf today -> PyDate.wf b ->
  PyDate.valid (PyDate.year today) (PyDate.month b) (PyDate.day b)
  = negb ((PyDate.month b =? 2) && (PyDate.day b =? 29))
    || PyDate.is_leap (PyDate.year today).
Proof.
  intros Wt Wb. pose proof (PyDateFacts.valid_year _ _ _ Wt) as R.
  destruct ((PyDate.month b =? 2) && (PyDate.day b =? 29)) eqn:F; cbn [negb orb].
  - apply andb_true_iff in F as [Fm Fd]. apply Z.eqb_eq in Fm, Fd.
    rewrite Fm, Fd, PyDateFacts.valid_feb29, R. reflexivity.
  - apply (PyDateFacts.valid_other_year _ _ _ _ Wb R F).
Qed.

(** The notice of [pet_detail], case by case, for a valid birthday and
    today's date (up to the year 9996).  A birthday on 29 February raises
    [ValueError] unless this year is a leap year and the day has not passed.
    Otherwise: once this year's birthday has passed nothing is announced
    (the next one is looked for three years ahead, also across the turn of
    the year); on the day itself [birthday_today] is set; and
    [birthday_soon] is the number of days, from 1 to 7, to a birthday later
    this year. *)
Theorem birthday_notice_spec (today b : date) :
  PyDate.wf today -> PyDate.wf b ->
  PyDate.year_in_range (PyDate.year today + 3) = true ->
  let this_year := Date (PyDate.year today) (PyDate.month b) (PyDate.day b) in
  let days := toordinal this_year - toordinal today in
  let trouble := (PyDate.month b =? 2) && (PyDate.day b =? 29)
                 && (negb (PyDate.is_leap (PyDate.year today))
                     || date_ltb this_year today) in
  (trouble = true -> birthday_notice today (Some b) = inl ValueError)
  /\ (trouble = false ->
      birthday_notice today (Some b)
      = inr (if date_ltb this_year today then (false, None)
             else if (PyDate.month b =? PyDate.month today)
                     && (PyDate.day b =? PyDate.day today) then (true, None)
             else if days <=? 7 then (false, Some days)
             else (false, None))
      /\ (date_ltb this_year today = false ->
          0 <= days
          /\ (days = 0 <-> PyDate.month b = PyDate.month today
                           /\ PyDate.day b = PyDate.day today))).
Proof.
  intros Wt Wb R3 this_year days trouble.
  pose proof (valid_this_year today b Wt Wb) as Vy.
  destruct today as [ty tm td], b as [by_ bm bd].
  cbn [PyDate.year PyDate.month PyDate.day] in *.
  unfold PyDate.wf in Wt, Wb. cbn [PyDate.year PyDate.month PyDate.day] in Wt, Wb.
  assert (Ord : PyDate.valid ty bm bd = true ->
                date_ltb this_year (Date ty tm td) = false ->
                0 <= days /\ (days = 0 <-> bm = tm /\ bd = td)).
  { intros V L. unfold days, toordinal, this_year.
    cbn [PyDate.year PyDate.month PyDate.day].
    assert (NL : ~ (bm < tm \/ (bm = tm /\ bd < td))).
    { intros X. apply (date_ltb_same_year ty) in X. unfold this_year in L. congruence. }
    destruct (Z.lt_trichotomy tm bm) as [Lt|[Eq|Gt]].
    - pose proof (day_of_year_lt ty tm td bm bd Wt V (or_introl Lt)). lia.
    - subst bm. destruct (Z.lt_trichotomy td bd) as [Lt|[Eq|Gt]].
      + pose proof (day_of_year_lt ty tm td tm bd Wt V (or_intror (conj eq_refl Lt))). lia.
      + subst bd. lia.
      + exfalso. apply NL. right. lia.
    - exfalso. apply NL. left. lia. }
  unfold birthday_notice, replace_year. cbn [PyDate.year PyDate.month PyDate.day].
  unfold PyDate.new. rewrite Vy.
  destruct ((bm =? 2) && (bd =? 29)) eqn:F; cbn [negb orb andb] in *.
  - apply andb_true_iff in F as [Fm Fd]. apply Z.eqb_eq in Fm, Fd. subst bm bd.
    destruct (PyDate.is_leap ty) eqn:Lp; cbn [negb orb] in *.
    + fold this_year. destruct (date_ltb this_year (Date ty tm td)) eqn:Lt.
      * subst trouble. split; [|discriminate]. intros _.
        cbn [PyDate.year PyDate.month PyDate.day].
        rewrite PyDateFacts.valid_feb29, (leap_plus_three _ Lp), andb_false_r.
        reflexivity.
      * subst trouble. split; [discriminate|]. intros _.
        destruct (Ord Vy eq_refl) as [Pos Zero]. split; [|auto].
        fold days. destruct (Z.eqb_spec days 0) as [Z0|Z0].
        -- apply Zero in Z0 as [<- <-]. rewrite !Z.eqb_refl. reflexivity.
        -- destruct ((2 =? tm) && (29 =? td)) eqn:Same;
             [|destruct (days <=? 7); reflexivity].
           apply andb_true_iff in Same as [Sm Sd]. apply Z.eqb_eq in Sm, Sd.
           exfalso. apply Z0, Zero. auto.
    + subst trouble. split; [reflexivity|discriminate].
  - subst trouble. split; [discriminate|]. intros _. fold this_year.
    destruct (date_ltb this_year (Date ty tm td)) eqn:Lt.
    + split; [|discriminate].
      change (PyDate.month this_year) with bm. change (PyDate.day this_year) with bd.
      rewrite (PyDateFacts.valid_other_year _ _ _ _ Wb R3 F).
      assert (Far : 7 < toordinal (Date (ty + 3) bm bd) - toordinal (Date ty tm td)).
      { unfold toordinal. cbn [PyDate.year PyDate.month PyDate.day].
        pose proof (days_before_year_three ty).
        pose proof (day_of_year_bounds _ _ _ (PyDateFacts.valid_other_year _ _ _ _ Wb R3 F)).
        pose proof (day_of_year_bounds _ _ _ Wt). lia. }
      destruct (Z.eqb_spec (toordinal (Date (ty + 3) bm bd) - toordinal (Date ty tm td)) 0);
        [lia|].
      destruct (Z.leb_spec (toordinal (Date (ty + 3) bm bd) - toordinal (Date ty tm td)) 7);
        [lia|reflexivity].
    + destruct (Ord Vy eq_refl) as [Pos Zero]. split; [|auto].
      fold days. destruct (Z.eqb_spec days 0) as [Z0|Z0].
      * apply Zero in Z0 as [<- <-]. rewrite !Z.eqb_refl. reflexivity.
      * destruct ((bm =? tm) && (bd =? td)) eqn:Same;
          [|destruct (days <=? 7); reflexivity].
        apply andb_true_iff in Same as [Sm Sd]. apply Z.eqb_eq in Sm, Sd.
        exfalso. apply Z0, Zero. auto.
Qed.

Lemma birthday_notice_spec_witness :
  birthday_notice (Date 2026 3 10) (Some (Date 2020 3 15)) = inr (false, Some 5)
  /\ birthday_notice (Date 2026 12 30) (Some (Date 2020 1 2)) = inr (false, None)
  /\ birthday_notice (Date 2027 1 10) (Some (Date 2024 2 29)) = inl ValueError.
Proof.
  split; [|split].
  - exact (proj1 (proj2 (birthday_notice_spec (Date 2026 3 10) (Date 2020 3 15)
                           eq_refl eq_refl eq_refl) eq_refl)).
  - exact (proj1 (proj2 (birthday_notice_spec (Date 2026 12 30) (Date 2020 1 2)
                           eq_refl eq_refl eq_refl) eq_refl)).
  - exact (proj1 (birthday_notice_spec (Date 2027 1 10) (Date 2024 2 29)
                    eq_refl eq_refl eq_refl) eq_refl).
Defined.

(** ** [create_or_update_birthday_event] *)

Lemma delete_where_none_left policy sel db :
  (forall r o, sel (with_original_event r o) = sel r) ->
  Forall (fun r => is_some (ev_id r) = true) (events db) ->
  forall r, In r (events (snd (ORM.delete_where policy sel db))) -> sel r = false.
Proof.
  intros Hsel Keys r I. apply not_true_is_false. intros S.
  unfold ORM.delete_where in I. cbn [snd events] in I.
  assert (Gone : forall r0 doomed,
            In r0 (events db) -> sel r0 = true ->
            (forall i, In i (ORM.ids_of (filter sel (events db))) -> In i doomed) ->
            ORM.mem_id doomed (ev_id r0) = true).
  { intros r0 doomed I0 S0 Sub. rewrite Forall_forall in Keys.
    specialize (Keys r0 I0). destruct (ev_id r0) as [i|] eqn:E; [|discriminate].
    apply mem_id_In, Sub. apply (ids_of_In _ r0); [|exact E].
    apply filter_In. auto. }
  destruct policy.
  - apply filter_In in I as [I K]. apply negb_true_iff in K.
    rewrite (Gone r _ I S) in K; [discriminate|].
    intros i Hi. apply cascade_incl, Hi.
  - apply in_map_iff in I as (r0 & E & I). apply filter_In in I as [I K].
    apply negb_true_iff in K.
    assert (S0 : sel r0 = true).
    { rewrite <- E in S. destruct (ORM.mem_id _ (ev_original_event r0));
        [rewrite Hsel in S|]; exact S. }
    rewrite (Gone r0 _ I S0) in K; [discriminate|auto].
Qed.

Lemma lookup_after_replace rs k s0 s' :
  find (fun r => opt_Z_eqb (rs_event r) k) rs = Some s0 ->
  rs_event s' = k ->
  find (fun r => opt_Z_eqb (rs_event r) k)
       (map (fun r => if opt_Z_eqb (rs_event r) k then s' else r) rs)
  = Some s'.
Proof.
  intros F K. subst k. apply (lookup_after_save rs (rs_event s') s0 s' F eq_refl).
Qed.

Lemma update_or_create_birthday_reminder_spec pet event db :
  is_some (ev_id event) = true ->
  exists s,
    update_or_create_birthday_reminder pet event db
    = (inr tt, snd (update_or_create_birthday_reminder pet event db))
    /\ events (snd (update_or_create_birthday_reminder pet event db)) = events db
    /\ next_id (snd (update_or_create_birthday_reminder pet event db)) = next_id db
    /\ Reminders.lookup (reminders (snd (update_or_create_birthday_reminder pet event db)))
                        event = Some s
    /\ rs_pet s = pet /\ rs_repeat s = true /\ rs_repeat_every s = 365
    /\ rs_remind_at s = Some (Time 9 0).
Proof.
  intros Saved. unfold update_or_create_birthday_reminder.
  destruct (ev_id event) as [i|]; [clear Saved|discriminate].
  destruct (Reminders.lookup (reminders db) event) as [s0|] eqn:L; cbn [snd].
  - eexists. split; [reflexivity|]. split; [reflexivity|]. split; [reflexivity|].
    split.
    + unfold Reminders.lookup in *. cbn [reminders set_reminders rs_event].
      pose proof L as K. apply find_some in K as [_ K]. apply opt_Z_eqb_eq in K.
      rewrite K. apply (lookup_after_replace _ _ s0); [exact L|reflexivity].
    + repeat split.
  - eexists. split; [reflexivity|]. split; [reflexivity|]. split; [reflexivity|].
    split.
    + unfold Reminders.lookup in *. cbn [reminders set_reminders].
      induction (reminders db) as [|r rs IH]; simpl in *.
      * rewrite opt_Z_eqb_refl. reflexivity.
      * destruct (opt_Z_eqb (rs_event r) (ev_id event)); [discriminate|]. auto.
    + repeat split.
Qed.

Lemma birthday_loop_step pet b cy year rest db :
  PyDate.wf b -> PyDate.year_in_range year = true ->
  birthday_loop pet b cy (year :: rest) db
  = (let e := with_id (birthday_row pet b year) (Some (next_id db)) in
     let db1 := {| events := events db ++ [e]; reminders := reminders db;
                   next_id := next_id db + 1 |} in
     bind (if year =? cy then update_or_create_birthday_reminder (pet_key pet) e
           else ret tt)
          (fun _ => birthday_loop pet b cy rest) db1).
Proof.
  intros W R. cbn [birthday_loop]. unfold replace_year.
  change (match PyDate.new year (PyDate.month b) (PyDate.day b) with
          | inr d => inr d
          | inl ValueError =>
              if (PyDate.month b =? 2) && (PyDate.day b =? 29)
              then PyDate.new year 2 28 else inl ValueError
          | inl e => inl e
          end) with (get_safe_date year (PyDate.month b) (PyDate.day b)).
  rewrite (get_safe_date_series b year W R), bind_lift_inr. reflexivity.
Qed.

(** With a birthday that is a date, [create_or_update_birthday_event]
    replaces the pet's yearly birthday events by three new ones, for this
    year and the next two, each on the birthday or, for a 29 February in a
    common year, on 28 February; the event of this year gets the reminder
    that repeats every 365 days at 9:00.  Nothing else of the table
    changes beyond what the deletion takes with it. *)
Theorem birthday_events_replaced strptime_date policy cy pet b db :
  pet_birthday pet = Some (inr b) ->
  PyDate.wf b ->
  PyDate.year_in_range cy = true -> PyDate.year_in_range (cy + 2) = true ->
  Forall (fun r => is_some (ev_id r) = true) (events db) ->
  let cleared := snd (ORM.delete_where policy (is_birthday_of pet) db) in
  let out := create_or_update_birthday_event strptime_date policy cy pet db in
  fst out = inr tt
  /\ events (snd out)
     = events cleared
       ++ numbered (next_id db) (map (birthday_row pet b) [cy; cy + 1; cy + 2])
  /\ next_id (snd out) = next_id db + 3
  /\ (forall r, In r (events cleared) -> is_birthday_of pet r = false)
  /\ exists s,
       Reminders.lookup (reminders (snd out))
                        (with_id (birthday_row pet b cy) (Some (next_id db))) = Some s
       /\ rs_pet s = pet_key pet /\ rs_repeat s = true /\ rs_repeat_every s = 365
       /\ rs_remind_at s = Some (Time 9 0).
Proof.
  intros B W R0 R2 Keys cleared out.
  assert (R1 : PyDate.year_in_range (cy + 1) = true).
  { unfold PyDate.year_in_range, PyDate.MINYEAR, PyDate.MAXYEAR in *. lia. }
  assert (Gone : forall r, In r (events cleared) -> is_birthday_of pet r = false).
  { apply delete_where_none_left; [intros [] o; reflexivity|exact Keys]. }
  assert (N : next_id cleared = next_id db) by reflexivity.
  set (e0 := with_id (birthday_row pet b cy) (Some (next_id cleared))).
  set (db1 := {| events := events cleared ++ [e0]; reminders := reminders cleared;
                 next_id := next_id cleared + 1 |}).
  destruct (update_or_create_birthday_reminder_spec (pet_key pet) e0 db1 eq_refl)
    as (s & U & Ev & Nx & L & P).
  set (db2 := snd (update_or_create_birthday_reminder (pet_key pet) e0 db1)) in *.
  assert (E : exists db4,
             out = (inr tt, db4)
             /\ events db4
                = (events db2
                   ++ [with_id (birthday_row pet b (cy + 1)) (Some (next_id db2))])
                  ++ [with_id (birthday_row pet b (cy + 2)) (Some (next_id db2 + 1))]
             /\ next_id db4 = next_id db2 + 1 + 1
             /\ reminders db4 = reminders db2).
  { subst out. unfold create_or_update_birthday_event. rewrite B.
    unfold bind at 1.
    change (ORM.delete_where policy
              (fun r => (ev_pet r =? pet_key pet)
                        && String.eqb (ev_event_type r) "birthday" && ev_is_yearly r) db)
      with (ORM.delete_where policy (is_birthday_of pet) db).
    assert (D : ORM.delete_where policy (is_birthday_of pet) db = (inr tt, cleared))
      by reflexivity.
    rewrite D. rewrite (birthday_loop_step pet b cy cy _ cleared W R0).
    cbv zeta. rewrite Z.eqb_refl. fold e0. fold db1.
    unfold bind at 1. rewrite U.
    rewrite (birthday_loop_step pet b cy (cy + 1) _ db2 W R1). cbv zeta.
    replace (cy + 1 =? cy) with false by (symmetry; apply Z.eqb_neq; lia).
    rewrite bind_ret.
    match goal with |- context [birthday_loop pet b cy [cy + 2] ?d] => set (db3 := d) end.
    rewrite (birthday_loop_step pet b cy (cy + 2) _ db3 W R2). cbv zeta.
    replace (cy + 2 =? cy) with false by (symmetry; apply Z.eqb_neq; lia).
    rewrite bind_ret. cbn [birthday_loop ret].
    eexists. split; [reflexivity|]. subst db3. cbn [events next_id reminders].
    repeat split. }
  destruct E as (db4 & -> & E4 & N4 & R4). cbn [fst snd].
  split; [reflexivity|]. split.
  { rewrite E4, Ev, Nx. subst db1. cbn [events next_id].
    rewrite N. cbn [numbered map]. subst e0. rewrite N.
    rewrite <- !app_assoc. cbn [app]. repeat f_equal; lia. }
  split.
  { rewrite N4, Nx. subst db1. cbn [next_id]. rewrite N. lia. }
  split; [exact Gone|].
  exists s. rewrite R4. subst e0. rewrite N in L. split; [exact L|exact P].
Qed.

Lemma birthday_events_replaced_witness :
  let out := create_or_update_birthday_event (fun _ => inl ValueError) ORM.CASCADE
               2026 Scenario.leap_pet Scenario.db_birthday in
  fst out = inr tt
  /\ map (fun r => (ev_id r, ev_event_type r, ev_date r)) (events (snd out))
     = [ (Some 1, "vet", Date 2026 3 15); (Some 2, "vet", Date 2027 3 15);
         (Some 3, "vet", Date 2028 3 15);
         (Some 5, "birthday", Date 2026 2 28); (Some 6, "birthday", Date 2027 2 28);
         (Some 7, "birthday", Date 2028 2 29) ]%string.
Proof.
  destruct (birthday_events_replaced (fun _ => inl ValueError) ORM.CASCADE 2026
              Scenario.leap_pet (Date 2024 2 29) Scenario.db_birthday
              eq_refl eq_refl eq_refl eq_refl
              ltac:(repeat constructor)) as (F & Ev & _).
  split; [exact F|]. cbv zeta. rewrite Ev. reflexivity.
Defined.

(** ** The edit views *)

Lemma update_events_one event form_data fd db :
  date_ form_data = Some fd ->
  update_events [event] form_data true db
  = (if PyDate.valid (PyDate.year (ev_date event)) (PyDate.month fd) (PyDate.day fd)
     then
       let nd := Date (PyDate.year (ev_date event)) (PyDate.month fd) (PyDate.day fd) in
       if duplicate_in (events db) (ev_pet event) (title form_data) nd (ev_id event)
       then (inr [], db)
       else if is_some (ev_id event)
            then (inr [apply_form event form_data nd],
                  set_events db
                    (map (fun r => if opt_Z_eqb (ev_id event) (ev_id r)
                                   then ORM.copy_edit_fields r
                                          (apply_form event form_data nd)
                                   else r) (events db)))
            else (inl ValueError, db)
     else (inl ValueError, db)).
Proof.
  intros D. unfold update_events. cbn [update_events_loop].
  unfold edit_date, form_date. rewrite D. unfold PyDate.new.
  destruct (PyDate.valid _ _ _); [|reflexivity].
  unfold bind, lift, check_duplicate, query. cbn [pair_in existsb fst snd].
  destruct (duplicate_in _ _ _ _ _); [reflexivity|].
  cbn [update_events_loop app]. unfold ret, ORM.bulk_update.
  cbn [forallb ORM.find_by_id find]. rewrite andb_true_r.
  cbn [apply_form ev_id]. destruct (is_some (ev_id event)); [|reflexivity].
  f_equal. f_equal. apply map_ext. intros r. destruct (opt_Z_eqb _ _); reflexivity.
Qed.

Lemma handle_regular_event_edit_saves event form_data rd apply_to_all fd db :
  date_ form_data = Some fd ->
  (is_yearly form_data && (PyDate.month fd =? 2) && (PyDate.day fd =? 29)) = false ->
  (apply_to_all && ev_is_yearly event) = false ->
  PyDate.valid (PyDate.year (ev_date event)) (PyDate.month fd) (PyDate.day fd) = true ->
  duplicate_in (events db) (ev_pet event) (title form_data)
               (Date (PyDate.year (ev_date event)) (PyDate.month fd) (PyDate.day fd))
               (ev_id event) = false ->
  is_some (ev_id event) = true ->
  let nd := Date (PyDate.year (ev_date event)) (PyDate.month fd) (PyDate.day fd) in
  let u := apply_form event form_data nd in
  let db1 := set_events db
               (map (fun r => if opt_Z_eqb (ev_id event) (ev_id r)
                              then ORM.copy_edit_fields r u else r) (events db)) in
  _handle_regular_event_edit event form_data rd apply_to_all db
  = match save_reminder u rd true db1 with
    | (inr _, db2) => (inr (RedirectToCalendar (ev_pet event) nd), db2)
    | (inl e, _) => (inl e, db)
    end.
Proof.
  intros D G S V Dup K nd u db1. unfold _handle_regular_event_edit.
  rewrite D, G, S. cbn [negb orb]. unfold atomic, bind, ret.
  rewrite (update_events_one event form_data fd db D), V. cbv zeta. rewrite Dup, K.
  cbn [save_reminders_for_events]. unfold bind, ret. fold nd. fold u. fold db1.
  destruct (save_reminder u rd true db1) as [[e|o] db2]; [reflexivity|].
  cbn [andb]. change (ev_id u) with (ev_id event). rewrite opt_Z_eqb_refl.
  reflexivity.
Qed.

(** [_handle_regular_event_edit] on one entry (no series edit), with a form
    that passes the checks.  The entry keeps its year and takes the month
    and day of the form.  When that date does not exist in the entry's
    year, [ValueError] leaves the view and nothing is written.  When the
    pet has another entry with the new title on the new date, nothing is
    written, the reminder included, and the view still redirects to the
    calendar.  Otherwise, for a saved entry, the outcome depends on the
    reminder of the form.  Without a time of day the row takes the form's
    columns, the reminders stay and the view redirects to the new date.
    With a time of day and a reminder that repeats or has no date, the same
    happens and the entry has a reminder with that time and no date.  With
    a time of day and a one-time date, the date is moved into the year of
    the entry: when it exists there, the edit is done and the reminder
    stores it; when it does not (29 February in a common year),
    [ValueError] leaves the view and nothing is written, the edit of the
    row included. *)
Theorem handle_regular_event_edit_single (event : Event) (form_data : EventFormData)
    (rd : ReminderFormData) (apply_to_all : bool) (fd : date) (db : DB) :
  date_ form_data = Some fd ->
  (is_yearly form_data && (PyDate.month fd =? 2) && (PyDate.day fd =? 29)) = false ->
  (apply_to_all && ev_is_yearly event) = false ->
  let y := PyDate.year (ev_date event) in
  let nd := Date y (PyDate.month fd) (PyDate.day fd) in
  let out := _handle_regular_event_edit event form_data rd apply_to_all db in
  let edited :=
    fst out = inr (RedirectToCalendar (ev_pet event) nd)
    /\ events (snd out)
       = map (fun r => if opt_Z_eqb (ev_id event) (ev_id r)
                       then ORM.copy_edit_fields r (apply_form event form_data nd)
                       else r) (events db)
    /\ next_id (snd out) = next_id db in
  (PyDate.valid y (PyDate.month fd) (PyDate.day fd) = false ->
   out = (inl ValueError, db))
  /\ (PyDate.valid y (PyDate.month fd) (PyDate.day fd) = true ->
      duplicate_in (events db) (ev_pet event) (title form_data) nd (ev_id event) = true ->
      out = (inr (RedirectToCalendar (ev_pet event) (ev_date event)), db))
  /\ (PyDate.valid y (PyDate.month fd) (PyDate.day fd) = true ->
      duplicate_in (events db) (ev_pet event) (title form_data) nd (ev_id event) = false ->
      is_some (ev_id event) = true ->
      (is_some (remind_at rd) = false ->
       edited /\ reminders (snd out) = reminders db)
      /\ (is_some (remind_at rd) = true ->
          repeat rd = true \/ remind_date rd = None ->
          edited
          /\ exists s, Reminders.lookup (reminders (snd out)) event = Some s
                       /\ reminder_without_date rd s)
      /\ (forall d,
            is_some (remind_at rd) = true ->
            repeat rd = false -> remind_date rd = Some d ->
            (PyDate.valid y (PyDate.month d) (PyDate.day d) = true ->
             edited
             /\ exists s, Reminders.lookup (reminders (snd out)) event = Some s
                          /\ rs_remind_at s = remind_at rd /\ rs_repeat s = false
                          /\ rs_remind_date s
                             = Some (Date y (PyDate.month d) (PyDate.day d)))
            /\ (PyDate.valid y (PyDate.month d) (PyDate.day d) = false ->
                out = (inl ValueError, db)))).
Proof.
  intros D G S y nd out edited.
  split; [|split].
  - intros V. subst out. unfold _handle_regular_event_edit.
    rewrite D, G, S. cbn [negb orb]. unfold atomic, bind, ret.
    rewrite (update_events_one event form_data fd db D). fold y. rewrite V. reflexivity.
  - intros V Dup. subst out. unfold _handle_regular_event_edit.
    rewrite D, G, S. cbn [negb orb]. unfold atomic, bind, ret.
    rewrite (update_events_one event form_data fd db D). fold y. rewrite V.
    cbv zeta. fold nd. rewrite Dup. reflexivity.
  - intros V Dup K.
    pose proof (handle_regular_event_edit_saves event form_data rd apply_to_all fd db
                  D G S V Dup K) as Run.
    cbv zeta in Run. fold y in Run. fold nd in Run. fold out in Run.
    set (u := apply_form event form_data nd) in *.
    set (db1 := set_events db _) in Run.
    assert (Ku : is_some (ev_id u) = true) by exact K.
    assert (Stored : forall o, is_some (remind_at rd) = true ->
              reminder_date u rd true = inr o ->
              edited
              /\ exists s, Reminders.lookup (reminders (snd out)) event = Some s
                           /\ rs_remind_at s = remind_at rd /\ rs_repeat s = repeat rd
                           /\ rs_remind_date s = o).
    { intros o A Rd.
      destruct (save_reminder_stores u rd true db1 o A Rd Ku)
        as (s & db2 & E & Hd & Hr & Ha & L & Ev & _).
      rewrite E in Run. subst edited. rewrite Run. cbn [fst snd]. split.
      - split; [reflexivity|]. split; [rewrite Ev; reflexivity|].
        change db2 with (snd (@inr exn _ (Some s), db2)). rewrite <- E.
        rewrite save_reminder_keeps_next_id. reflexivity.
      - exists s. split; [exact L|]. auto. }
    split; [|split].
    + intros A. rewrite (save_reminder_noop u rd true db1 A) in Run.
      subst edited. rewrite Run. cbn [fst snd]. repeat split.
    + intros A R. destruct (Stored None A (reminder_date_none u rd true R))
        as (Ed & s & L & Ha & Hr & Hd).
      split; [exact Ed|]. exists s. split; [exact L|]. repeat split; assumption.
    + intros d A R Rdate. split.
      * intros Vd.
        assert (Rd : reminder_date u rd true = inr (Some (Date y (PyDate.month d)
                                                               (PyDate.day d)))).
        { unfold reminder_date, PyDate.new. rewrite Rdate, R. cbn [negb].
          change (PyDate.year (ev_date u)) with y. rewrite Vd. reflexivity. }
        destruct (Stored _ A Rd) as (Ed & s & L & Ha & Hr & Hd).
        split; [exact Ed|]. exists s. rewrite <- R. auto.
      * intros Vd.
        assert (Rd : reminder_date u rd true = inl ValueError).
        { unfold reminder_date, PyDate.new. rewrite Rdate, R. cbn [negb].
          change (PyDate.year (ev_date u)) with y. rewrite Vd. reflexivity. }
        rewrite (save_reminder_fails u rd true db1 ValueError A Rd) in Run.
        exact Run.
Qed.

Lemma handle_regular_event_edit_single_witness :
  _handle_regular_event_edit Scenario.vet_2027 Scenario.leap_form
                             Scenario.no_reminder false Scenario.db_vet
  = (inl ValueError, Scenario.db_vet)
  /\ _handle_regular_event_edit (Scenario.row 4 "Checkup" (Date 2027 3 15) false None)
                                Scenario.single_form Scenario.repeat_with_date true
                                Scenario.db_vet_checkup
     = (inr (RedirectToCalendar Scenario.pet (Date 2027 3 15)), Scenario.db_vet_checkup)
  /\ fst (_handle_regular_event_edit Scenario.vet_2027 Scenario.checkup_form
                                     Scenario.repeat_with_date false Scenario.db_vet)
     = inr (RedirectToCalendar Scenario.pet (Date 2027 4 20))
  /\ _handle_regular_event_edit Scenario.vet_2027 Scenario.checkup_form
                                Scenario.leap_reminder false Scenario.db_vet
     = (inl ValueError, Scenario.db_vet).
Proof.
  split; [|split; [|split]].
  - exact (proj1 (handle_regular_event_edit_single Scenario.vet_2027 Scenario.leap_form
                    Scenario.no_reminder false (Date 2028 2 29) Scenario.db_vet
                    eq_refl eq_refl eq_refl) eq_refl).
  - exact (proj1 (proj2 (handle_regular_event_edit_single
                           (Scenario.row 4 "Checkup" (Date 2027 3 15) false None)
                           Scenario.single_form Scenario.repeat_with_date true
                           (Date 2026 3 15) Scenario.db_vet_checkup
                           eq_refl eq_refl eq_refl)) eq_refl eq_refl).
  - exact (proj1 (proj1 (proj1 (proj2 (proj2 (proj2 (handle_regular_event_edit_single
                                  Scenario.vet_2027
                                  Scenario.checkup_form Scenario.repeat_with_date false
                                  (Date 2026 4 20) Scenario.db_vet
                                  eq_refl eq_refl eq_refl))
                   eq_refl eq_refl eq_refl)) eq_refl (or_introl eq_refl)))).
  - exact (proj2 (proj2 (proj2 (proj2 (proj2 (handle_regular_event_edit_single
                                  Scenario.vet_2027
                                  Scenario.checkup_form Scenario.leap_reminder false
                                  (Date 2026 4 20) Scenario.db_vet
                                  eq_refl eq_refl eq_refl))
                   eq_refl eq_refl eq_refl)) (Date 2028 2 29) eq_refl eq_refl eq_refl)
               eq_refl).
Defined.

Lemma save_details_run tv dur nt batch :
  forall db,
    Forall (fun e => is_some (ev_id e) = true) batch ->
    exists db',
      save_details batch tv dur nt db
      = (inr (map (fun e => with_details e tv dur nt) batch), db')
      /\ reminders db' = reminders db /\ next_id db' = next_id db
      /\ events db'
         = fold_left (fun rows e =>
                        map (fun r => if opt_Z_eqb (ev_id r) (ev_id e)
                                      then with_details e tv dur nt else r) rows)
                     batch (events db).
Proof.
  induction batch as [|e rest IH]; intros db K.
  - exists db. repeat split.
  - inversion K as [|? ? Ke Kr]; subst. cbn [save_details]. unfold bind, ORM.save.
    cbn [with_details ev_id]. destruct (ev_id e) as [i|] eqn:Ei; [|discriminate].
    match goal with |- context [save_details rest tv dur nt ?d] =>
      destruct (IH d Kr) as (db' & E & Rm & Nx & Ev) end.
    rewrite E. exists db'. unfold ret. cbn [map fold_left].
    split; [reflexivity|]. split; [exact Rm|]. split; [exact Nx|].
    rewrite Ev. cbn [events set_events]. rewrite Ei. reflexivity.
Qed.

Lemma filter_keeps_unique_ids (sel : Event -> bool) (rows : list Event) :
  NoDup (map ev_id rows) -> NoDup (map ev_id (filter sel rows)).
Proof.
  intros N. induction rows as [|x rows IH]; [exact N|]. cbn [map] in N.
  inversion N as [|? ? Nx Nl]; subst. cbn [filter]. destruct (sel x); [|auto].
  cbn [map]. constructor; [|auto]. intros I. apply Nx.
  apply in_map_iff in I as (y & E & I). apply filter_In in I as [I _].
  rewrite <- E. apply in_map, I.
Qed.

Lemma same_id_same_row (rows : list Event) (r e : Event) :
  NoDup (map ev_id rows) -> In r rows -> In e rows -> ev_id r = ev_id e -> r = e.
Proof.
  induction rows as [|x rows IH]; intros N Ir Ie E; [destruct Ir|].
  cbn [map] in N. inversion N as [|? ? Nx Nl]; subst.
  destruct Ir as [->|Ir], Ie as [->|Ie]; auto.
  - exfalso. apply Nx. rewrite E. apply in_map, Ie.
  - exfalso. apply Nx. rewrite <- E. apply in_map, Ir.
Qed.

Lemma fold_details tv dur nt batch :
  forall rows,
    NoDup (map ev_id rows) -> NoDup (map ev_id batch) ->
    (forall e, In e batch -> In e rows) ->
    fold_left (fun rows e =>
                 map (fun r => if opt_Z_eqb (ev_id r) (ev_id e)
                               then with_details e tv dur nt else r) rows)
              batch rows
    = map (fun r => if existsb (fun e => opt_Z_eqb (ev_id r) (ev_id e)) batch
                    then with_details r tv dur nt else r) rows.
Proof.
  induction batch as [|e rest IH]; intros rows N Nb Sub.
  - cbn [fold_left existsb]. symmetry. apply map_id.
  - cbn [fold_left]. cbn [map] in Nb. inversion Nb as [|? ? Ne Nr]; subst.
    set (rows1 := map (fun r => if opt_Z_eqb (ev_id r) (ev_id e)
                                then with_details e tv dur nt else r) rows).
    assert (Ids : map ev_id rows1 = map ev_id rows).
    { subst rows1. rewrite map_map. apply map_ext_in. intros r _.
      destruct (opt_Z_eqb (ev_id r) (ev_id e)) eqn:E; [|reflexivity].
      apply opt_Z_eqb_eq in E. symmetry. exact E. }
    rewrite IH; [|rewrite Ids; exact N|exact Nr|].
    + subst rows1. rewrite map_map. apply map_ext_in. intros r Ir. cbn [existsb].
      destruct (opt_Z_eqb (ev_id r) (ev_id e)) eqn:E.
      * apply opt_Z_eqb_eq in E.
        rewrite (same_id_same_row rows r e N Ir (Sub e (or_introl eq_refl)) E).
        cbn [with_details ev_id orb].
        replace (existsb _ rest) with false; [reflexivity|].
        symmetry. apply not_true_is_false. intros X.
        apply existsb_exists in X as (y & Iy & Ey). apply opt_Z_eqb_eq in Ey.
        apply Ne. rewrite Ey. apply in_map, Iy.
      * reflexivity.
    + intros y Iy. subst rows1. apply in_map_iff. exists y. split; [|apply Sub; right; exact Iy].
      destruct (opt_Z_eqb (ev_id y) (ev_id e)) eqn:E; [|reflexivity].
      exfalso. apply opt_Z_eqb_eq in E. apply Ne. rewrite <- E. apply in_map, Iy.
Qed.

Lemma save_reminders_for_events_returns batch rd :
  repeat rd = true \/ remind_date rd = None ->
  Forall (fun ev => is_some (ev_id ev) = true) batch ->
  forall db, exists rs db', save_reminders_for_events batch rd db = (inr rs, db').
Proof.
  intros R. induction batch as [|ev rest IH]; intros Saved db.
  - exists [], db. reflexivity.
  - inversion Saved as [|? ? Sev Srest]; subst.
    cbn [save_reminders_for_events]. unfold bind.
    destruct (is_some (remind_at rd)) eqn:A.
    + destruct (save_reminder_stores ev rd true db None A
                  (reminder_date_none ev rd true R) Sev)
        as (s & db1 & E & _).
      rewrite E. destruct (IH Srest db1) as (rs & db' & E2). rewrite E2.
      eexists. eexists. reflexivity.
    + rewrite (save_reminder_noop ev rd true db A).
      destruct (IH Srest db) as (rs & db' & E2). rewrite E2.
      eexists. eexists. reflexivity.
Qed.

Lemma handle_birthday_edit_run (event : Event) (time_val : option time)
    (duration_ : option Z) (note_ : string) (rd : ReminderFormData)
    (apply_to_all : bool) (db : DB) :
  NoDup (map ev_id (events db)) ->
  Forall (fun r => is_some (ev_id r) = true) (events db) ->
  In event (events db) ->
  let out := _handle_birthday_edit event time_val duration_ note_ rd apply_to_all db in
  (forall e, fst out = inl e -> snd out = db)
  /\ (forall resp, fst out = inr resp ->
        resp = RedirectToCalendar (ev_pet event) (ev_date event)
        /\ events (snd out)
           = map (fun r => if birthday_edit_selects event apply_to_all r
                           then with_details r time_val duration_ note_ else r)
                 (events db)
        /\ next_id (snd out) = next_id db)
  /\ (repeat rd = true \/ remind_date rd = None -> exists resp, fst out = inr resp).
Proof.
  intros N K I out.
  set (batch := if apply_to_all
                then filter (fun r => (ev_pet r =? ev_pet event)
                                      && String.eqb (ev_event_type r) "birthday"
                                      && ev_is_yearly r) (events db)
                else [event]).
  assert (Sub : forall e, In e batch -> In e (events db)).
  { subst batch. destruct apply_to_all.
    - intros e Ie. apply filter_In in Ie as [Ie _]. exact Ie.
    - intros e [<-|[]]. exact I. }
  assert (Nb : NoDup (map ev_id batch)).
  { subst batch. destruct apply_to_all.
    - apply filter_keeps_unique_ids, N.
    - repeat constructor. intros []. }
  assert (Sel : forall r, In r (events db) ->
                  existsb (fun e => opt_Z_eqb (ev_id r) (ev_id e)) batch
                  = birthday_edit_selects event apply_to_all r).
  { intros r Ir. subst batch. unfold birthday_edit_selects. destruct apply_to_all.
    - match goal with |- _ = ?s => destruct s eqn:S end.
      + apply existsb_exists. exists r. split; [|apply opt_Z_eqb_refl].
        apply filter_In. split; assumption.
      + apply not_true_is_false. intros X.
        apply existsb_exists in X as (y & Iy & Ey). apply opt_Z_eqb_eq in Ey.
        apply filter_In in Iy as [Iy Sy].
        rewrite (same_id_same_row (events db) r y N Ir Iy Ey) in S. congruence.
    - cbn [existsb]. apply orb_false_r. }
  assert (Kb : Forall (fun e => is_some (ev_id e) = true) batch).
  { apply Forall_forall. intros e Ie.
    exact (proj1 (Forall_forall _ _) K e (Sub e Ie)). }
  destruct (save_details_run time_val duration_ note_ batch db Kb)
    as (db1 & E1 & Rm1 & Nx1 & Ev1).
  rewrite (fold_details time_val duration_ note_ batch (events db) N Nb Sub) in Ev1.
  rewrite (map_ext_in _ _ _
             (fun r Ir => f_equal (fun b : bool =>
                                     if b then with_details r time_val duration_ note_
                                     else r) (Sel r Ir))) in Ev1.
  set (edited := map (fun e => with_details e time_val duration_ note_) batch) in *.
  assert (Run : out
                = match save_reminders_for_events edited rd db1 with
                  | (inr _, db2) =>
                      (inr (RedirectToCalendar (ev_pet event) (ev_date event)), db2)
                  | (inl e, _) => (inl e, db)
                  end).
  { subst out. unfold _handle_birthday_edit, atomic, bind.
    assert (B : (if apply_to_all
                 then query (fun db0 =>
                        filter (fun r => (ev_pet r =? ev_pet event)
                                         && String.eqb (ev_event_type r) "birthday"
                                         && ev_is_yearly r) (events db0))
                 else ret [event]) db = (inr batch, db)).
    { subst batch. destruct apply_to_all; reflexivity. }
    rewrite B, E1.
    destruct (save_reminders_for_events edited rd db1) as [[e|rs] db2]; reflexivity. }
  pose proof (save_reminders_preserve
                (fun d => events d = events db1 /\ next_id d = next_id db1) rd
                (fun ev d H => conj (eq_trans (save_reminder_keeps_events ev rd true d)
                                              (proj1 H))
                                    (eq_trans (save_reminder_keeps_next_id ev rd true d)
                                              (proj2 H)))
                edited db1 (conj eq_refl eq_refl)) as [Ev2 Nx2].
  rewrite Run. split; [|split].
  - intros e. destruct (save_reminders_for_events edited rd db1) as [[e'|rs] db2];
      [reflexivity|discriminate].
  - intros resp. destruct (save_reminders_for_events edited rd db1) as [[e'|rs] db2];
      [discriminate|]. cbn [fst snd] in *. intros [= <-].
    split; [reflexivity|]. split; [rewrite Ev2; exact Ev1|rewrite Nx2; exact Nx1].
  - intros R.
    assert (Ke : Forall (fun e => is_some (ev_id e) = true) edited).
    { subst edited. apply Forall_forall. intros e Ie.
      apply in_map_iff in Ie as (e0 & <- & Ie0).
      exact (proj1 (Forall_forall _ _) Kb e0 Ie0). }
    destruct (save_reminders_for_events_returns edited rd R Ke db1)
      as (rs & db2 & E2).
    rewrite E2. eexists. reflexivity.
Qed.

(** Editing a stored birthday entry through [_handle_edit_post] changes the
    time, the duration and the note of the selected rows (the entry, or all
    yearly birthday events of the pet) and nothing else: the title, the date
    and the type the form carries are ignored, and all other rows stay.  An
    exception leaves the table as it was.  With a reminder that repeats or
    has no absolute date the view returns the redirect to the entry's
    date. *)
Theorem edit_post_birthday_frame (event : Event) (event_data : EventFormData)
    (rd : ReminderFormData) (apply_to_all : bool) (db : DB) :
  ev_event_type event = "birthday"%string ->
  NoDup (map ev_id (events db)) ->
  Forall (fun r => is_some (ev_id r) = true) (events db) ->
  In event (events db) ->
  let out := _handle_edit_post event event_data rd apply_to_all db in
  (forall e, fst out = inl e -> snd out = db)
  /\ (forall resp, fst out = inr resp ->
        resp = RedirectToCalendar (ev_pet event) (ev_date event)
        /\ events (snd out)
           = map (fun r => if birthday_edit_selects event apply_to_all r
                           then with_details r (time_ event_data) (duration event_data)
                                             (note event_data)
                           else r)
                 (events db)
        /\ next_id (snd out) = next_id db)
  /\ (repeat rd = true \/ remind_date rd = None -> exists resp, fst out = inr resp).
Proof.
  intros T N K I. unfold _handle_edit_post. rewrite T. cbn [String.eqb].
  change (String.eqb "birthday" "birthday") with true. cbv iota.
  apply handle_birthday_edit_run; assumption.
Qed.

Lemma edit_post_birthday_frame_witness :
  let out := _handle_edit_post Scenario.old_birthday Scenario.checkup_form
                               Scenario.repeat_with_date true Scenario.db_birthday in
  fst out = inr (RedirectToCalendar Scenario.pet (Date 2025 2 28))
  /\ events (snd out)
     = Scenario.vet_series
       ++ [with_details Scenario.old_birthday (Some Scenario.nine) (Some 30)
                        "bring the passport"].
Proof.
  destruct (edit_post_birthday_frame Scenario.old_birthday Scenario.checkup_form
              Scenario.repeat_with_date true Scenario.db_birthday eq_refl
              ltac:(cbv; nodup_concrete) ltac:(repeat constructor)
              ltac:(cbv; auto 10)) as (_ & Ok & Ret).
  destruct (Ret (or_introl eq_refl)) as (resp & E).
  destruct (Ok resp E) as (-> & Ev & _).
  cbv zeta. split; [exact E|]. rewrite Ev. reflexivity.
Defined.

(** ** [ReminderFormData.from_post] *)

Lemma parse_with_returns {A} (min_len : nat) (parser : string -> exn + A) value :
  (forall s e, parser s = inl e -> e = ValueError) ->
  exists o, parse_with min_len parser value = inr o.
Proof.
  intros P. unfold parse_with. destruct value as [v|]; [|eexists; reflexivity].
  destruct (_ || _); [eexists; reflexivity|].
  destruct (parser v) as [e|x] eqn:E; [|eexists; reflexivity].
  rewrite (P v e E). eexists. reflexivity.
Qed.

(** With parsers that raise nothing but [ValueError], as [strptime] and
    [int] do on strings, [ReminderFormData.from_post] returns form data for
    every POST: [repeat] is set exactly by the value [on]; a repeating
    reminder carries no absolute date, a reminder that does not repeat
    carries no weekdays, and the interval is at least 1, whatever was
    posted. *)
Theorem from_post_returns_exclusive (strptime_time : string -> exn + time)
    (strptime_date : string -> exn + date) (int_of_str : string -> exn + Z)
    (post_data : QueryDict) :
  (forall s e, strptime_time s = inl e -> e = ValueError) ->
  (forall s e, strptime_date s = inl e -> e = ValueError) ->
  (forall s e, int_of_str s = inl e -> e = ValueError) ->
  exists rd,
    from_post strptime_time strptime_date int_of_str post_data = inr rd
    /\ repeat rd = option_str_eqb (qd_get post_data "repeat") "on"
    /\ (repeat rd = true ->
        remind_date rd = None /\ repeat_days rd = qd_getlist post_data "repeat_days")
    /\ (repeat rd = false -> repeat_days rd = [])
    /\ 1 <= repeat_every rd.
Proof.
  intros Pt Pd Pi. unfold from_post, parse_int, parse_time, parse_date.
  destruct (parse_with_returns 0 int_of_str (qd_get post_data "repeat_every") Pi)
    as (parsed & ->).
  destruct (parse_with_returns 5 strptime_time (qd_get post_data "remind_at") Pt)
    as (at_ & ->).
  assert (B : 1 <= (let n := match parsed with
                             | Some n => if n =? 0 then 1 else n
                             | None => 1
                             end in if n <=? 0 then 1 else n)).
  { cbv zeta. destruct parsed as [n|]; [|cbn; lia].
    destruct (n =? 0); [cbn; lia|].
    destruct (n <=? 0) eqn:L; [lia|]. apply Z.leb_gt in L. lia. }
  destruct (option_str_eqb (qd_get post_data "repeat") "on"); cbn [negb].
  - eexists. split; [reflexivity|]. cbn [repeat remind_date repeat_days repeat_every].
    split; [reflexivity|]. split; [auto|]. split; [discriminate|exact B].
  - destruct (parse_with_returns 10 strptime_date (qd_get post_data "remind_date") Pd)
      as (d & ->).
    eexists. split; [reflexivity|]. cbn [repeat remind_date repeat_days repeat_every].
    split; [reflexivity|]. split; [discriminate|]. split; [reflexivity|exact B].
Qed.

Lemma from_post_returns_exclusive_witness :
  exists rd,
    from_post (fun _ => inr (Time 9 0)) (fun _ => inr (Date 2026 3 14))
              (fun _ => inl ValueError)
              {| qd_get := fun k => if String.eqb k "repeat_every" then Some "x"
                                    else Some "on-or-longer";
                 qd_getlist := fun _ => ["0"; "3"] |} = inr rd
    /\ repeat rd = false /\ repeat_days rd = [] /\ 1 <= repeat_every rd.
Proof.
  destruct (from_post_returns_exclusive
              (fun _ => inr (Time 9 0)) (fun _ => inr (Date 2026 3 14))
              (fun _ => inl ValueError)
              {| qd_get := fun k => if String.eqb k "repeat_every" then Some "x"
                                    else Some "on-or-longer";
                 qd_getlist := fun _ => ["0"; "3"] |}
              ltac:(discriminate) ltac:(discriminate)
              ltac:(intros s e [= <-]; reflexivity))
    as (rd & E & R & _ & Days & B).
  exists rd. split; [exact E|]. split; [exact R|]. split; [exact (Days R)|exact B].
Defined.
